(** * Access control and compliance audit subsystem of blood-chem-app

    A shallow embedding of the server-side JavaScript that authenticates
    requests, enforces the authorization gate, classifies request/response
    pairs into audit entries and exports them, together with the properties
    the specification states about that code.

    Source files covered:
    - [server/middleware/audit.js]   (module [AuditMiddleware])
    - [server/models/Audit.js]       (module [AuditModel])
    - [server/models/User.js]        (module [UserModel])
    - [server/routes/auth.js]        (module [AuthRoutes])
    - the authentication middleware  (module [AuthMiddleware])
    - the audit routes, CSV export   (modules [AuditRoutes], [AuditListing])
    - the queries of the audit model (modules [AuditInstance], [AuditQueries])
    - the other routes of [server/routes/auth.js] (module [AccountRoutes])
    - the global error handler       (module [ErrorHandling])
    - the session timeout middleware (module [SessionTimeout])
    - the lab summary of the report routes (module [LabSummary])

    The properties follow the embedding: [ClassifierFacts] (classifier and
    audit writer), [LockoutFacts] (login and lockout), [GateFacts] (token
    authenticator and authorization gate), [ExportFacts] (flat-file
    export, read back with the format of [CsvFormat]), then
    [SanitizerFacts], [ResourceIdFacts] and [ClassificationFacts] (the
    fields of an automatic entry), [QueryFacts] and [ListingFacts] (the
    queries and routes over the audit log), [AccountFacts] (logout,
    refresh, training, profile, and the token a login hands out),
    [ErrorFacts], [SessionFacts] and [LabSummaryFacts]. *)

From Stdlib Require Import ZArith String Ascii List Bool Lia Permutation Sorted.
From stdpp Require Import base option list gmap strings pretty.

Set Warnings "-register-all".
Local Open Scope Z_scope.
Local Open Scope string_scope.

(* ===================================================================== *)
(** * JavaScript values and the few primitives the code relies on        *)
(* ===================================================================== *)

Module Js.

(** A JavaScript value.  Objects are finite maps from property names to
    values; arrays are objects whose keys are indices. *)
Inductive JsVal : Type :=
| VUndefined
| VNull
| VBool (b : bool)
| VNum (n : Z)
| VNaN
| VStr (s : string)
| VObj (props : gmap string JsVal).

(** An exception object: only its [name], [message] and (for the
    application's own error classes) [statusCode] are ever inspected. *)
Record JsError := mkError {
  errName : string;
  errMessage : string;
  errStatusCode : option Z
}.

(** Computations that may throw. *)
Inductive Exc (A : Type) : Type :=
| Ok (a : A)
| Throw (e : JsError).
Arguments Ok {A} a.
Arguments Throw {A} e.

Definition exc_bind {A B} (m : Exc A) (k : A -> Exc B) : Exc B :=
  match m with
  | Ok a => k a
  | Throw e => Throw e
  end.

(** [try { m } catch (e) { h e }] *)
Definition exc_catch {A} (m : Exc A) (h : JsError -> A) : A :=
  match m with
  | Ok a => a
  | Throw e => h e
  end.

Definition TypeError (msg : string) : JsError := mkError "TypeError" msg None.

(** ToBoolean. *)
Definition truthy (v : JsVal) : bool :=
  match v with
  | VUndefined | VNull | VNaN => false
  | VBool b => b
  | VNum n => negb (n =? 0)%Z
  | VStr s => negb (String.eqb s "")
  | VObj _ => true
  end.

(** [a || b] *)
Definition jsOr (a b : JsVal) : JsVal := if truthy a then a else b.

(** [v.key] : reading a property of [undefined] or [null] throws a
    TypeError; a primitive has none of the properties the code reads;
    a missing property of an object reads as [undefined]. *)
Definition getProp (v : JsVal) (key : string) : Exc JsVal :=
  match v with
  | VUndefined | VNull =>
      Throw (TypeError ("Cannot read properties of undefined or null: " +:+ key))
  | VObj props => Ok (default VUndefined (props !! key))
  | _ => Ok VUndefined
  end.

(** A nullable string as a JavaScript value. *)
Definition ofOptStr (o : option string) : JsVal :=
  match o with
  | Some s => VStr s
  | None => VNull
  end.

(** [s.includes(sub)] on strings. *)
Fixpoint includes (s sub : string) : bool :=
  String.prefix sub s ||
  match s with
  | EmptyString => false
  | String _ rest => includes rest sub
  end.

(** [arr.join(sep)] on an array of strings. *)
Fixpoint join (sep : string) (parts : list string) : string :=
  match parts with
  | [] => ""
  | [p] => p
  | p :: rest => p +:+ sep +:+ join sep rest
  end.

(** [s.split(c)] for a one-character separator. *)
Fixpoint split (c : ascii) (s : string) : list string :=
  match s with
  | EmptyString => [""]
  | String a rest =>
      if Ascii.eqb a c then "" :: split c rest
      else match split c rest with
           | [] => [String a ""]
           | p :: ps => String a p :: ps
           end
  end.

(** [s.toLowerCase()], on the ASCII range. *)
Definition lowerAscii (c : ascii) : ascii :=
  let n := nat_of_ascii c in
  if ((65 <=? n)%nat && (n <=? 90)%nat) then ascii_of_nat (n + 32) else c.

Fixpoint toLowerCase (s : string) : string :=
  match s with
  | EmptyString => EmptyString
  | String c rest => String (lowerAscii c) (toLowerCase rest)
  end.

(** ToString, as used by template literals.  Objects print the way
    [Object.prototype.toString] prints them. *)
Definition toString (v : JsVal) : string :=
  match v with
  | VUndefined => "undefined"
  | VNull => "null"
  | VBool true => "true"
  | VBool false => "false"
  | VNum n => pretty n
  | VNaN => "NaN"
  | VStr s => s
  | VObj _ => "[object Object]"
  end.

End Js.
Import Js.

Declare Scope exc_scope.
Delimit Scope exc_scope with exc.
Notation "'let?' x ':=' m 'in' k" :=
  (exc_bind m (fun x => k))
  (at level 10, x name, m at level 100, k at level 200) : exc_scope.

(* ===================================================================== *)
(** * server/models/Audit.js                                             *)
(* ===================================================================== *)

Module AuditModel.

(** [resourceType] ENUM. *)
Inductive ResourceType :=
| rt_user | rt_patient | rt_document | rt_report | rt_auth | rt_system.

(** [eventType] ENUM. *)
Inductive EventType :=
| ev_create | ev_read | ev_update | ev_delete
| ev_login | ev_logout | ev_failed_login | ev_password_change
| ev_data_export | ev_data_import | ev_file_upload | ev_file_download
| ev_report_generation | ev_access_denied | ev_system_error.

(** [severity] ENUM. *)
Inductive Severity := sev_low | sev_medium | sev_high | sev_critical.

(** [status] ENUM. *)
Inductive Status := st_success | st_failure | st_warning.

Definition eventTypeName (e : EventType) : string :=
  match e with
  | ev_create => "create" | ev_read => "read" | ev_update => "update"
  | ev_delete => "delete" | ev_login => "login" | ev_logout => "logout"
  | ev_failed_login => "failed_login"
  | ev_password_change => "password_change"
  | ev_data_export => "data_export" | ev_data_import => "data_import"
  | ev_file_upload => "file_upload" | ev_file_download => "file_download"
  | ev_report_generation => "report_generation"
  | ev_access_denied => "access_denied"
  | ev_system_error => "system_error"
  end.

Definition severityName (s : Severity) : string :=
  match s with
  | sev_low => "low" | sev_medium => "medium"
  | sev_high => "high" | sev_critical => "critical"
  end.

Definition statusName (s : Status) : string :=
  match s with
  | st_success => "success" | st_failure => "failure" | st_warning => "warning"
  end.

(** The object handed to [Audit.createEntry].  A field the caller leaves
    out is [None] (the column default applies when the row is stored). *)
Record AuditData := mkAuditData {
  userId : option string;
  sessionId : option string;
  ipAddress : option string;
  userAgent : option string;
  action : string;
  resource : option string;
  resourceId : option string;
  resourceType : option ResourceType;
  eventType : EventType;
  severity : option Severity;
  status : option Status;
  details : option JsVal;
  newValues : option JsVal;
  errorMessage : option JsVal;
  phiAccessed : option bool;
  phiFields : option (list string);
  purpose : option string;
  location : option string;
  context : option string;
  duration : option Z
}.

(** A stored row: [Audit.createEntry] spreads the data and stamps it. *)
Record AuditRow := mkAuditRow {
  rowData : AuditData;
  timestamp : Z
}.

(** The literal most call sites build: ten fields, everything else absent. *)
Definition manualEntry (uid ip ua : option string) (act : string)
    (ev : EventType) (sev : Severity) (st : Status)
    (err : option string) (res ctx : string) : AuditData :=
  {| userId := uid; sessionId := None; ipAddress := ip; userAgent := ua;
     action := act; resource := Some res; resourceId := None;
     resourceType := None; eventType := ev; severity := Some sev;
     status := Some st; details := None; newValues := None;
     errorMessage := VStr <$> err; phiAccessed := None; phiFields := None;
     purpose := None; location := None; context := Some ctx;
     duration := None |}.

End AuditModel.
Import AuditModel.

(* ===================================================================== *)
(** * server/models/User.js                                              *)
(* ===================================================================== *)

Module UserModel.

(** A row of the [users] table, restricted to the columns the access
    control code reads or writes.  Dates are milliseconds since the epoch. *)
Record User := mkUser {
  id : string;
  email : string;
  password : string;
  role : string;
  isActive : bool;
  lastLogin : option Z;
  passwordChangedAt : option Z;
  failedLoginAttempts : Z;
  lockedUntil : option Z;
  hipaaTrainingCompleted : bool;
  hipaaTrainingDate : option Z;
  dataAccessLevel : string
}.

Definition set_password (v : string) (u : User) : User :=
  {| id := id u; email := email u; password := v; role := role u;
     isActive := isActive u; lastLogin := lastLogin u;
     passwordChangedAt := passwordChangedAt u;
     failedLoginAttempts := failedLoginAttempts u;
     lockedUntil := lockedUntil u;
     hipaaTrainingCompleted := hipaaTrainingCompleted u;
     hipaaTrainingDate := hipaaTrainingDate u;
     dataAccessLevel := dataAccessLevel u |}.

Definition set_passwordChangedAt (v : option Z) (u : User) : User :=
  {| id := id u; email := email u; password := password u; role := role u;
     isActive := isActive u; lastLogin := lastLogin u;
     passwordChangedAt := v;
     failedLoginAttempts := failedLoginAttempts u;
     lockedUntil := lockedUntil u;
     hipaaTrainingCompleted := hipaaTrainingCompleted u;
     hipaaTrainingDate := hipaaTrainingDate u;
     dataAccessLevel := dataAccessLevel u |}.

Definition set_failedLoginAttempts (v : Z) (u : User) : User :=
  {| id := id u; email := email u; password := password u; role := role u;
     isActive := isActive u; lastLogin := lastLogin u;
     passwordChangedAt := passwordChangedAt u;
     failedLoginAttempts := v;
     lockedUntil := lockedUntil u;
     hipaaTrainingCompleted := hipaaTrainingCompleted u;
     hipaaTrainingDate := hipaaTrainingDate u;
     dataAccessLevel := dataAccessLevel u |}.

Definition set_lockedUntil (v : option Z) (u : User) : User :=
  {| id := id u; email := email u; password := password u; role := role u;
     isActive := isActive u; lastLogin := lastLogin u;
     passwordChangedAt := passwordChangedAt u;
     failedLoginAttempts := failedLoginAttempts u;
     lockedUntil := v;
     hipaaTrainingCompleted := hipaaTrainingCompleted u;
     hipaaTrainingDate := hipaaTrainingDate u;
     dataAccessLevel := dataAccessLevel u |}.

Definition set_lastLogin (v : option Z) (u : User) : User :=
  {| id := id u; email := email u; password := password u; role := role u;
     isActive := isActive u; lastLogin := v;
     passwordChangedAt := passwordChangedAt u;
     failedLoginAttempts := failedLoginAttempts u;
     lockedUntil := lockedUntil u;
     hipaaTrainingCompleted := hipaaTrainingCompleted u;
     hipaaTrainingDate := hipaaTrainingDate u;
     dataAccessLevel := dataAccessLevel u |}.

Section Hooks.
(** [bcrypt.hash(password, rounds)] *)
Variable bcrypt_hash : string -> string.

(** [hooks.beforeUpdate]: runs inside [save()] on an existing row;
    [changedPassword] is [user.changed('password')]. *)
Definition beforeUpdate (now : Z) (changedPassword : bool) (u : User) : User :=
  if changedPassword then
    set_passwordChangedAt (Some now) (set_password (bcrypt_hash (password u)) u)
  else u.
End Hooks.

(** [toJSON]: the row without [password] (and [mfaSecret]). *)
Definition optNum (o : option Z) : JsVal :=
  match o with
  | Some n => VNum n
  | None => VNull
  end.

Definition toJSON (u : User) : JsVal :=
  VObj (<["id" := VStr (id u)]>
       (<["email" := VStr (email u)]>
       (<["role" := VStr (role u)]>
       (<["isActive" := VBool (isActive u)]>
       (<["lastLogin" := optNum (lastLogin u)]>
       (<["passwordChangedAt" := optNum (passwordChangedAt u)]>
       (<["failedLoginAttempts" := VNum (failedLoginAttempts u)]>
       (<["lockedUntil" := optNum (lockedUntil u)]>
       (<["hipaaTrainingCompleted" := VBool (hipaaTrainingCompleted u)]>
       (<["hipaaTrainingDate" := optNum (hipaaTrainingDate u)]>
       (<["dataAccessLevel" := VStr (dataAccessLevel u)]> ∅))))))))))).

End UserModel.
Import UserModel.

(* ===================================================================== *)
(** * The world a request runs in                                        *)
(* ===================================================================== *)

Module Runtime.

(** What a handler does besides touching the two tables. *)
Inductive Event :=
| EvValidatePassword (uid : string)      (* bcrypt.compare was called *)
| EvConsoleError (prefix : string) (e : JsError)
| EvUnhandledRejection (e : JsError).     (* a promise nobody awaits rejected *)

(** The shared state: the [users] table, the [audit_logs] table, and the
    trace of password checks and operational error reports. *)
Record World := mkWorld {
  users : list User;
  auditLog : list AuditRow;
  trace : list Event
}.

(** An effectful computation: reads and writes the world, may throw
    (an [async] function whose promise rejects). *)
Definition M (A : Type) : Type := World -> Exc A * World.

Definition ret {A} (a : A) : M A := fun w => (Ok a, w).

Definition bind {A B} (m : M A) (k : A -> M B) : M B :=
  fun w =>
    match m w with
    | (Ok a, w') => k a w'
    | (Throw e, w') => (Throw e, w')
    end.

Definition throw {A} (e : JsError) : M A := fun w => (Throw e, w).

(** [try { m } catch (e) { h e }] *)
Definition tryCatch {A} (m : M A) (h : JsError -> M A) : M A :=
  fun w =>
    match m w with
    | (Ok a, w') => (Ok a, w')
    | (Throw e, w') => h e w'
    end.

Definition liftExc {A} (m : Exc A) : M A := fun w => (m, w).

Definition emit (ev : Event) : M unit :=
  fun w => (Ok tt, {| users := users w; auditLog := auditLog w;
                      trace := trace w ++ [ev] |}).

(** The world after the store accepted [d], and after an error report. *)
Definition appendAudit (d : AuditData) (now : Z) (w : World) : World :=
  {| users := users w; auditLog := auditLog w ++ [mkAuditRow d now];
     trace := trace w |}.

Definition logError (prefix : string) (e : JsError) (w : World) : World :=
  {| users := users w; auditLog := auditLog w;
     trace := trace w ++ [EvConsoleError prefix e] |}.

(** [console.error(prefix, e)] *)
Definition console_error (prefix : string) (e : JsError) : M unit :=
  emit (EvConsoleError prefix e).

(** How a middleware or handler invocation ends. *)
Inductive Flow :=
| Responded (statusCode : Z) (payload : JsVal)  (* res.status(c).json(p) *)
| Next                                          (* next() *)
| NextError (e : JsError)                       (* next(err) *)
| Rejected (e : JsError).                       (* promise rejected, unhandled *)

Definition setUsers (us : list User) (w : World) : World :=
  {| users := us; auditLog := auditLog w; trace := trace w |}.

(** [User.findByEmail(email)]: [findOne({ where: { email: email.toLowerCase() } })] *)
Definition User_findByEmail (email_ : string) : M (option User) :=
  fun w => (Ok (find (fun u => String.eqb (email u) (toLowerCase email_)) (users w)), w).

(** [User.findByPk(id)] *)
Definition User_findByPk (pk : string) : M (option User) :=
  fun w => (Ok (find (fun u => String.eqb (id u) pk) (users w)), w).

(** [user.save()] on an existing instance: the [beforeUpdate] hook runs,
    then the row with the instance's primary key is overwritten.  The
    instance itself carries the hook's changes afterwards. *)
Definition User_save (bcrypt_hash : string -> string) (now : Z)
    (changedPassword : bool) (u : User) : M User :=
  fun w =>
    let u' := beforeUpdate bcrypt_hash now changedPassword u in
    (Ok u', setUsers (map (fun r => if String.eqb (id r) (id u') then u' else r)
                          (users w)) w).

(** [user.validatePassword(password)]: [bcrypt.compare(password, this.password)] *)
Definition User_validatePassword (bcrypt_compare : string -> string -> bool)
    (u : User) (pw : JsVal) : M bool :=
  fun w =>
    match pw with
    | VStr s =>
        (Ok (bcrypt_compare s (password u)),
         {| users := users w; auditLog := auditLog w;
            trace := trace w ++ [EvValidatePassword (id u)] |})
    | _ => (Throw (mkError "Error" "Illegal arguments" None), w)
    end.

(** [asyncHandler(fn)]: a rejection of [fn] goes to [next(err)]. *)
Definition asyncHandler (fn : M Flow) : World -> Flow * World :=
  fun w =>
    match fn w with
    | (Ok f, w') => (f, w')
    | (Throw e, w') => (NextError e, w')
    end.

(** An [async] middleware registered as it is: a rejection of its promise
    is handled by nobody, and no response is sent. *)
Definition asyncMiddleware {A} (fn : M (Flow * A)) (dflt : A)
    : World -> (Flow * A) * World :=
  fun w =>
    match fn w with
    | (Ok r, w') => (r, w')
    | (Throw e, w') => ((Rejected e, dflt), w')
    end.

(** The application's error classes (all of them keep [Error]'s name). *)
Definition ValidationError (msg : string) : JsError := mkError "Error" msg (Some 400%Z).
Definition AuthenticationError (msg : string) : JsError := mkError "Error" msg (Some 401%Z).

(** The request object, as far as the code reads it.  [headers] is keyed
    by lower-case header name ([req.get] and [req.headers] are
    case-insensitive). *)
Record Request := mkRequest {
  method : string;
  originalUrl : string;
  body : JsVal;
  query : JsVal;
  ip : option string;
  remoteAddress : option string;
  headers : gmap string string;
  sessionID : option string;
  user : option User
}.

Definition reqGet (req : Request) (name : string) : option string :=
  headers req !! name.

(** [a || b] on nullable strings. *)
Definition orStr (a b : option string) : option string :=
  match a with
  | Some s => if String.eqb s "" then b else Some s
  | None => b
  end.

(** An object literal with two string fields, the shape of every error
    reply. *)
Definition errorBody (err msg : string) : JsVal :=
  VObj (<["error" := VStr err]> (<["message" := VStr msg]> ∅)).

Section AuditStore.
(** The audit store may reject a write: [auditFault d] is the error it
    raises for [d], if any. *)
Variable auditFault : AuditData -> option JsError.

(** [Audit.createEntry(data)]: [this.create({...data, timestamp: new Date()})] *)
Definition Audit_createEntry (now : Z) (data : AuditData) : M unit :=
  fun w =>
    match auditFault data with
    | Some e => (Throw e, w)
    | None =>
        (Ok tt, {| users := users w;
                   auditLog := auditLog w ++ [mkAuditRow data now];
                   trace := trace w |})
    end.
End AuditStore.

End Runtime.
Import Runtime.

Declare Scope m_scope.
Delimit Scope m_scope with M.
Notation "'let*' x ':=' m 'in' k" :=
  (bind m (fun x => k))
  (at level 10, x name, m at level 100, k at level 200) : m_scope.
Notation "m ';;' k" :=
  (bind m (fun _ => k))
  (at level 100, k at level 200, right associativity) : m_scope.

(* ===================================================================== *)
(** * server/middleware/audit.js                                         *)
(* ===================================================================== *)

Module AuditMiddleware.

Local Open Scope exc_scope.

(** The response object, as far as the audit code reads it. *)
Record Response := mkResponse { statusCode : Z }.

Definition skipAuditEndpoints : list string :=
  ["/api/health"; "/api/auth/login"; "/api/auth/refresh"; "/favicon.ico"].

Definition determineEventType (method url : string) : EventType :=
  if includes url "/auth/login" then ev_login
  else if includes url "/auth/logout" then ev_logout
  else if includes url "/auth/refresh" then ev_login
  else if String.eqb method "GET" then ev_read
  else if String.eqb method "POST" then
    if includes url "/upload" then ev_file_upload
    else if includes url "/export" then ev_data_export
    else if includes url "/report" then ev_report_generation
    else ev_create
  else if String.eqb method "PUT" || String.eqb method "PATCH" then ev_update
  else if String.eqb method "DELETE" then ev_delete
  else ev_read.

Definition determineSeverity (method url : string) (statusCode : Z) : Severity :=
  if (statusCode =? 401)%Z || (statusCode =? 403)%Z then sev_high
  else if includes url "/patients" || includes url "/documents" then sev_high
  else if includes url "/users" || includes url "/auth" then sev_medium
  else sev_low.

Definition phiEndpoints : list string :=
  ["/patients"; "/documents"; "/reports"; "/lab-results"].

Definition isPHIAccess (url method : string) : bool :=
  existsb (fun endpoint => includes url endpoint) phiEndpoints.

Definition determineResourceType (url : string) : ResourceType :=
  if includes url "/patients" then rt_patient
  else if includes url "/documents" then rt_document
  else if includes url "/users" then rt_user
  else if includes url "/reports" then rt_report
  else if includes url "/auth" then rt_auth
  else rt_system.

(** [[a-f0-9]] *)
Definition isHexLower (c : ascii) : bool :=
  let n := nat_of_ascii c in
  ((48 <=? n)%nat && (n <=? 57)%nat) || ((97 <=? n)%nat && (n <=? 102)%nat).

(** [[a-f0-9]{n}] at the head of [s]: the digits and the rest. *)
Fixpoint takeHex (n : nat) (s : string) : option (string * string) :=
  match n with
  | O => Some ("", s)
  | S n' =>
      match s with
      | String c rest =>
          if isHexLower c then
            match takeHex n' rest with
            | Some (h, rest') => Some (String c h, rest')
            | None => None
            end
          else None
      | EmptyString => None
      end
  end.

Definition takeDash (s : string) : option string :=
  match s with
  | String c rest => if Ascii.eqb c "-" then Some rest else None
  | EmptyString => None
  end.

(** The capture group [8-4-4-4-12] at the head of [s]. *)
Definition matchUuid (s : string) : option string :=
  '(g1, s1) ← takeHex 8 s; s1 ← takeDash s1;
  '(g2, s2) ← takeHex 4 s1; s2 ← takeDash s2;
  '(g3, s3) ← takeHex 4 s2; s3 ← takeDash s3;
  '(g4, s4) ← takeHex 4 s3; s4 ← takeDash s4;
  '(g5, _) ← takeHex 12 s4;
  Some (g1 +:+ "-" +:+ g2 +:+ "-" +:+ g3 +:+ "-" +:+ g4 +:+ "-" +:+ g5).

(** [url.match(/\/(uuid)/)]: the leftmost slash followed by a UUID. *)
Fixpoint extractResourceId (url : string) : option string :=
  match url with
  | EmptyString => None
  | String c rest =>
      if Ascii.eqb c "/" then
        match matchUuid rest with
        | Some u => Some u
        | None => extractResourceId rest
        end
      else extractResourceId rest
  end.

(** [if (cond) phiFields.push(label)] *)
Definition pushIf (cond : JsVal) (label : string) (phiFields : list string)
    : list string :=
  if truthy cond then phiFields ++ [label] else phiFields.

Definition extractPHIFields (body query : JsVal) : Exc (option (list string)) :=
  let phiFields := [] in
  let? phiFields :=
    if truthy body then
      let? firstName := getProp body "firstName" in
      let? name := (if truthy firstName then Ok firstName
                    else getProp body "lastName") in
      let phiFields := pushIf name "name" phiFields in
      let? dateOfBirth := getProp body "dateOfBirth" in
      let phiFields := pushIf dateOfBirth "dateOfBirth" phiFields in
      let? ssn := getProp body "ssn" in
      let phiFields := pushIf ssn "ssn" phiFields in
      let? phone := getProp body "phone" in
      let phiFields := pushIf phone "phone" phiFields in
      let? email := getProp body "email" in
      let phiFields := pushIf email "email" phiFields in
      let? address := getProp body "address" in
      let phiFields := pushIf address "address" phiFields in
      let? medicalHistory := getProp body "medicalHistory" in
      Ok (pushIf medicalHistory "medicalHistory" phiFields)
    else Ok phiFields in
  let? phiFields :=
    if truthy query then
      let? name := getProp query "name" in
      let phiFields := pushIf name "name" phiFields in
      let? dob := getProp query "dob" in
      Ok (pushIf dob "dateOfBirth" phiFields)
    else Ok phiFields in
  Ok (if (0 <? length phiFields)%nat then Some phiFields else None).

Definition extractPurpose (url method : string) : string :=
  if includes url "/patients" then "patient_care"
  else if includes url "/documents" then "medical_records"
  else if includes url "/reports" then "healthcare_operations"
  else if includes url "/auth" then "authentication"
  else "general_operations".

(** [{ ...body }] : own enumerable properties; a string spreads into its
    characters, other primitives into nothing. *)
Fixpoint spreadString (i : nat) (s : string) : gmap string JsVal :=
  match s with
  | EmptyString => ∅
  | String c rest => <[pretty i := VStr (String c "")]> (spreadString (S i) rest)
  end.

Definition spread (v : JsVal) : gmap string JsVal :=
  match v with
  | VObj props => props
  | VStr s => spreadString 0 s
  | _ => ∅
  end.

Definition sensitiveFields : list string := ["password"; "ssn"; "creditCard"; "cvv"].

Definition sanitizeRequestBody (body : JsVal) : JsVal :=
  VObj (fold_left
          (fun sanitized field =>
             if truthy (default VUndefined (sanitized !! field))
             then <[field := VStr "[REDACTED]"]> sanitized
             else sanitized)
          sensitiveFields (spread body)).

(** The derived part of an audit entry: what lines 39-52 and 74-75 of
    [createAuditEntry] compute from the request shape and the status. *)
Record Draft := mkDraft {
  d_eventType : EventType;
  d_severity : Severity;
  d_phiAccessed : bool;
  d_resourceType : ResourceType;
  d_status : Status;
  d_resourceId : option string;
  d_phiFields : option (list string);
  d_purpose : string
}.

Definition classify (method url : string) (statusCode : Z) (body query : JsVal)
    : Exc Draft :=
  let eventType := determineEventType method url in
  let severity := determineSeverity method url statusCode in
  let phiAccessed := isPHIAccess url method in
  let resourceType := determineResourceType url in
  let status := if (400 <=? statusCode)%Z then st_failure else st_success in
  let? phiFields := (if phiAccessed then extractPHIFields body query
                     else Ok None) in
  Ok {| d_eventType := eventType; d_severity := severity;
        d_phiAccessed := phiAccessed; d_resourceType := resourceType;
        d_status := status; d_resourceId := extractResourceId url;
        d_phiFields := phiFields; d_purpose := extractPurpose url method |}.

Definition optStrU (o : option string) : JsVal :=
  match o with
  | Some s => VStr s
  | None => VUndefined
  end.

Section Middleware.
Variable auditFault : AuditData -> option JsError.
(** [JSON.parse] *)
Variable JSON_parse : string -> Exc JsVal.

(** Lines 82-89: the error message taken from the response payload. *)
Definition errorMessageOf (responseData : JsVal) : JsVal :=
  exc_catch
    (let? responseObj := match responseData with
                         | VStr s => JSON_parse s
                         | v => Ok v
                         end in
     let? message := getProp responseObj "message" in
     if truthy message then Ok message
     else let? error := getProp responseObj "error" in
          Ok (jsOr error (VStr "Request failed")))
    (fun _ => VStr "Request failed").

(** The [auditData] object as it stands when it is handed to the store. *)
Definition buildAuditData (req : Request) (res : Response) (duration : Z)
    (responseData : JsVal) : Exc AuditData :=
  let? d := classify (method req) (originalUrl req) (statusCode res)
                     (body req) (query req) in
  Ok {| userId := orStr (id <$> user req) None;
        sessionId := sessionID req;
        ipAddress := orStr (ip req) (remoteAddress req);
        userAgent := reqGet req "user-agent";
        action := method req +:+ " " +:+ originalUrl req;
        resource := Some (originalUrl req);
        resourceId := d_resourceId d;
        resourceType := Some (d_resourceType d);
        eventType := d_eventType d;
        severity := Some (d_severity d);
        status := Some (d_status d);
        details := Some (VObj
          (<["method" := VStr (method req)]>
          (<["statusCode" := VNum (statusCode res)]>
          (<["duration" := VNum duration]>
          (<["userAgent" := optStrU (reqGet req "user-agent")]>
          (<["referer" := optStrU (reqGet req "referer")]> ∅))))));
        newValues :=
          if existsb (String.eqb (method req)) ["POST"; "PUT"; "PATCH"]
             && truthy (body req)
          then Some (sanitizeRequestBody (body req)) else None;
        errorMessage :=
          if (400 <=? statusCode res)%Z then Some (errorMessageOf responseData)
          else None;
        phiAccessed := Some (d_phiAccessed d);
        phiFields := d_phiFields d;
        purpose := Some (d_purpose d);
        location := orStr (reqGet req "x-forwarded-for") (ip req);
        context := orStr (reqGet req "x-request-context") (Some "API Request");
        duration := Some duration |}.

Local Open Scope m_scope.

Definition createAuditEntry (now : Z) (req : Request) (res : Response)
    (duration : Z) (responseData : JsVal) : M unit :=
  tryCatch
    (if existsb (fun endpoint => includes (originalUrl req) endpoint)
                skipAuditEndpoints
     then ret tt
     else
       let* auditData := liftExc (buildAuditData req res duration responseData) in
       Audit_createEntry auditFault now auditData)
    (fun error => console_error "Error creating audit entry:" error).

(** The patched [res.send] that [auditLogger] installs: it starts the
    audit write, reports a rejection of it to the console, and hands
    [data] to the original [send], which delivers the response. *)
Definition send (startTime now : Z) (req : Request) (res : Response)
    (data : JsVal) : M (Z * JsVal) :=
  let duration := (now - startTime)%Z in
  tryCatch (createAuditEntry now req res duration data)
           (fun err => console_error "Audit logging error:" err) ;;
  ret (statusCode res, data).

(** [createManualAuditEntry] *)
Definition createManualAuditEntry (now : Z) (data : AuditData) : M unit :=
  tryCatch (Audit_createEntry auditFault now data)
           (fun error => console_error "Error creating manual audit entry:" error).

End Middleware.

End AuditMiddleware.
Import AuditMiddleware.


(* ===================================================================== *)
(** * server/routes/auth.js                                              *)
(* ===================================================================== *)

Module AuthRoutes.

Local Open Scope m_scope.

(** The claims [jwt.sign] is given. *)
Record TokenPayload := mkTokenPayload {
  tp_userId : string;
  tp_email : string;
  tp_role : string;
  iat : Z
}.

(** [x.length]: strings have one, [undefined] and [null] throw, other
    values read as [undefined]. *)
Definition getLength (v : JsVal) : Exc JsVal :=
  match v with
  | VStr s => Ok (VNum (Z.of_nat (String.length s)))
  | VUndefined | VNull => Throw (TypeError "Cannot read properties of undefined (reading 'length')")
  | _ => Ok VUndefined
  end.

(** [a < b] where [b] is [parseInt(...)]: [None] is [NaN]. *)
Definition jsLt (a : JsVal) (b : option Z) : bool :=
  match a, b with
  | VNum x, Some y => (x <? y)%Z
  | _, _ => false
  end.

(** [email.toLowerCase()] inside [findByEmail]: only a string has it. *)
Definition asEmail (v : JsVal) : Exc string :=
  match v with
  | VStr s => Ok s
  | _ => Throw (TypeError "email.toLowerCase is not a function")
  end.

Section Routes.
Variable auditFault : AuditData -> option JsError.
Variable bcrypt_compare : string -> string -> bool.
Variable bcrypt_hash : string -> string.
(** [jwt.sign(payload, secret, { expiresIn })] *)
Variable jwt_sign : TokenPayload -> option string -> string -> string.
(** [process.env.JWT_SECRET], [process.env.JWT_EXPIRES_IN] and
    [parseInt(process.env.PASSWORD_MIN_LENGTH)] ([None] is [NaN]). *)
Variable JWT_SECRET : option string.
Variable JWT_EXPIRES_IN : option string.
Variable PASSWORD_MIN_LENGTH : option Z.
(** [validationResult(req).array()] after the [validateLogin] chain. *)
Variable validateLogin : Request -> list string.

(** [createManualAuditEntry] with the fields every call site of this
    file passes. *)
Definition audit (now : Z) (req : Request) (uid : option string)
    (act : string) (ev : EventType) (sev : Severity) (st : Status)
    (err : option string) (res ctx : string) : M unit :=
  createManualAuditEntry auditFault now
    (manualEntry uid (ip req) (reqGet req "user-agent") act ev sev st err res ctx).

(** The body of [router.post('/login', ...)].  [now] is the clock reading
    of this request. *)
Definition loginBody (now : Z) (req : Request) : M Flow :=
  if negb (0 =? length (validateLogin req))%nat then
    throw (ValidationError "Validation failed")
  else
  let* email_ := liftExc (getProp (body req) "email") in
  let* password_ := liftExc (getProp (body req) "password") in
  (* Find user by email *)
  let* email_ := liftExc (asEmail email_) in
  let* found := User_findByEmail email_ in
  match found with
  | None =>
      audit now req None "LOGIN_ATTEMPT" ev_failed_login sev_medium st_failure
            (Some "User not found") "/api/auth/login" "Login attempt" ;;
      throw (AuthenticationError "Invalid email or password")
  | Some user =>
      (* Check if account is locked *)
      if match lockedUntil user with
         | Some until => (now <? until)%Z
         | None => false
         end
      then
        audit now req (Some (id user)) "LOGIN_ATTEMPT" ev_access_denied
              sev_medium st_failure (Some "Account locked") "/api/auth/login"
              "Login attempt - account locked" ;;
        throw (AuthenticationError
          "Account is temporarily locked due to multiple failed login attempts")
      else
      (* Validate password *)
      let* isValidPassword := User_validatePassword bcrypt_compare user password_ in
      if negb isValidPassword then
        (* Increment failed login attempts *)
        let user := set_failedLoginAttempts (failedLoginAttempts user + 1)%Z user in
        (* Lock account after 5 failed attempts *)
        let user :=
          if (5 <=? failedLoginAttempts user)%Z
          then set_lockedUntil (Some (now + 30 * 60 * 1000)%Z) user
          else user in
        let* _ := User_save bcrypt_hash now false user in
        audit now req (Some (id user)) "LOGIN_ATTEMPT" ev_failed_login
              sev_medium st_failure (Some "Invalid password") "/api/auth/login"
              "Login attempt - invalid password" ;;
        throw (AuthenticationError "Invalid email or password")
      else
      (* Check if user is active *)
      if negb (isActive user) then
        audit now req (Some (id user)) "LOGIN_ATTEMPT" ev_access_denied
              sev_high st_failure (Some "Account inactive") "/api/auth/login"
              "Login attempt - inactive account" ;;
        throw (AuthenticationError "Account is inactive")
      else
      (* Reset failed login attempts *)
      let user := set_failedLoginAttempts 0 user in
      let user := set_lockedUntil None user in
      let user := set_lastLogin (Some now) user in
      let* user := User_save bcrypt_hash now false user in
      (* Generate JWT token *)
      let token :=
        jwt_sign {| tp_userId := id user; tp_email := email user;
                    tp_role := role user; iat := (now / 1000)%Z |}
                 JWT_SECRET (default "8h" (orStr JWT_EXPIRES_IN None)) in
      audit now req (Some (id user)) "LOGIN_SUCCESS" ev_login sev_medium
            st_success None "/api/auth/login" "Successful login" ;;
      ret (Responded 200
             (VObj (<["message" := VStr "Login successful"]>
                   (<["token" := VStr token]>
                   (<["user" := toJSON user]>
                   (<["requiresHIPAATraining" :=
                        VBool (negb (hipaaTrainingCompleted user))]> ∅))))))
  end.

Definition login (now : Z) (req : Request) : World -> Flow * World :=
  asyncHandler (loginBody now req).

(** The body of [router.post('/change-password', ...)]. *)
Definition changePasswordBody (now : Z) (req : Request) : M Flow :=
  let* currentPassword := liftExc (getProp (body req) "currentPassword") in
  let* newPassword := liftExc (getProp (body req) "newPassword") in
  match user req with
  | None => throw (AuthenticationError "Authentication required")
  | Some u =>
      (* Validate current password *)
      let* isValidPassword := User_validatePassword bcrypt_compare u currentPassword in
      if negb isValidPassword then
        throw (AuthenticationError "Current password is incorrect")
      else
      (* Validate new password: [(len < parseInt(..)) || 12] *)
      let* len := liftExc (getLength newPassword) in
      if truthy (jsOr (VBool (jsLt len PASSWORD_MIN_LENGTH)) (VNum 12)) then
        throw (ValidationError "New password does not meet requirements")
      else
      (* Update password *)
      let u := set_password (toString newPassword) u in
      let* u := User_save bcrypt_hash now true u in
      audit now req (Some (id u)) "PASSWORD_CHANGE" ev_password_change
            sev_medium st_success None "/api/auth/change-password"
            "Password change" ;;
      ret (Responded 200
             (VObj (<["message" := VStr "Password changed successfully"]> ∅)))
  end.

Definition changePassword (now : Z) (req : Request) : World -> Flow * World :=
  asyncHandler (changePasswordBody now req).

End Routes.

End AuthRoutes.
Import AuthRoutes.


(* ===================================================================== *)
(** * The authentication and authorization middleware                    *)
(* ===================================================================== *)

Module AuthMiddleware.

Local Open Scope m_scope.

Definition setUser (u : User) (req : Request) : Request :=
  {| method := method req; originalUrl := originalUrl req; body := body req;
     query := query req; ip := ip req; remoteAddress := remoteAddress req;
     headers := headers req; sessionID := sessionID req; user := Some u |}.

(** [authHeader && authHeader.split(' ')[1]], then [!token]: the token, if
    there is a non-empty one. *)
Definition bearerToken (req : Request) : option string :=
  match headers req !! "authorization" with
  | Some authHeader =>
      if String.eqb authHeader "" then None
      else match split " " authHeader !! 1%nat with
           | Some token => if String.eqb token "" then None else Some token
           | None => None
           end
  | None => None
  end.

(** [decoded.iat < user.passwordChangedAt.getTime() / 1000]: the token's
    issue time is in seconds, the column in milliseconds.  On integers
    below 2^53 the comparison of [iat] with the (possibly fractional)
    quotient is the comparison of [1000 * iat] with the dividend. *)
Definition issuedBefore (iat_ : Z) (passwordChangedAt_ : Z) : bool :=
  (1000 * iat_ <? passwordChangedAt_)%Z.

(** The object literal the middleware hands to [Audit.createEntry]. *)
Definition denial (req : Request) (uid : option string) (act : string)
    (sev : Severity) (err ctx : string) : AuditData :=
  manualEntry uid (ip req) (reqGet req "user-agent") act ev_access_denied sev
              st_failure (Some err) (originalUrl req) ctx.

(** [accessLevels] *)
Definition accessLevels : gmap string Z :=
  <["readonly" := 1%Z]> (<["limited" := 2%Z]> (<["full" := 3%Z]> ∅)).

Section Middleware.
Variable auditFault : AuditData -> option JsError.
(** [jwt.verify(token, secret)]: the decoded claims, or the library's
    [TokenExpiredError] / [JsonWebTokenError]. *)
Variable jwt_verify : string -> option string -> Exc TokenPayload.
Variable JWT_SECRET : option string.

(** The [try] block of [authenticateToken]: the reply, and the request
    as it is passed on. *)
Definition authenticateTokenTry (now : Z) (req : Request) : M (Flow * Request) :=
  match bearerToken req with
  | None =>
      Audit_createEntry auditFault now
        (denial req None "API_ACCESS" sev_high "No token provided"
                "Authentication middleware") ;;
      ret (Responded 401 (errorBody "Access denied"
                                    "Authentication token is required"), req)
  | Some token =>
      let* decoded := liftExc (jwt_verify token JWT_SECRET) in
      (* Check if user still exists and is active *)
      let* found := User_findByPk (tp_userId decoded) in
      match found with
      | Some user =>
          if negb (isActive user) then
            Audit_createEntry auditFault now
              (denial req (Some (tp_userId decoded)) "API_ACCESS" sev_high
                      "User not found or inactive" "Authentication middleware") ;;
            ret (Responded 401 (errorBody "Access denied"
                                  "User account is inactive or not found"), req)
          else
          (* Check if password was changed after token was issued *)
          if match passwordChangedAt user with
             | Some changedAt => issuedBefore (iat decoded) changedAt
             | None => false
             end
          then
            Audit_createEntry auditFault now
              (denial req (Some (id user)) "API_ACCESS" sev_medium
                      "Token issued before password change"
                      "Authentication middleware") ;;
            ret (Responded 401 (errorBody "Access denied"
                                  "Password was changed, please login again"), req)
          else
            (* Add user to request object *)
            ret (Next, setUser user req)
      | None =>
          Audit_createEntry auditFault now
            (denial req (Some (tp_userId decoded)) "API_ACCESS" sev_high
                    "User not found or inactive" "Authentication middleware") ;;
          ret (Responded 401 (errorBody "Access denied"
                                "User account is inactive or not found"), req)
      end
  end.

(** Its [catch (error)] block. *)
Definition authenticateTokenCatch (now : Z) (req : Request) (error : JsError)
    : M (Flow * Request) :=
  if String.eqb (errName error) "TokenExpiredError" then
    Audit_createEntry auditFault now
      (denial req None "API_ACCESS" sev_medium "Token expired"
              "Authentication middleware") ;;
    ret (Responded 401 (errorBody "Access denied" "Token has expired"), req)
  else if String.eqb (errName error) "JsonWebTokenError" then
    Audit_createEntry auditFault now
      (denial req None "API_ACCESS" sev_high "Invalid token"
              "Authentication middleware") ;;
    ret (Responded 401 (errorBody "Access denied" "Invalid token"), req)
  else
    console_error "Authentication error:" error ;;
    ret (Responded 500 (errorBody "Internal server error"
                                  "Authentication failed"), req).

Definition authenticateTokenBody (now : Z) (req : Request) : M (Flow * Request) :=
  tryCatch (authenticateTokenTry now req) (authenticateTokenCatch now req).

Definition authenticateToken (now : Z) (req : Request)
    : World -> (Flow * Request) * World :=
  asyncMiddleware (authenticateTokenBody now req) req.

(** A call of [Audit.createEntry] whose promise nobody awaits: the write
    is started, a rejection surfaces as an unhandled rejection. *)
Definition fireAndForget (now : Z) (data : AuditData) : M unit :=
  tryCatch (Audit_createEntry auditFault now data)
           (fun e => emit (EvUnhandledRejection e)).

(** [requireRole(roles)] *)
Definition requireRole (roles : list string) (now : Z) (req : Request) : M Flow :=
  match user req with
  | None => ret (Responded 401 (errorBody "Access denied" "Authentication required"))
  | Some u =>
      if negb (existsb (String.eqb (role u)) roles) then
        fireAndForget now
          (denial req (Some (id u)) "ROLE_ACCESS" sev_medium
                  ("Insufficient role. Required: " +:+ join ", " roles +:+
                   ", User: " +:+ role u)
                  "Role-based access control") ;;
        ret (Responded 403 (errorBody "Access denied" "Insufficient permissions"))
      else ret Next
  end.

(** [requireHIPAATraining] *)
Definition requireHIPAATraining (now : Z) (req : Request) : M Flow :=
  match user req with
  | None => ret (Responded 401 (errorBody "Access denied" "Authentication required"))
  | Some u =>
      if negb (hipaaTrainingCompleted u) then
        Audit_createEntry auditFault now
          (denial req (Some (id u)) "HIPAA_ACCESS" sev_high
                  "HIPAA training not completed" "HIPAA compliance check") ;;
        ret (Responded 403
               (errorBody "Access denied"
                  "HIPAA training must be completed before accessing patient data"))
      else ret Next
  end.

(** [requireDataAccessLevel(requiredLevel)] *)
Definition requireDataAccessLevel (requiredLevel : string) (now : Z)
    (req : Request) : M Flow :=
  match user req with
  | None => ret (Responded 401 (errorBody "Access denied" "Authentication required"))
  | Some u =>
      let userLevel := default 0%Z (accessLevels !! dataAccessLevel u) in
      let requiredLevelNum := default 0%Z (accessLevels !! requiredLevel) in
      if (userLevel <? requiredLevelNum)%Z then
        fireAndForget now
          (denial req (Some (id u)) "DATA_ACCESS" sev_medium
                  ("Insufficient data access level. Required: " +:+ requiredLevel
                   +:+ ", User: " +:+ dataAccessLevel u)
                  "Data access level check") ;;
        ret (Responded 403 (errorBody "Access denied"
                                      "Insufficient data access level"))
      else ret Next
  end.

End Middleware.

End AuthMiddleware.
Import AuthMiddleware.


(* ===================================================================== *)
(** * The audit routes: [GET /export/csv]                                *)
(* ===================================================================== *)

Module AuditRoutes.

(** A cell of the export: the timestamp is a [Date], every other cell is
    a column value read back from the row. *)
Inductive Field :=
| FDate (ms : Z)
| FVal (v : JsVal).

Definition quote : string := String "034"%char EmptyString.
Definition newline : string := String "010"%char EmptyString.

Definition csvHeaders : list string :=
  ["Timestamp"; "User ID"; "IP Address"; "Action"; "Resource"; "Event Type";
   "Severity"; "Status"; "PHI Accessed"; "Error Message"; "Context"].

(** [log => [log.timestamp, log.userId, ...]]; a column the entry left out
    reads as its default ([severity] low, [status] success, [phiAccessed]
    false) or as [null]. *)
Definition csvRow (log : AuditRow) : list Field :=
  let d := rowData log in
  [ FDate (timestamp log);
    FVal (ofOptStr (userId d));
    FVal (ofOptStr (ipAddress d));
    FVal (VStr (action d));
    FVal (ofOptStr (resource d));
    FVal (VStr (eventTypeName (eventType d)));
    FVal (VStr (severityName (default sev_low (severity d))));
    FVal (VStr (statusName (default st_success (status d))));
    FVal (VBool (default false (phiAccessed d)));
    FVal (default VNull (errorMessage d));
    FVal (ofOptStr (context d)) ].

Section CsvExport.
(** [Date.prototype.toString] *)
Variable dateToString : Z -> string.

(** [field || ''] inside the template literal. *)
Definition fieldText (f : Field) : string :=
  match f with
  | FDate ms => dateToString ms
  | FVal v => toString (jsOr v (VStr ""))
  end.

(** [field => `"${field || ''}"`] *)
Definition csvField (f : Field) : string := quote +:+ fieldText f +:+ quote.

(** [[csvHeaders, ...csvRows].map(row => row.map(...).join(','))] *)
Definition csvLines (auditLogs : list AuditRow) : list string :=
  map (fun row => join "," (map csvField row))
      (map (fun h => FVal (VStr h)) csvHeaders :: map csvRow auditLogs).

Definition csvContent (auditLogs : list AuditRow) : string :=
  join newline (csvLines auditLogs).

(** The cell values the export is meant to carry, row by row. *)
Definition csvCells (auditLogs : list AuditRow) : list (list string) :=
  map (map fieldText)
      (map (fun h => FVal (VStr h)) csvHeaders :: map csvRow auditLogs).

End CsvExport.

End AuditRoutes.
Import AuditRoutes.

(* ===================================================================== *)
(** * The documented export format                                       *)
(* ===================================================================== *)

(** The specification's reading of the export file, used to state the
    round trip: delimited text, one record per line, every field wrapped
    in double quotes, a quote inside a field written twice. *)
Module CsvFormat.

Definition isQuote (c : ascii) : bool := Ascii.eqb c "034"%char.

(** Every quote of the field written twice. *)
Fixpoint doubleQuotes (s : string) : string :=
  match s with
  | EmptyString => EmptyString
  | String c rest =>
      if isQuote c then String c (String c (doubleQuotes rest))
      else String c (doubleQuotes rest)
  end.

Definition quoteField (s : string) : string := quote +:+ doubleQuotes s +:+ quote.

Definition writeCsv (rows : list (list string)) : string :=
  join newline (map (fun row => join "," (map quoteField row)) rows).

(** Where the reader stands: before a field, inside a quoted field, or
    just after a quote met inside one. *)
Inductive ReaderState := BeforeField | InField | AfterQuote.

(** The reader: [cur] is the field being read (in reverse), [row] the
    fields of the current record (in reverse), [rows] the finished records
    (in reverse).  [None] when the text is not in the documented format. *)
Fixpoint readCsv (s : string) (st : ReaderState) (cur : list ascii)
    (row : list string) (rows : list (list string))
    : option (list (list string)) :=
  let field := string_of_list_ascii (rev cur) in
  match s with
  | EmptyString =>
      match st with
      | AfterQuote => Some (rev (rev (field :: row) :: rows))
      | BeforeField => match row with [] => Some (rev rows) | _ => None end
      | InField => None
      end
  | String c rest =>
      match st with
      | BeforeField =>
          if isQuote c then readCsv rest InField [] row rows else None
      | InField =>
          if isQuote c then readCsv rest AfterQuote cur row rows
          else readCsv rest InField (c :: cur) row rows
      | AfterQuote =>
          if isQuote c then readCsv rest InField (c :: cur) row rows
          else if Ascii.eqb c "," then readCsv rest BeforeField [] (field :: row) rows
          else if Ascii.eqb c "010"%char then
            match rest with
            | EmptyString => None
            | _ => readCsv rest BeforeField [] [] (rev (field :: row) :: rows)
            end
          else None
      end
  end.

Definition parseCsv (s : string) : option (list (list string)) :=
  readCsv s BeforeField [] [] [].

End CsvFormat.


(* ===================================================================== *)
(** * server/models/Audit.js: the instance methods                       *)
(* ===================================================================== *)

Module AuditInstance.

(** [Audit.prototype.isPHIAccess]: [this.phiAccessed || this.resourceType === 'patient'];
    a row stored without [phiAccessed] reads the column default [false]. *)
Definition isPHIAccess (row : AuditRow) : bool :=
  default false (phiAccessed (rowData row))
  || match resourceType (rowData row) with
     | Some rt_patient => true
     | _ => false
     end.

Definition securityEvents : list string :=
  ["login"; "logout"; "failed_login"; "password_change"; "access_denied"].

(** [Audit.prototype.isSecurityEvent]: [securityEvents.includes(this.eventType)] *)
Definition isSecurityEvent (row : AuditRow) : bool :=
  existsb (String.eqb (eventTypeName (eventType (rowData row)))) securityEvents.

End AuditInstance.


(* ===================================================================== *)
(** * server/models/Audit.js: the class methods                          *)
(* ===================================================================== *)

Module AuditQueries.

(** [ORDER BY timestamp DESC]: insertion into a list kept newest first.
    The store leaves the order of rows with equal timestamps open; here a
    row goes after the rows as new as itself that are already placed. *)
Fixpoint insertDesc (row : AuditRow) (sorted : list AuditRow) : list AuditRow :=
  match sorted with
  | [] => [row]
  | s :: rest =>
      if (timestamp s <? timestamp row)%Z then row :: s :: rest
      else s :: insertDesc row rest
  end.

Definition orderDesc (rows : list AuditRow) : list AuditRow :=
  fold_right insertDesc [] rows.

(** [LIMIT n] when a limit is given. *)
Definition limitTo (limit : option nat) (rows : list AuditRow) : list AuditRow :=
  match limit with
  | Some n => firstn n rows
  | None => rows
  end.

(** [findAll({ where, order: [['timestamp', 'DESC']], limit, offset })] *)
Definition findAll (where_ : AuditRow -> bool) (limit : option nat) (offset : nat)
    (table : list AuditRow) : list AuditRow :=
  limitTo limit (skipn offset (orderDesc (List.filter where_ table))).

(** [count({ where })] *)
Definition count (where_ : AuditRow -> bool) (table : list AuditRow) : nat :=
  length (List.filter where_ table).


(** [where: { userId }] *)
Definition hasUser (uid : option string) (row : AuditRow) : bool :=
  bool_decide (userId (rowData row) = uid).

Definition hasEventType (name : string) (row : AuditRow) : bool :=
  String.eqb (eventTypeName (eventType (rowData row))) name.

(** [Audit.findByUser(userId, limit = 100)] *)
Definition findByUser (uid : option string) (limit : option nat)
    (table : list AuditRow) : list AuditRow :=
  findAll (hasUser uid) (Some (default 100%nat limit)) 0 table.



(** [Audit.findFailedLogins(userId, hours = 24)] at clock reading [now]. *)
Definition findFailedLogins (uid : option string) (hours : option Z) (now : Z)
    (table : list AuditRow) : list AuditRow :=
  let cutoffTime := (now - default 24 hours * 60 * 60 * 1000)%Z in
  findAll (fun row => hasUser uid row && hasEventType "failed_login" row
                      && (cutoffTime <=? timestamp row)%Z) None 0 table.

End AuditQueries.


(* ===================================================================== *)
(** * The audit routes: listings, statistics, export, dispatch           *)
(* ===================================================================== *)

Module AuditListing.

Import AuditQueries.



(** A parameter of a plain query: absent, or a string. *)
Definition queryParam (req : Request) (name : string) : option string :=
  match query req with
  | VObj params =>
      match params !! name with
      | Some (VStr s) => Some s
      | _ => None
      end
  | _ => None
  end.

(** [if (param)]: an empty string counts as absent. *)
Definition given (param : option string) : option string :=
  match param with
  | Some s => if String.eqb s "" then None else Some s
  | None => None
  end.


Definition colPhiAccessed (row : AuditRow) : bool :=
  default false (phiAccessed (rowData row)).
Definition colEventType (row : AuditRow) : string :=
  eventTypeName (eventType (rowData row)).

(** The bounds the date-range filter puts on [timestamp]. *)
Definition DateRange : Type := option Z * option Z.

Definition inDateRange (range : DateRange) (row : AuditRow) : bool :=
  match fst range with
  | Some s => (s <=? timestamp row)%Z
  | None => true
  end
  && match snd range with
     | Some e => (timestamp row <=? e)%Z
     | None => true
     end.

(** [if (userId) whereClause.userId = userId] and its like: a filter that
    applies only when the parameter is given. *)
Definition whenGiven (param : option string) (test : string -> bool) : bool :=
  match given param with
  | Some v => test v
  | None => true
  end.


(** The [whereClause] of [GET /phi-access]. *)
Definition phiAccessWhere (range : DateRange) (req : Request) (row : AuditRow)
    : bool :=
  colPhiAccessed row
  && inDateRange range row
  && whenGiven (queryParam req "userId")
       (fun v => bool_decide (userId (rowData row) = Some v)).

(** The [whereClause] of [GET /security-events]. *)
Definition securityEventsWhere (range : DateRange) (req : Request)
    (row : AuditRow) : bool :=
  existsb (String.eqb (colEventType row))
          ["login"; "logout"; "failed_login"; "password_change"; "access_denied"]
  && inDateRange range row
  && whenGiven (queryParam req "userId")
       (fun v => bool_decide (userId (rowData row) = Some v)).








Section Routes.
(** [new Date(s)] as the store compares it with [timestamp]: the instant
    in milliseconds, or [None] for a string that is no date. *)
Variable parseDate : string -> option Z.





End Routes.

(** The handlers of the router, in registration order. *)
Inductive Handler :=
| ListLogs | LogById | PhiAccessLogs | SecurityEvents | StatsOverview
| UserActivity | ExportCsv.

(** A segment of a route path: a literal, or a named parameter. *)
Inductive Segment :=
| Lit (s : string)
| Param (name : string).

Definition routes : list (list Segment * Handler) :=
  [ ([], ListLogs);
    ([Param "id"], LogById);
    ([Lit "phi-access"], PhiAccessLogs);
    ([Lit "security-events"], SecurityEvents);
    ([Lit "stats"; Lit "overview"], StatsOverview);
    ([Lit "user"; Param "userId"; Lit "activity"], UserActivity);
    ([Lit "export"; Lit "csv"], ExportCsv) ].

(** The segments of a request path: it starts with a slash, and one
    trailing slash is ignored.  [None] for a path no route can match. *)
Definition pathSegments (path : string) : option (list string) :=
  match split "/" path with
  | first :: rest =>
      if String.eqb first "" then
        Some (match rev rest with
              | lastSeg :: front => if String.eqb lastSeg "" then rev front else rest
              | [] => rest
              end)
      else None
  | [] => None
  end.

(** One segment against one pattern segment: a parameter takes any
    non-empty segment, a literal compares without regard to case. *)
Definition segmentMatches (pattern : Segment) (seg : string) : bool :=
  match pattern with
  | Lit s => negb (String.eqb seg "") && String.eqb (toLowerCase seg) (toLowerCase s)
  | Param _ => negb (String.eqb seg "")
  end.

Fixpoint segmentsMatch (pattern : list Segment) (segs : list string) : bool :=
  match pattern, segs with
  | [], [] => true
  | p :: pattern', s :: segs' => segmentMatches p s && segmentsMatch pattern' segs'
  | _, _ => false
  end.

(** The first route whose path matches handles the request. *)
Definition dispatch (path : string) : option Handler :=
  match pathSegments path with
  | Some segs =>
      snd <$> find (fun route => segmentsMatch (fst route) segs) routes
  | None => None
  end.

End AuditListing.


(* ===================================================================== *)
(** * server/routes/auth.js: the session and account routes              *)
(* ===================================================================== *)

Module AccountRoutes.

Local Open Scope m_scope.

(** [req.headers.authorization?.split(' ')[1]] *)
Definition secondWord (req : Request) : option string :=
  match headers req !! "authorization" with
  | Some authHeader => split " " authHeader !! 1%nat
  | None => None
  end.

(** ToBoolean of a string that may be [undefined]. *)
Definition present (o : option string) : bool :=
  match o with
  | Some s => negb (String.eqb s "")
  | None => false
  end.

(** [req.user.hipaaTrainingCompleted = true; req.user.hipaaTrainingDate = new Date()] *)
Definition set_hipaaTraining (now : Z) (u : User) : User :=
  {| id := id u; email := email u; password := password u; role := role u;
     isActive := isActive u; lastLogin := lastLogin u;
     passwordChangedAt := passwordChangedAt u;
     failedLoginAttempts := failedLoginAttempts u; lockedUntil := lockedUntil u;
     hipaaTrainingCompleted := true; hipaaTrainingDate := Some now;
     dataAccessLevel := dataAccessLevel u |}.

(** An entry literal that also names its [resourceType]. *)
Definition withResourceType (rt : ResourceType) (d : AuditData) : AuditData :=
  {| userId := userId d; sessionId := sessionId d; ipAddress := ipAddress d;
     userAgent := userAgent d; action := action d; resource := resource d;
     resourceId := resourceId d; resourceType := Some rt;
     eventType := eventType d; severity := severity d; status := status d;
     details := details d; newValues := newValues d;
     errorMessage := errorMessage d; phiAccessed := phiAccessed d;
     phiFields := phiFields d; purpose := purpose d; location := location d;
     context := context d; duration := duration d |}.

(** [allowedFields] of the profile update. *)
Definition allowedFields : list string :=
  ["firstName"; "lastName"; "phone"; "address"; "specialty"].

(** [x !== undefined] *)
Definition isDefined (v : JsVal) : bool :=
  match v with
  | VUndefined => false
  | _ => true
  end.

(** The [forEach] that fills [updates] from [req.body]. *)
Fixpoint collectUpdates (fields : list string) (body_ : JsVal)
    (updates : gmap string JsVal) : Exc (gmap string JsVal) :=
  match fields with
  | [] => Ok updates
  | field :: rest =>
      match getProp body_ field with
      | Ok v =>
          collectUpdates rest body_
            (if isDefined v then <[field := v]> updates else updates)
      | Throw e => Throw e
      end
  end.

Definition profileUpdates (body_ : JsVal) : Exc (gmap string JsVal) :=
  collectUpdates allowedFields body_ ∅.

Section Routes.
Variable auditFault : AuditData -> option JsError.
Variable bcrypt_hash : string -> string.
Variable jwt_sign : TokenPayload -> option string -> string -> string.
Variable jwt_verify : string -> option string -> Exc TokenPayload.
(** [process.env.JWT_SECRET], [process.env.JWT_REFRESH_SECRET] and
    [process.env.JWT_EXPIRES_IN]. *)
Variable JWT_SECRET : option string.
Variable JWT_REFRESH_SECRET : option string.
Variable JWT_EXPIRES_IN : option string.

(** The body of [router.post('/logout', ...)]. *)
Definition logoutBody (now : Z) (req : Request) : M Flow :=
  let token := secondWord req in
  (if present token then
     match user req with
     | Some u =>
         audit auditFault now req (Some (id u)) "LOGOUT" ev_logout sev_low
               st_success None "/api/auth/logout" "User logout"
     | None => ret tt
     end
   else ret tt) ;;
  ret (Responded 200 (VObj (<["message" := VStr "Logout successful"]> ∅))).

Definition logout (now : Z) (req : Request) : World -> Flow * World :=
  asyncHandler (logoutBody now req).

(** [jwt.verify(refreshToken, secret)]: the library refuses a token that
    is not a string with its [JsonWebTokenError]. *)
Definition verifyRefresh (refreshToken : JsVal) : Exc TokenPayload :=
  match refreshToken with
  | VStr s => jwt_verify s JWT_REFRESH_SECRET
  | _ => Throw (mkError "JsonWebTokenError" "jwt must be a string" None)
  end.

(** The body of [router.post('/refresh', ...)]. *)
Definition refreshBody (now : Z) (req : Request) : M Flow :=
  let* refreshToken := liftExc (getProp (body req) "refreshToken") in
  if negb (truthy refreshToken) then
    throw (AuthenticationError "Refresh token is required")
  else
  tryCatch
    (let* decoded := liftExc (verifyRefresh refreshToken) in
     let* found := User_findByPk (tp_userId decoded) in
     match found with
     | Some user =>
         if negb (isActive user) then
           throw (AuthenticationError "Invalid refresh token")
         else
         (* Generate new access token *)
         let newToken :=
           jwt_sign {| tp_userId := id user; tp_email := email user;
                       tp_role := role user; iat := (now / 1000)%Z |}
                    JWT_SECRET (default "8h" (orStr JWT_EXPIRES_IN None)) in
         ret (Responded 200
                (VObj (<["message" := VStr "Token refreshed successfully"]>
                      (<["token" := VStr newToken]> ∅))))
     | None => throw (AuthenticationError "Invalid refresh token")
     end)
    (fun _ => throw (AuthenticationError "Invalid refresh token")).

Definition refresh (now : Z) (req : Request) : World -> Flow * World :=
  asyncHandler (refreshBody now req).

(** The body of [router.post('/complete-hipaa-training', ...)]. *)
Definition completeHipaaTrainingBody (now : Z) (req : Request) : M Flow :=
  match user req with
  | None => throw (AuthenticationError "Authentication required")
  | Some u =>
      let u := set_hipaaTraining now u in
      let* u := User_save bcrypt_hash now false u in
      createManualAuditEntry auditFault now
        (withResourceType rt_user
           (manualEntry (Some (id u)) (ip req) (reqGet req "user-agent")
              "HIPAA_TRAINING_COMPLETED" ev_update sev_medium st_success None
              "/api/auth/complete-hipaa-training" "HIPAA training completion")) ;;
      ret (Responded 200
             (VObj (<["message" := VStr "HIPAA training completed successfully"]>
                   (<["user" := toJSON u]> ∅))))
  end.

Definition completeHipaaTraining (now : Z) (req : Request)
    : World -> Flow * World :=
  asyncHandler (completeHipaaTrainingBody now req).

(** The body of [router.get('/profile', ...)]. *)
Definition getProfileBody (req : Request) : M Flow :=
  match user req with
  | None => throw (AuthenticationError "Authentication required")
  | Some u => ret (Responded 200 (VObj (<["user" := toJSON u]> ∅)))
  end.

Definition getProfile (req : Request) : World -> Flow * World :=
  asyncHandler (getProfileBody req).

End Routes.

End AccountRoutes.


(* ===================================================================== *)
(** * The global error handler                                           *)
(* ===================================================================== *)

Module ErrorHandling.

Local Open Scope m_scope.

(** The error object, with the further properties the handler reads:
    [code], [errors] ([None] unless it is an array), [table], [fields]
    and [stack]. *)
Record ErrorObject := mkErrorObject {
  base : JsError;
  errCode : option string;
  errErrors : option (list JsVal);
  errTable : JsVal;
  errFields : JsVal;
  errStack : JsVal
}.

(** The [details] of a reply. *)
Inductive Details :=
| DetailsErrors (errors : option (list JsVal))        (* [err.errors] as it is *)
| DetailsFields (items : list (JsVal * JsVal))        (* [{ field, message }] *)
| DetailsReference (table field : JsVal).             (* [{ table, field }] *)

(** The body of a reply: [error], [message], and [details] and [stack]
    where the branch sets them. *)
Record ErrorReply := mkErrorReply {
  replyStatus : Z;
  replyError : string;
  replyMessage : string;
  replyDetails : option Details;
  replyStack : option JsVal
}.

(** How the handler's promise ends: with a reply sent, or rejected with
    nobody to handle it and nothing sent. *)
Inductive Handled :=
| Replied (reply : ErrorReply)
| Unanswered (e : JsError).

(** [err.errors.map(e => ({ field: e.path, message: e.message }))] *)
Fixpoint mapFields (items : list JsVal) : Exc (list (JsVal * JsVal)) :=
  match items with
  | [] => Ok []
  | e :: rest =>
      match getProp e "path", getProp e "message" with
      | Ok path, Ok message =>
          match mapFields rest with
          | Ok fields => Ok ((path, message) :: fields)
          | Throw error => Throw error
          end
      | Throw error, _ => Throw error
      | _, Throw error => Throw error
      end
  end.

Definition fieldMessages (errors : option (list JsVal)) : Exc (list (JsVal * JsVal)) :=
  match errors with
  | Some items => mapFields items
  | None => Throw (TypeError "Cannot read properties of undefined (reading 'map')")
  end.

(** [err.code === c] *)
Definition hasCode (err : ErrorObject) (c : string) : bool :=
  match errCode err with
  | Some c' => String.eqb c' c
  | None => false
  end.

(** [process.env.NODE_ENV === name] *)
Definition envIs (NODE_ENV : option string) (name : string) : bool :=
  match NODE_ENV with
  | Some v => String.eqb v name
  | None => false
  end.

(** [err.statusCode || 500] *)
Definition statusOf (e : JsError) : Z :=
  match errStatusCode e with
  | Some c => if (c =? 0)%Z then 500 else c
  | None => 500
  end.

(** [err.message || 'Internal Server Error'] *)
Definition messageOf (e : JsError) : string :=
  if String.eqb (errMessage e) "" then "Internal Server Error" else errMessage e.

Section Handler.
Variable auditFault : AuditData -> option JsError.
Variable NODE_ENV : option string.

(** The entry the handler hands to [createManualAuditEntry]. *)
Definition errorEntry (err : ErrorObject) (req : Request) : AuditData :=
  {| userId := orStr (id <$> user req) None;
     sessionId := None;
     ipAddress := ip req;
     userAgent := reqGet req "user-agent";
     action := method req +:+ " " +:+ originalUrl req;
     resource := Some (originalUrl req);
     resourceId := None;
     resourceType := None;
     eventType := ev_system_error;
     severity := Some sev_high;
     status := Some st_failure;
     details :=
       Some (VObj (<["method" := VStr (method req)]>
                  (<["url" := VStr (originalUrl req)]>
                  (<["stack" := if envIs NODE_ENV "development"
                                then errStack err else VUndefined]> ∅))));
     newValues := None;
     errorMessage := Some (VStr (errMessage (base err)));
     phiAccessed := None; phiFields := None; purpose := None; location := None;
     context := Some "Error handler middleware";
     duration := None |}.

(** The reply of each branch, after the report and the audit entry. *)
Definition replyFor (err : ErrorObject) : Exc ErrorReply :=
  let name := errName (base err) in
  if String.eqb name "ValidationError" then
    Ok (mkErrorReply 400 "Validation Error" (errMessage (base err))
                     (Some (DetailsErrors (errErrors err))) None)
  else if String.eqb name "SequelizeValidationError" then
    match fieldMessages (errErrors err) with
    | Ok fields =>
        Ok (mkErrorReply 400 "Database Validation Error" "Invalid data provided"
                         (Some (DetailsFields fields)) None)
    | Throw e => Throw e
    end
  else if String.eqb name "SequelizeUniqueConstraintError" then
    match fieldMessages (errErrors err) with
    | Ok fields =>
        Ok (mkErrorReply 409 "Duplicate Entry"
                         "A record with this information already exists"
                         (Some (DetailsFields fields)) None)
    | Throw e => Throw e
    end
  else if String.eqb name "SequelizeForeignKeyConstraintError" then
    Ok (mkErrorReply 400 "Reference Error" "Referenced record does not exist"
                     (Some (DetailsReference (errTable err) (errFields err))) None)
  else if String.eqb name "JsonWebTokenError" then
    Ok (mkErrorReply 401 "Authentication Error" "Invalid or expired token" None None)
  else if String.eqb name "TokenExpiredError" then
    Ok (mkErrorReply 401 "Authentication Error" "Token has expired" None None)
  else if String.eqb name "MulterError" then
    Ok (mkErrorReply 400 "File Upload Error" (errMessage (base err)) None None)
  (* Handle file system errors *)
  else if hasCode err "ENOENT" then
    Ok (mkErrorReply 404 "File Not Found" "The requested file could not be found"
                     None None)
  else if hasCode err "EACCES" then
    Ok (mkErrorReply 403 "Permission Denied"
                     "Access to the requested resource is denied" None None)
  (* Handle network errors *)
  else if hasCode err "ECONNREFUSED" then
    Ok (mkErrorReply 503 "Service Unavailable" "Database connection failed"
                     None None)
  (* Handle timeout errors *)
  else if hasCode err "ETIMEDOUT" then
    Ok (mkErrorReply 408 "Request Timeout" "The request timed out" None None)
  else
    (* Default error response *)
    let statusCode := statusOf (base err) in
    let message := messageOf (base err) in
    Ok (mkErrorReply statusCode "Server Error"
          (if envIs NODE_ENV "production" then "An unexpected error occurred"
           else message)
          None
          (if envIs NODE_ENV "development" then Some (errStack err) else None)).

(** The body of [errorHandler]. *)
Definition errorHandlerBody (now : Z) (err : ErrorObject) (req : Request)
    : M ErrorReply :=
  (* Log error details *)
  console_error "Error occurred:" (base err) ;;
  (* Create audit entry for the error *)
  createManualAuditEntry auditFault now (errorEntry err req) ;;
  (* Handle different types of errors *)
  liftExc (replyFor err).

(** [errorHandler] as Express calls it: nobody waits for its promise. *)
Definition errorHandler (now : Z) (err : ErrorObject) (req : Request)
    : World -> Handled * World :=
  fun w =>
    match errorHandlerBody now err req w with
    | (Ok reply, w') => (Replied reply, w')
    | (Throw e, w') => (Unanswered e, w')
    end.

End Handler.

(** The names and codes that have a branch of their own. *)
Definition namedBranches : list string :=
  ["ValidationError"; "SequelizeValidationError"; "SequelizeUniqueConstraintError";
   "SequelizeForeignKeyConstraintError"; "JsonWebTokenError"; "TokenExpiredError";
   "MulterError"].

Definition codedBranches : list string :=
  ["ENOENT"; "EACCES"; "ECONNREFUSED"; "ETIMEDOUT"].

(** An error thrown with [new ValidationError(...)], [new
    AuthenticationError(...)] and the like, or by the runtime: it carries
    no [code], and its [errors] and [stack] are whatever the constructor
    left. *)
Definition thrown (e : JsError) (errors : option (list JsVal)) (stack : JsVal)
    : ErrorObject :=
  {| base := e; errCode := None; errErrors := errors;
     errTable := VUndefined; errFields := VUndefined; errStack := stack |}.

End ErrorHandling.


(* ===================================================================== *)
(** * The session timeout middleware                                     *)
(* ===================================================================== *)

Module SessionTimeout.

Local Open Scope m_scope.

(** [req.session], as far as the middleware reads and writes it:
    [lastActivity] is a number once the middleware has set it, and
    [undefined] before. *)
Record Session := mkSession { lastActivity : option Z }.

(** What became of [req.session]. *)
Inductive SessionEnd :=
| Kept (s : Session)
| Destroyed.                         (* [req.session.destroy()] *)

(** [a - b > c] where [c] may be [NaN] ([None]). *)
Definition exceeds (elapsed : Z) (limit : option Z) : bool :=
  match limit with
  | Some l => (l <? elapsed)%Z
  | None => false
  end.

Section Middleware.
Variable auditFault : AuditData -> option JsError.
(** [parseInt(process.env.AUTO_LOGOUT_MINUTES)]; [None] is [NaN]. *)
Variable AUTO_LOGOUT_MINUTES : option Z.

(** The entry written when a session has expired. *)
Definition timeoutEntry (req : Request) (u : User) : AuditData :=
  manualEntry (Some (id u)) (ip req) (reqGet req "user-agent") "SESSION_TIMEOUT"
              ev_logout sev_low st_success None (originalUrl req) "Session timeout".

(** [checkSessionTimeout].  A request that reaches it without a session
    object makes it throw. *)
Definition checkSessionTimeout (now : Z) (req : Request) (session : option Session)
    : M (Flow * option SessionEnd) :=
  match user req with
  | None => ret (Next, Kept <$> session)
  | Some u =>
      (* Convert to milliseconds *)
      let sessionTimeout := (fun m => m * 60 * 1000)%Z <$> AUTO_LOGOUT_MINUTES in
      match session with
      | None =>
          throw (TypeError "Cannot read properties of undefined (reading 'lastActivity')")
      | Some s =>
          let lastActivity_ :=
            match lastActivity s with
            | Some t => t
            | None => 0%Z
            end in
          let currentTime := now in
          if exceeds (currentTime - lastActivity_) sessionTimeout then
            (* Session expired *)
            fireAndForget auditFault now (timeoutEntry req u) ;;
            ret (Responded 401
                   (errorBody "Session expired"
                      "Your session has expired. Please login again."),
                 Some Destroyed)
          else
            (* Update last activity *)
            ret (Next, Some (Kept {| lastActivity := Some currentTime |}))
      end
  end.

(** A run of requests of one signed-in actor on one session, at the
    given times: how many were let through before one was refused, and
    the session and world at the end. *)
Fixpoint requests (req : Request) (times : list Z) (s : Session) (w : World)
    : nat * SessionEnd * World :=
  match times with
  | [] => (0%nat, Kept s, w)
  | now :: later =>
      match checkSessionTimeout now req (Some s) w with
      | (Ok (Next, Some (Kept s')), w') =>
          let '(n, final, w'') := requests req later s' w' in (S n, final, w'')
      | (_, w') => (0%nat, Destroyed, w')
      end
  end.

End Middleware.

End SessionTimeout.


(* ===================================================================== *)
(** * The report routes: the lab summary                                 *)
(* ===================================================================== *)

Module LabSummary.

(** A lab result document with its patient, as the report reads it.
    [patientId] is the property key the value of [result.patientId]
    turns into. *)
Record LabResult := mkLabResult {
  docId : JsVal;
  patientId : string;
  Patient : JsVal;
  dateOfService : JsVal;
  labResults : JsVal;
  title : JsVal
}.

(** An element of a patient's [results]. *)
Record ResultItem := mkResultItem {
  item_id : JsVal;
  item_dateOfService : JsVal;
  item_labResults : JsVal;
  item_title : JsVal
}.

Record Counts := mkCounts {
  totalResults : Z;
  abnormalResults : Z;
  normalResults : Z
}.

(** A value of the [patients] object. *)
Record PatientGroup := mkPatientGroup {
  patient : JsVal;
  results : list ResultItem;
  summary : Counts
}.

(** The running state of the loop: [patients] and [summary]. *)
Record Report := mkReport {
  patients : gmap string PatientGroup;
  reportSummary : Counts
}.

Definition itemOf (result : LabResult) : ResultItem :=
  {| item_id := docId result; item_dateOfService := dateOfService result;
     item_labResults := labResults result; item_title := title result |}.

Definition increment (c : Counts) : Counts :=
  {| totalResults := totalResults c + 1; abnormalResults := abnormalResults c;
     normalResults := normalResults c |}.

(** The body of the [forEach]. *)
Definition addResult (acc : Report) (result : LabResult) : Report :=
  let patientId_ := patientId result in
  let patients1 :=
    match patients acc !! patientId_ with
    | Some _ => patients acc
    | None =>
        <[patientId_ := {| patient := Patient result; results := [];
                           summary := mkCounts 0 0 0 |}]> (patients acc)
    end in
  let patients2 :=
    match patients1 !! patientId_ with
    | Some group =>
        <[patientId_ := {| patient := patient group;
                           results := results group ++ [itemOf result];
                           summary := increment (summary group) |}]> patients1
    | None => patients1
    end in
  {| patients := patients2; reportSummary := increment (reportSummary acc) |}.

(** [processLabSummaryData(labResults, parameters)]; [Object.values] of
    the [patients] it returns are the values of the map. *)
Definition processLabSummaryData (labResults_ : list LabResult) : Report :=
  fold_left addResult labResults_
    {| patients := ∅;
       reportSummary := mkCounts (Z.of_nat (length labResults_)) 0 0 |}.

End LabSummary.



(* ===================================================================== *)
(** * Concrete requests, users and stores used to exercise the model     *)
(* ===================================================================== *)

Module Examples.

(** An audit store that accepts every write, and one that is down. *)
Definition storeUp : AuditData -> option JsError := fun _ => None.
Definition storeDown : AuditData -> option JsError :=
  fun _ => Some (mkError "SequelizeConnectionError" "connection refused" None).

Definition parseNothing : string -> Exc JsVal :=
  fun _ => Throw (mkError "SyntaxError" "Unexpected token" None).

Definition hashOf : string -> string := fun p => "hash:" +:+ p.
Definition compareHash : string -> string -> bool :=
  fun p h => String.eqb (hashOf p) h.
Definition signToken : TokenPayload -> option string -> string -> string :=
  fun p _ _ => "token-of-" +:+ tp_userId p.
Definition verifyToken : string -> option string -> Exc TokenPayload :=
  fun t _ =>
    if String.eqb t "token-of-u1"
    then Ok {| tp_userId := "u1"; tp_email := "alice@clinic.org";
               tp_role := "provider"; iat := 1700000000 |}
    else Throw (mkError "JsonWebTokenError" "invalid signature" None).
Definition noErrors : Request -> list string := fun _ => [].

Definition alice : User :=
  {| id := "u1"; email := "alice@clinic.org"; password := hashOf "correct horse";
     role := "provider"; isActive := true; lastLogin := None;
     passwordChangedAt := Some 1600000000000; failedLoginAttempts := 0;
     lockedUntil := None; hipaaTrainingCompleted := false;
     hipaaTrainingDate := None; dataAccessLevel := "readonly" |}.

(** Alice after a fifth failed login at 1700000000000. *)
Definition aliceAfterFive : User :=
  set_lockedUntil (Some 1700001800000) (set_failedLoginAttempts 5 alice).
(** Alice after a password change at 1700000500000. *)
Definition aliceChanged : User := set_passwordChangedAt (Some 1700000500000) alice.

Definition emptyWorld : World := {| users := []; auditLog := []; trace := [] |}.
Definition clinic : World := {| users := [alice]; auditLog := []; trace := [] |}.
Definition changedClinic : World :=
  {| users := [aliceChanged]; auditLog := []; trace := [] |}.
Definition lockedClinic : World :=
  {| users := [aliceAfterFive]; auditLog := []; trace := [] |}.

Definition request (m url : string) (b q : JsVal) (hs : gmap string string)
    (u : option User) : Request :=
  {| method := m; originalUrl := url; body := b; query := q;
     ip := Some "10.0.0.7"; remoteAddress := None; headers := hs;
     sessionID := None; user := u |}.

Definition getPatients : Request :=
  request "GET" "/api/patients" VUndefined (VObj ∅) ∅ (Some alice).

Definition postLogin (pw : string) : Request :=
  request "POST" "/api/auth/login"
    (VObj (<["email" := VStr "alice@clinic.org"]> (<["password" := VStr pw]> ∅)))
    (VObj ∅) ∅ None.

(** The clinic after five failed logins for Alice, one minute apart. *)
Definition failedLogin (now : Z) (w : World) : World :=
  snd (login storeUp compareHash hashOf signToken None None noErrors now
             (postLogin "wrong guess") w).

Definition afterFiveFailures : World :=
  failedLogin 1700000240000 (failedLogin 1700000180000
    (failedLogin 1700000120000 (failedLogin 1700000060000
      (failedLogin 1700000000000 clinic)))).

Definition getAuditNoToken : Request :=
  request "GET" "/api/audit" VUndefined (VObj ∅) ∅ None.

Definition getWithToken (t : string) : Request :=
  request "GET" "/api/patients" VUndefined (VObj ∅)
    (<["authorization" := "Bearer " +:+ t]> ∅) None.

(** A stored entry whose error message quotes a table name. *)
Definition quotedMessage : string :=
  "relation " +:+ quote +:+ "users" +:+ quote +:+ " does not exist".

Definition rowWithQuote : AuditRow :=
  {| rowData := manualEntry (Some "u1") (Some "10.0.0.7") None "GET /api/patients"
                  ev_system_error sev_high st_failure (Some quotedMessage)
                  "/api/patients" "Error handler middleware";
     timestamp := 1700000000000 |}.

Definition plainRow : AuditRow :=
  {| rowData := manualEntry (Some "u1") (Some "10.0.0.7") None "LOGIN_SUCCESS"
                  ev_login sev_medium st_success None "/api/auth/login"
                  "Successful login";
     timestamp := 1700000000000 |}.

(** A stored entry whose error message contains quote, comma, quote. *)
Definition splitMessage : string := "x" +:+ quote +:+ "," +:+ quote +:+ "y".

Definition rowWithSeparator : AuditRow :=
  {| rowData := manualEntry (Some "u1") (Some "10.0.0.7") None "GET /api/patients"
                  ev_system_error sev_high st_failure (Some splitMessage)
                  "/api/patients" "Error handler middleware";
     timestamp := 1700000000000 |}.

Definition showDate : Z -> string := fun ms => "t" +:+ pretty ms.

End Examples.

Module AccountExamples.


Import Examples.

(** A token service whose access tokens carry their issue time. *)
Definition signAt : TokenPayload -> option string -> string -> string :=
  fun p _ _ => "token-of-" +:+ tp_userId p +:+ "-at-" +:+ pretty (iat p).

(** It knows Alice's access token of second 1700000600 and her refresh
    token of second 1690000000. *)
Definition verifyAt : string -> option string -> Exc TokenPayload :=
  fun t secret =>
    if String.eqb t "token-of-u1-at-1700000600" && bool_decide (secret = Some "access")
    then Ok {| tp_userId := "u1"; tp_email := "alice@clinic.org";
               tp_role := "provider"; iat := 1700000600 |}
    else if String.eqb t "refresh-of-u1" && bool_decide (secret = Some "refresh")
    then Ok {| tp_userId := "u1"; tp_email := "alice@clinic.org";
               tp_role := "provider"; iat := 1690000000 |}
    else Throw (mkError "JsonWebTokenError" "invalid signature" None).

Definition postRefresh : Request :=
  request "POST" "/api/auth/refresh"
    (VObj (<["refreshToken" := VStr "refresh-of-u1"]> ∅)) (VObj ∅) ∅ None.

Definition postLogout : Request :=
  request "POST" "/api/auth/logout" (VObj ∅) (VObj ∅)
    (<["authorization" := "Bearer token-of-u1"]> ∅) (Some alice).

Definition postTraining : Request :=
  request "POST" "/api/auth/complete-hipaa-training" (VObj ∅) (VObj ∅) ∅
    (Some alice).

(** A profile update that also tries to raise the role. *)
Definition greedyProfile : JsVal :=
  VObj (<["phone" := VStr "555-0100"]> (<["role" := VStr "admin"]>
       (<["dataAccessLevel" := VStr "full"]> ∅))).

End AccountExamples.

Module SessionExamples.

Import SessionTimeout.

Import Examples.

Definition freshSession : Session := {| lastActivity := None |}.

Definition activeSession : Session := {| lastActivity := Some 1700000000000 |}.

End SessionExamples.

Module ListingExamples.

Import Examples.






End ListingExamples.



(* ===================================================================== *)
(** * Properties of the audit classifier and writer                      *)
(* ===================================================================== *)

Module ClassifierFacts.

Local Open Scope exc_scope.

(** The property [key] of [v] as a value, for a [v] that can be read. *)
Definition propOf (v : JsVal) (key : string) : JsVal :=
  match v with
  | VObj props => default VUndefined (props !! key)
  | _ => VUndefined
  end.

(** The labels [extractPHIFields] collects from a truthy body. *)
Definition bodyLabels (body : JsVal) : list string :=
  pushIf (propOf body "medicalHistory") "medicalHistory"
    (pushIf (propOf body "address") "address"
      (pushIf (propOf body "email") "email"
        (pushIf (propOf body "phone") "phone"
          (pushIf (propOf body "ssn") "ssn"
            (pushIf (propOf body "dateOfBirth") "dateOfBirth"
              (pushIf (jsOr (propOf body "firstName") (propOf body "lastName"))
                      "name" [])))))).

(** The labels it adds from a truthy query. *)
Definition queryLabels (query : JsVal) (acc : list string) : list string :=
  pushIf (propOf query "dob") "dateOfBirth" (pushIf (propOf query "name") "name" acc).

(** All labels, in the order they are pushed. *)
Definition phiLabels (body query : JsVal) : list string :=
  let fromBody := if truthy body then bodyLabels body else [] in
  if truthy query then queryLabels query fromBody else fromBody.

(** The sensitive keys the specification lists, by where they are read. *)
Definition bodyKeys : list string :=
  ["firstName"; "lastName"; "dateOfBirth"; "ssn"; "phone"; "email"; "address";
   "medicalHistory"].
Definition queryKeys : list string := ["name"; "dob"].

(** Some sensitive key is present with a truthy value. *)
Definition sensitiveKeyPresent (body query : JsVal) : bool :=
  (truthy body && existsb (fun k => truthy (propOf body k)) bodyKeys)
  || (truthy query && existsb (fun k => truthy (propOf query k)) queryKeys).

Lemma getProp_truthy v key : truthy v = true -> getProp v key = Ok (propOf v key).
Proof. destruct v; simpl; intros H; try discriminate; reflexivity. Qed.

Lemma pushIf_length c label acc :
  length (pushIf c label acc) = (length acc + if truthy c then 1 else 0)%nat.
Proof.
  unfold pushIf. destruct (truthy c); [rewrite length_app; simpl|]; lia.
Qed.

Lemma pushIf_nil_iff c label acc :
  pushIf c label acc = [] <-> truthy c = false /\ acc = [].
Proof.
  unfold pushIf. destruct (truthy c).
  - split; [intros H; destruct acc; discriminate | intros [H _]; discriminate].
  - split; [intros ->; auto | intros [_ ->]; reflexivity].
Qed.

(** [extractPHIFields] never throws, and what it returns is the pushed
    labels, or [null] when nothing was pushed. *)
Lemma extractPHIFields_eq body query :
  extractPHIFields body query =
  Ok (match phiLabels body query with
      | [] => None
      | l => Some l
      end).
Proof.
  unfold extractPHIFields, phiLabels.
  destruct (truthy body) eqn:Hb; destruct (truthy query) eqn:Hq;
    rewrite ?(getProp_truthy body) by exact Hb;
    rewrite ?(getProp_truthy query) by exact Hq; cbn [exc_bind].
  - destruct (truthy (propOf body "firstName")) eqn:Hf;
      rewrite ?(getProp_truthy body) by exact Hb; cbn [exc_bind];
      unfold queryLabels, bodyLabels, jsOr; rewrite Hf;
      match goal with |- context [pushIf ?c "dateOfBirth" (pushIf ?d "name" ?acc)] =>
        destruct (pushIf c "dateOfBirth" (pushIf d "name" acc)); reflexivity end.
  - destruct (truthy (propOf body "firstName")) eqn:Hf;
      rewrite ?(getProp_truthy body) by exact Hb; cbn [exc_bind];
      unfold bodyLabels, jsOr; rewrite Hf;
      match goal with |- context [pushIf ?c "medicalHistory" ?acc] =>
        destruct (pushIf c "medicalHistory" acc); reflexivity end.
  - unfold queryLabels.
    destruct (pushIf (propOf query "dob") "dateOfBirth"
                (pushIf (propOf query "name") "name" [])); reflexivity.
  - reflexivity.
Qed.

Lemma phiLabels_nil_iff body query :
  phiLabels body query = [] <-> sensitiveKeyPresent body query = false.
Proof.
  unfold phiLabels, sensitiveKeyPresent, queryLabels, bodyLabels, bodyKeys,
    queryKeys, jsOr.
  destruct (truthy body) eqn:Hb; destruct (truthy query) eqn:Hq; simpl;
    rewrite ?pushIf_nil_iff;
    repeat match goal with
           | |- context [truthy (if ?c then _ else _)] => destruct c eqn:?
           | |- context [truthy (propOf ?v ?k)] =>
               lazymatch goal with
               | H : truthy (propOf v k) = _ |- _ => rewrite H
               | _ => destruct (truthy (propOf v k)) eqn:?
               end
           end; simpl; try tauto; try (split; [tauto | discriminate]);
    try (split; [intros; tauto | intros; discriminate]);
    try (split; intros; try discriminate; intuition congruence).
Qed.

(** The classifier never throws: it always yields a draft. *)
Lemma classify_eq method url statusCode body query :
  classify method url statusCode body query =
  Ok {| d_eventType := determineEventType method url;
        d_severity := determineSeverity method url statusCode;
        d_phiAccessed := isPHIAccess url method;
        d_resourceType := determineResourceType url;
        d_status := if (400 <=? statusCode)%Z then st_failure else st_success;
        d_resourceId := extractResourceId url;
        d_phiFields :=
          if isPHIAccess url method
          then match phiLabels body query with [] => None | l => Some l end
          else None;
        d_purpose := extractPurpose url method |}.
Proof.
  unfold classify. destruct (isPHIAccess url method).
  - rewrite extractPHIFields_eq. reflexivity.
  - reflexivity.
Qed.

(** The request is one the middleware skips. *)
Definition skipped (req : Request) : bool :=
  existsb (fun endpoint => includes (originalUrl req) endpoint) skipAuditEndpoints.

Section Writer.
Variable auditFault : AuditData -> option JsError.
Variable JSON_parse : string -> Exc JsVal.

(** Building the entry never throws, and its derived fields are the
    classifier's. *)
Lemma buildAuditData_ok req res duration data :
  exists a d,
    buildAuditData JSON_parse req res duration data = Ok a /\
    classify (method req) (originalUrl req) (statusCode res) (body req)
             (query req) = Ok d /\
    eventType a = d_eventType d /\ severity a = Some (d_severity d) /\
    status a = Some (d_status d) /\ resourceType a = Some (d_resourceType d) /\
    phiAccessed a = Some (d_phiAccessed d) /\ phiFields a = d_phiFields d /\
    purpose a = Some (d_purpose d) /\ resourceId a = d_resourceId d.
Proof.
  unfold buildAuditData. rewrite classify_eq. cbn [exc_bind].
  eexists _, _. repeat split.
Qed.

(** What [createAuditEntry] does to the world, case by case; it never
    rejects. *)
Lemma createAuditEntry_eq now req res duration data w :
  createAuditEntry auditFault JSON_parse now req res duration data w =
  if skipped req then (Ok tt, w)
  else match buildAuditData JSON_parse req res duration data with
       | Ok a =>
           match auditFault a with
           | None => (Ok tt, appendAudit a now w)
           | Some e => (Ok tt, logError "Error creating audit entry:" e w)
           end
       | Throw e => (Ok tt, logError "Error creating audit entry:" e w)
       end.
Proof.
  unfold createAuditEntry, tryCatch, skipped.
  destruct (existsb _ skipAuditEndpoints); [reflexivity|].
  unfold bind, liftExc.
  destruct (buildAuditData JSON_parse req res duration data) as [a|e];
    [|reflexivity].
  unfold Audit_createEntry. destruct (auditFault a); reflexivity.
Qed.

(** [createManualAuditEntry] never rejects either. *)
Lemma createManualAuditEntry_eq now d w :
  createManualAuditEntry auditFault now d w =
  match auditFault d with
  | None => (Ok tt, appendAudit d now w)
  | Some e => (Ok tt, logError "Error creating manual audit entry:" e w)
  end.
Proof.
  unfold createManualAuditEntry, tryCatch, Audit_createEntry.
  destruct (auditFault d); reflexivity.
Qed.

(** The response [auditLogger]'s patched [send] delivers is the one the
    handler computed, whatever the audit store does; the [users] table is
    left alone. *)
Lemma send_isolates_audit_failure startTime now req res data w :
  exists w',
    send auditFault JSON_parse startTime now req res data w
      = (Ok (statusCode res, data), w') /\
    users w' = users w.
Proof.
  unfold send, bind, tryCatch. rewrite createAuditEntry_eq.
  destruct (skipped req); [eexists; split; reflexivity|].
  destruct (buildAuditData _ _ _ _ _) as [a|e];
    [destruct (auditFault a)|]; eexists; split; reflexivity.
Qed.

(** C3. The audit classifier is total and deterministic: on every method,
    path, status code and payload it returns a draft (it never throws),
    two invocations on identical inputs return identical drafts, and the
    classification stored with an entry depends on nothing else: two
    requests that agree on method, path, status code, body and query are
    stored with the same event type, severity, outcome, resource type and
    id, PHI flag, PHI field list and purpose, whatever their headers,
    actor, duration or response payload. *)
Theorem classify_total_deterministic :
  forall (method url : string) (statusCode : Z) (body query : JsVal),
    (exists draft, classify method url statusCode body query = Ok draft) /\
    (forall method' url' statusCode' body' query',
        (method', url', statusCode', body', query')
          = (method, url, statusCode, body, query) ->
        classify method' url' statusCode' body' query'
          = classify method url statusCode body query) /\
    (forall (req1 req2 : Request) (res1 res2 : Response) (duration1 duration2 : Z)
            (data1 data2 : JsVal),
        (Runtime.method req1, originalUrl req1, AuditMiddleware.statusCode res1,
         Runtime.body req1, Runtime.query req1)
          = (method, url, statusCode, body, query) ->
        (Runtime.method req2, originalUrl req2, AuditMiddleware.statusCode res2,
         Runtime.body req2, Runtime.query req2)
          = (method, url, statusCode, body, query) ->
        exists a1 a2,
          buildAuditData JSON_parse req1 res1 duration1 data1 = Ok a1 /\
          buildAuditData JSON_parse req2 res2 duration2 data2 = Ok a2 /\
          (eventType a1, severity a1, status a1, resourceType a1, resourceId a1,
           phiAccessed a1, phiFields a1, purpose a1)
          = (eventType a2, severity a2, status a2, resourceType a2, resourceId a2,
             phiAccessed a2, phiFields a2, purpose a2)).
Proof.
  intros method url statusCode body query. split; [|split].
  - rewrite classify_eq. eexists. reflexivity.
  - intros method' url' statusCode' body' query' Heq.
    injection Heq as -> -> -> -> ->. reflexivity.
  - intros req1 req2 res1 res2 duration1 duration2 data1 data2 H1 H2.
    destruct (buildAuditData_ok req1 res1 duration1 data1)
      as (a1 & d1 & Ha1 & Hd1 & E1 & S1 & O1 & R1 & P1 & F1 & U1 & I1).
    destruct (buildAuditData_ok req2 res2 duration2 data2)
      as (a2 & d2 & Ha2 & Hd2 & E2 & S2 & O2 & R2 & P2 & F2 & U2 & I2).
    injection H1 as M1 L1 C1 B1 Q1. injection H2 as M2 L2 C2 B2 Q2.
    rewrite M1, L1, C1, B1, Q1 in Hd1. rewrite M2, L2, C2, B2, Q2 in Hd2.
    rewrite Hd1 in Hd2. injection Hd2 as <-.
    exists a1, a2. split; [exact Ha1|]. split; [exact Ha2|].
    rewrite E1, S1, O1, R1, P1, F1, U1, I1, E2, S2, O2, R2, P2, F2, U2, I2.
    reflexivity.
Qed.

(** C9. For every request/response pair the entry built by the
    request-level classifier has outcome failure exactly when the status
    code is at least 400, success otherwise, and never warning. *)
Theorem outcome_failure_iff_status_at_least_400 :
  forall (req : Request) (res : Response) (duration : Z) (data : JsVal),
    exists a,
      buildAuditData JSON_parse req res duration data = Ok a /\
      (status a = Some st_failure <-> (400 <= statusCode res)%Z) /\
      (status a = Some st_success <-> (statusCode res < 400)%Z) /\
      status a <> Some st_warning.
Proof.
  intros req res duration data.
  destruct (buildAuditData_ok req res duration data)
    as (a & d & Ha & Hd & _ & _ & Hst & _).
  exists a. split; [exact Ha|].
  rewrite classify_eq in Hd. injection Hd as <-. cbn [d_status] in Hst.
  rewrite Hst. destruct (Z.leb_spec 400 (statusCode res)).
  - repeat split; try congruence; try lia; intros; lia.
  - repeat split; try congruence; try lia; intros; lia.
Qed.

(** C10. A request whose URL contains one of the exempt endpoints
    [/api/health], [/api/auth/login], [/api/auth/refresh] or
    [/favicon.ico] leaves the audit store (and everything else) untouched
    when it goes through the generic audit middleware, and its response
    is delivered as computed. *)
Theorem exempt_endpoints_create_no_entry :
  forall (startTime now duration : Z) (req : Request) (res : Response)
         (data : JsVal) (w : World),
    includes (originalUrl req) "/api/health" = true \/
    includes (originalUrl req) "/api/auth/login" = true \/
    includes (originalUrl req) "/api/auth/refresh" = true \/
    includes (originalUrl req) "/favicon.ico" = true ->
    createAuditEntry auditFault JSON_parse now req res duration data w
      = (Ok tt, w) /\
    send auditFault JSON_parse startTime now req res data w
      = (Ok (statusCode res, data), w).
Proof.
  intros startTime now duration req res data w H.
  assert (Hs : skipped req = true).
  { unfold skipped, skipAuditEndpoints. cbn [existsb].
    destruct H as [-> | [-> | [-> | ->]]];
      rewrite ?orb_true_r; reflexivity. }
  split.
  - rewrite createAuditEntry_eq, Hs. reflexivity.
  - unfold send, bind, tryCatch. rewrite createAuditEntry_eq, Hs. reflexivity.
Qed.

(** C4, as the code has it.  Every entry the request-level classifier
    stores with [phiAccessed = true] carries either no PHI field list
    ([null]) or a non-empty one, never an empty list; the list is present
    exactly when the body or the query has one of the known sensitive keys
    with a truthy value. *)
Theorem phi_fields_null_or_nonempty :
  forall (req : Request) (res : Response) (duration now : Z) (data : JsVal)
         (w : World),
    exists a,
      buildAuditData JSON_parse req res duration data = Ok a /\
      (let w' := snd (createAuditEntry auditFault JSON_parse now req res
                                       duration data w) in
       auditLog w' = auditLog w \/
       auditLog w' = (auditLog w ++ [mkAuditRow a now])%list) /\
      (phiAccessed a = Some true ->
       (phiFields a = None \/ exists f fs, phiFields a = Some (f :: fs)) /\
       (phiFields a <> None <->
        sensitiveKeyPresent (body req) (query req) = true)).
Proof.
  intros req res duration now data w.
  destruct (buildAuditData_ok req res duration data)
    as (a & d & Ha & Hd & _ & _ & _ & _ & Hphi & Hfields & _).
  exists a. split; [exact Ha|]. split.
  - rewrite createAuditEntry_eq, Ha.
    destruct (skipped req); [left; reflexivity|].
    destruct (auditFault a); [left|right]; reflexivity.
  - rewrite classify_eq in Hd. injection Hd as <-.
    cbn [d_phiAccessed d_phiFields] in Hphi, Hfields.
    intros Htrue. rewrite Hphi in Htrue. injection Htrue as Htrue.
    rewrite Htrue in Hfields. rewrite Hfields.
    pose proof (phiLabels_nil_iff (body req) (query req)) as Hnil.
    destruct (phiLabels (body req) (query req)) as [|f fs].
    + split; [left; reflexivity|].
      split; [congruence|].
      intros Hk. destruct Hnil as [Hnil _]. rewrite Hnil in Hk by reflexivity.
      discriminate.
    + split; [right; eauto|].
      split; [intros _|congruence].
      destruct (sensitiveKeyPresent (body req) (query req)); [reflexivity|].
      destruct Hnil as [_ Hnil]. discriminate (Hnil eq_refl).
Qed.

End Writer.

(** C4 as stated fails: a plain [GET /api/patients] with no body and an
    empty query is stored with [phiAccessed = true] and no field list. *)
Lemma phi_access_without_field_list :
  map (fun row => (phiAccessed (rowData row), phiFields (rowData row)))
      (auditLog (snd (createAuditEntry Examples.storeUp Examples.parseNothing
                        1700000000000 Examples.getPatients (mkResponse 200) 12
                        (VStr "[]") Examples.clinic)))
  = [(Some true, None)].
Proof. vm_compute. reflexivity. Qed.

(** An exempt request, run through the middleware. *)
Lemma exempt_endpoints_create_no_entry_witness :
  createAuditEntry Examples.storeUp Examples.parseNothing 1700000000000
    (Examples.postLogin "correct horse") (mkResponse 200) 12 (VStr "{}")
    Examples.clinic = (Ok tt, Examples.clinic).
Proof.
  apply (exempt_endpoints_create_no_entry Examples.storeUp
           Examples.parseNothing 1699999999988 1700000000000 12
           (Examples.postLogin "correct horse") (mkResponse 200) (VStr "{}")
           Examples.clinic).
  right. left. vm_compute. reflexivity.
Defined.

End ClassifierFacts.
Import ClassifierFacts.


(* ===================================================================== *)
(** * Properties of the lockout state machine                            *)
(* ===================================================================== *)

Module LockoutFacts.

(** The account is locked at [now]: line 134 of the login handler. *)
Definition lockedAt (now : Z) (u : User) : bool :=
  match lockedUntil u with
  | Some until => (now <? until)%Z
  | None => false
  end.

(** The row a failed password check saves (lines 155-162). *)
Definition afterFailure (now : Z) (u : User) : User :=
  let u1 := set_failedLoginAttempts (failedLoginAttempts u + 1) u in
  if (5 <=? failedLoginAttempts u1)%Z
  then set_lockedUntil (Some (now + 30 * 60 * 1000)%Z) u1
  else u1.

(** The row a successful login saves (lines 199-202). *)
Definition afterSuccess (now : Z) (u : User) : User :=
  set_lastLogin (Some now) (set_lockedUntil None (set_failedLoginAttempts 0 u)).

(** The [users] table after [save()] wrote [u']. *)
Definition saveRow (u' : User) (us : list User) : list User :=
  map (fun r => if String.eqb (id r) (id u') then u' else r) us.

(** The [where] clause of [findByEmail]. *)
Definition byEmail (e : string) : User -> bool :=
  fun r => String.eqb (email r) (toLowerCase e).

Definition isPasswordCheck (ev : Event) : bool :=
  match ev with
  | EvValidatePassword _ => true
  | _ => false
  end.

(** How many times [bcrypt.compare] has run so far. *)
Definition passwordChecks (w : World) : nat :=
  length (List.filter isPasswordCheck (trace w)).

(** A row found by email is found again, in its new state, after a save
    that keeps its key and email. *)
Lemma find_saveRow e u u' us :
  find (byEmail e) us = Some u ->
  email u' = email u -> id u' = id u ->
  find (byEmail e) (saveRow u' us) = Some u'.
Proof.
  intros Hfind Hemail Hid.
  assert (Hu : byEmail e u' = true).
  { apply find_some in Hfind as [_ Hu]. unfold byEmail in *. rewrite Hemail. exact Hu. }
  induction us as [|r rest IH]; [discriminate|].
  cbn [saveRow map find] in *.
  destruct (String.eqb (id r) (id u')) eqn:Hr.
  - rewrite Hu. reflexivity.
  - destruct (byEmail e r) eqn:He.
    + injection Hfind as ->. rewrite Hid, String.eqb_refl in Hr. discriminate.
    + apply IH. exact Hfind.
Qed.

Section Login.
Variable auditFault : AuditData -> option JsError.
Variable bcrypt_compare : string -> string -> bool.
Variable bcrypt_hash : string -> string.
Variable jwt_sign : TokenPayload -> option string -> string -> string.
Variable JWT_SECRET : option string.
Variable JWT_EXPIRES_IN : option string.
Variable PASSWORD_MIN_LENGTH : option Z.
Variable validateLogin : Request -> list string.

(** The world after [createManualAuditEntry d]: the row is appended, or
    the store's error is reported to the console. *)
Definition afterAudit (d : AuditData) (now : Z) (w : World) : World :=
  match auditFault d with
  | None => appendAudit d now w
  | Some e => logError "Error creating manual audit entry:" e w
  end.

Lemma audit_eq now req uid act ev sev st err res ctx w :
  audit auditFault now req uid act ev sev st err res ctx w =
  (Ok tt, afterAudit (manualEntry uid (ip req) (reqGet req "user-agent") act ev
                        sev st err res ctx) now w).
Proof.
  unfold audit, afterAudit. rewrite createManualAuditEntry_eq.
  destruct (auditFault _); reflexivity.
Qed.

Lemma afterAudit_users d now w : users (afterAudit d now w) = users w.
Proof. unfold afterAudit. destruct (auditFault d); reflexivity. Qed.

Lemma afterAudit_passwordChecks d now w :
  passwordChecks (afterAudit d now w) = passwordChecks w.
Proof.
  unfold afterAudit, passwordChecks. destruct (auditFault d); cbn [logError appendAudit trace].
  - rewrite List.filter_app. cbn. rewrite app_nil_r. reflexivity.
  - reflexivity.
Qed.

Definition lockedEntry (req : Request) (u : User) : AuditData :=
  manualEntry (Some (id u)) (ip req) (reqGet req "user-agent") "LOGIN_ATTEMPT"
    ev_access_denied sev_medium st_failure (Some "Account locked")
    "/api/auth/login" "Login attempt - account locked".

Lemma login_locked now req w e pw u :
  validateLogin req = [] ->
  getProp (body req) "email" = Ok (VStr e) ->
  getProp (body req) "password" = Ok pw ->
  find (byEmail e) (users w) = Some u ->
  lockedAt now u = true ->
  login auditFault bcrypt_compare bcrypt_hash jwt_sign JWT_SECRET JWT_EXPIRES_IN
        validateLogin now req w
  = (NextError (AuthenticationError
       "Account is temporarily locked due to multiple failed login attempts"),
     afterAudit (lockedEntry req u) now w).
Proof.
  intros Hv He Hp Hf Hl.
  unfold login, asyncHandler, loginBody. rewrite Hv. cbn [length Nat.eqb negb].
  unfold bind, liftExc. rewrite He, Hp. cbn [asEmail].
  unfold User_findByEmail. fold (byEmail e). rewrite Hf.
  unfold lockedAt in Hl. rewrite Hl. rewrite audit_eq. reflexivity.
Qed.

Definition wrongPasswordEntry (req : Request) (u : User) : AuditData :=
  manualEntry (Some (id u)) (ip req) (reqGet req "user-agent") "LOGIN_ATTEMPT"
    ev_failed_login sev_medium st_failure (Some "Invalid password")
    "/api/auth/login" "Login attempt - invalid password".

Definition notePasswordCheck (u : User) (w : World) : World :=
  {| users := users w; auditLog := auditLog w;
     trace := trace w ++ [EvValidatePassword (id u)] |}.

Lemma afterFailure_id now u : id (afterFailure now u) = id u.
Proof. unfold afterFailure. cbn. destruct (5 <=? _)%Z; reflexivity. Qed.

Lemma afterFailure_email now u : email (afterFailure now u) = email u.
Proof. unfold afterFailure. cbn. destruct (5 <=? _)%Z; reflexivity. Qed.

Lemma login_wrong_password now req w e p u :
  validateLogin req = [] ->
  getProp (body req) "email" = Ok (VStr e) ->
  getProp (body req) "password" = Ok (VStr p) ->
  find (byEmail e) (users w) = Some u ->
  lockedAt now u = false ->
  bcrypt_compare p (password u) = false ->
  login auditFault bcrypt_compare bcrypt_hash jwt_sign JWT_SECRET JWT_EXPIRES_IN
        validateLogin now req w
  = (NextError (AuthenticationError "Invalid email or password"),
     afterAudit (wrongPasswordEntry req u) now
       (setUsers (saveRow (afterFailure now u) (users w))
                 (notePasswordCheck u w))).
Proof.
  intros Hv He Hp Hf Hl Hc.
  unfold login, asyncHandler, loginBody. rewrite Hv. cbn [length Nat.eqb negb].
  unfold bind, liftExc. rewrite He, Hp. cbn [asEmail].
  unfold User_findByEmail. fold (byEmail e). rewrite Hf.
  unfold lockedAt in Hl. rewrite Hl.
  unfold User_validatePassword. rewrite Hc. cbn [negb].
  unfold User_save, beforeUpdate. rewrite audit_eq. unfold throw.
  unfold wrongPasswordEntry, saveRow, notePasswordCheck, afterFailure.
  cbv zeta. destruct (5 <=? _)%Z; reflexivity.
Qed.

Definition loginEntry (req : Request) (u : User) : AuditData :=
  manualEntry (Some (id u)) (ip req) (reqGet req "user-agent") "LOGIN_SUCCESS"
    ev_login sev_medium st_success None "/api/auth/login" "Successful login".


Local Abbreviation login' := (login auditFault bcrypt_compare bcrypt_hash jwt_sign
                         JWT_SECRET JWT_EXPIRES_IN validateLogin).

(** C1. A login attempt for an actor whose lockout expiry lies in the
    future is rejected with the locked-account failure whatever password
    it presents (the correct one included): the password check does not
    run, the [users] table is unchanged, and the denial is audited.  A
    login attempt that fails the password check on an unlocked account
    adds one to the failure counter and, when the counter thereby reaches
    5, sets the lockout expiry to [now] plus 30 minutes. *)
Theorem locked_login_rejected_and_failures_counted :
  forall (now : Z) (req : Request) (w : World) (e : string) (pw : JsVal)
         (u : User),
    validateLogin req = [] ->
    getProp (body req) "email" = Ok (VStr e) ->
    getProp (body req) "password" = Ok pw ->
    find (byEmail e) (users w) = Some u ->
    (forall expiry,
        lockedUntil u = Some expiry -> (now < expiry)%Z ->
        exists w',
          login' now req w
          = (NextError (AuthenticationError
               "Account is temporarily locked due to multiple failed login attempts"),
             w') /\
          users w' = users w /\
          passwordChecks w' = passwordChecks w /\
          (auditFault (lockedEntry req u) = None ->
           auditLog w' = (auditLog w ++ [mkAuditRow (lockedEntry req u) now])%list))
    /\
    (forall p,
        lockedAt now u = false -> pw = VStr p ->
        bcrypt_compare p (password u) = false ->
        exists w',
          login' now req w
          = (NextError (AuthenticationError "Invalid email or password"), w') /\
          passwordChecks w' = S (passwordChecks w) /\
          find (byEmail e) (users w') = Some (afterFailure now u) /\
          failedLoginAttempts (afterFailure now u) = (failedLoginAttempts u + 1)%Z /\
          lockedUntil (afterFailure now u)
          = if (5 <=? failedLoginAttempts u + 1)%Z
            then Some (now + 30 * 60 * 1000)%Z
            else lockedUntil u).
Proof.
  intros now req w e pw u Hv He Hp Hf. split.
  - intros expiry Hu Hlt.
    assert (Hl : lockedAt now u = true).
    { unfold lockedAt. rewrite Hu. apply Z.ltb_lt. exact Hlt. }
    eexists. split; [apply (login_locked now req w e pw u); assumption|].
    split; [apply afterAudit_users|].
    split; [apply afterAudit_passwordChecks|].
    intros Hok. unfold afterAudit. rewrite Hok. reflexivity.
  - intros p Hl -> Hc.
    eexists. split; [apply (login_wrong_password now req w e p u); assumption|].
    split.
    { rewrite afterAudit_passwordChecks. unfold passwordChecks, setUsers,
        notePasswordCheck. cbn [trace]. rewrite List.filter_app, length_app.
      cbn. lia. }
    split.
    { rewrite afterAudit_users. cbn [setUsers users].
      apply (find_saveRow e u); [exact Hf | apply afterFailure_email | apply afterFailure_id]. }
    unfold afterFailure. cbv zeta. cbn [failedLoginAttempts set_failedLoginAttempts].
    destruct (5 <=? failedLoginAttempts u + 1)%Z; split; reflexivity.
Qed.

(** The world after one more login attempt. *)
Definition attempt (now : Z) (req : Request) (w : World) : World :=
  snd (login' now req w).

Lemma attempt_wrong_password now req w e p v :
  validateLogin req = [] ->
  getProp (body req) "email" = Ok (VStr e) ->
  getProp (body req) "password" = Ok (VStr p) ->
  bcrypt_compare p (password v) = false ->
  find (byEmail e) (users w) = Some v ->
  lockedUntil v = None ->
  find (byEmail e) (users (attempt now req w)) = Some (afterFailure now v).
Proof.
  intros Hv He Hp Hc Hf Hl. unfold attempt.
  rewrite (login_wrong_password now req w e p v) by
    (try assumption; unfold lockedAt; rewrite Hl; reflexivity).
  cbn [snd]. rewrite afterAudit_users. cbn [setUsers users].
  apply (find_saveRow e v); [exact Hf | apply afterFailure_email | apply afterFailure_id].
Qed.

(** Five failed logins from a clean record, whenever they happen, then a
    sixth attempt with the correct password inside the thirty minutes
    that follow the fifth: the sixth is rejected as locked. *)
Theorem five_failures_then_correct_password_is_locked :
  forall (t1 t2 t3 t4 t5 t6 : Z) (bad good : Request) (w : World)
         (e wrong right : string) (u : User),
    validateLogin bad = [] -> validateLogin good = [] ->
    getProp (body bad) "email" = Ok (VStr e) ->
    getProp (body bad) "password" = Ok (VStr wrong) ->
    getProp (body good) "email" = Ok (VStr e) ->
    getProp (body good) "password" = Ok (VStr right) ->
    bcrypt_compare wrong (password u) = false ->
    bcrypt_compare right (password u) = true ->
    find (byEmail e) (users w) = Some u ->
    failedLoginAttempts u = 0%Z -> lockedUntil u = None ->
    (t6 < t5 + 30 * 60 * 1000)%Z ->
    let w5 := attempt t5 bad (attempt t4 bad (attempt t3 bad
                (attempt t2 bad (attempt t1 bad w)))) in
    fst (login' t6 good w5)
    = NextError (AuthenticationError
        "Account is temporarily locked due to multiple failed login attempts") /\
    passwordChecks (attempt t6 good w5) = passwordChecks w5.
Proof.
  intros t1 t2 t3 t4 t5 t6 bad good w e wrong right u Hvb Hvg Heb Hpb Heg Hpg
    Hwrong Hright Hf Hc Hl Ht w5.
  assert (Hpw : forall t v, password (afterFailure t v) = password v).
  { intros t v. unfold afterFailure. cbv zeta. destruct (5 <=? _)%Z; reflexivity. }
  assert (Hstep : forall t v k,
             failedLoginAttempts v = k -> lockedUntil v = None ->
             failedLoginAttempts (afterFailure t v) = (k + 1)%Z /\
             lockedUntil (afterFailure t v)
             = if (5 <=? k + 1)%Z then Some (t + 30 * 60 * 1000)%Z else None).
  { intros t v k <- Hn. unfold afterFailure. cbv zeta.
    cbn [failedLoginAttempts set_failedLoginAttempts].
    destruct (5 <=? failedLoginAttempts v + 1)%Z; cbn; auto. }
  set (u1 := afterFailure t1 u). set (u2 := afterFailure t2 u1).
  set (u3 := afterFailure t3 u2). set (u4 := afterFailure t4 u3).
  set (u5 := afterFailure t5 u4).
  destruct (Hstep t1 u 0%Z Hc Hl) as [Hc1 Hl1]. fold u1 in Hc1, Hl1.
  destruct (Hstep t2 u1 _ Hc1 Hl1) as [Hc2 Hl2]. fold u2 in Hc2, Hl2.
  destruct (Hstep t3 u2 _ Hc2 Hl2) as [Hc3 Hl3]. fold u3 in Hc3, Hl3.
  destruct (Hstep t4 u3 _ Hc3 Hl3) as [Hc4 Hl4]. fold u4 in Hc4, Hl4.
  destruct (Hstep t5 u4 _ Hc4 Hl4) as [Hc5 Hl5]. fold u5 in Hc5, Hl5.
  cbn in Hl1, Hl2, Hl3, Hl4, Hl5.
  assert (Hf1 : find (byEmail e) (users (attempt t1 bad w)) = Some u1)
    by (apply (attempt_wrong_password t1 bad w e wrong u); assumption).
  assert (Hf2 : find (byEmail e) (users (attempt t2 bad (attempt t1 bad w))) = Some u2).
  { apply (attempt_wrong_password t2 bad _ e wrong u1); try assumption.
    unfold u1. rewrite Hpw. exact Hwrong. }
  assert (Hf3 : find (byEmail e)
                  (users (attempt t3 bad (attempt t2 bad (attempt t1 bad w)))) = Some u3).
  { apply (attempt_wrong_password t3 bad _ e wrong u2); try assumption.
    unfold u2, u1. rewrite !Hpw. exact Hwrong. }
  assert (Hf4 : find (byEmail e)
                  (users (attempt t4 bad (attempt t3 bad (attempt t2 bad
                            (attempt t1 bad w))))) = Some u4).
  { apply (attempt_wrong_password t4 bad _ e wrong u3); try assumption.
    unfold u3, u2, u1. rewrite !Hpw. exact Hwrong. }
  assert (Hf5 : find (byEmail e) (users w5) = Some u5).
  { apply (attempt_wrong_password t5 bad _ e wrong u4); try assumption.
    unfold u4, u3, u2, u1. rewrite !Hpw. exact Hwrong. }
  assert (Hlocked : lockedAt t6 u5 = true).
  { unfold lockedAt. rewrite Hl5. apply Z.ltb_lt. exact Ht. }
  unfold attempt at 1.
  rewrite (login_locked t6 good w5 e (VStr right) u5) by assumption.
  cbn [fst snd]. split; [reflexivity | apply afterAudit_passwordChecks].
Qed.


End Login.


(** One minute after the fifth failure, the correct password is refused. *)
Lemma locked_login_rejected_witness :
  exists w',
    login Examples.storeUp Examples.compareHash Examples.hashOf
          Examples.signToken None None Examples.noErrors 1700000060000
          (Examples.postLogin "correct horse") Examples.lockedClinic
    = (NextError (AuthenticationError
         "Account is temporarily locked due to multiple failed login attempts"),
       w') /\
    users w' = users Examples.lockedClinic /\
    passwordChecks w' = passwordChecks Examples.lockedClinic.
Proof.
  destruct (proj1 (locked_login_rejected_and_failures_counted
                     Examples.storeUp Examples.compareHash Examples.hashOf
                     Examples.signToken None None Examples.noErrors
                     1700000060000 (Examples.postLogin "correct horse")
                     Examples.lockedClinic "alice@clinic.org"
                     (VStr "correct horse") Examples.aliceAfterFive
                     eq_refl eq_refl eq_refl eq_refl)
                  1700001800000%Z eq_refl eq_refl)
    as (w' & Hlogin & Husers & Hchecks & _).
  exists w'. repeat split; assumption.
Defined.


(** Five wrong passwords a minute apart, then the right one a minute later. *)
Lemma five_failures_witness :
  fst (login Examples.storeUp Examples.compareHash Examples.hashOf
         Examples.signToken None None Examples.noErrors 1700000300000
         (Examples.postLogin "correct horse")
         (Examples.afterFiveFailures))
  = NextError (AuthenticationError
      "Account is temporarily locked due to multiple failed login attempts").
Proof.
  exact (proj1 (five_failures_then_correct_password_is_locked
                  Examples.storeUp Examples.compareHash Examples.hashOf
                  Examples.signToken None None Examples.noErrors
                  1700000000000 1700000060000 1700000120000 1700000180000
                  1700000240000 1700000300000
                  (Examples.postLogin "wrong guess")
                  (Examples.postLogin "correct horse")
                  Examples.clinic "alice@clinic.org" "wrong guess"
                  "correct horse" Examples.alice
                  eq_refl eq_refl eq_refl eq_refl eq_refl eq_refl eq_refl
                  eq_refl eq_refl eq_refl eq_refl eq_refl)).
Defined.

End LockoutFacts.


(* ===================================================================== *)
(** * Properties of the token authenticator and the authorization gate   *)
(* ===================================================================== *)

Module GateFacts.

(** The [where] clause of [findByPk]. *)
Definition byId (pk : string) : User -> bool := fun r => String.eqb (id r) pk.

(** The entry written for a token issued before the password change. *)
Definition staleEntry (req : Request) (u : User) : AuditData :=
  denial req (Some (id u)) "API_ACCESS" sev_medium
         "Token issued before password change" "Authentication middleware".

(** The entries the three authorization predicates write on denial. *)
Definition roleEntry (roles : list string) (req : Request) (u : User) : AuditData :=
  denial req (Some (id u)) "ROLE_ACCESS" sev_medium
         ("Insufficient role. Required: " +:+ join ", " roles +:+ ", User: " +:+ role u)
         "Role-based access control".

Definition trainingEntry (req : Request) (u : User) : AuditData :=
  denial req (Some (id u)) "HIPAA_ACCESS" sev_high
         "HIPAA training not completed" "HIPAA compliance check".

Definition tierEntry (requiredLevel : string) (req : Request) (u : User) : AuditData :=
  denial req (Some (id u)) "DATA_ACCESS" sev_medium
         ("Insufficient data access level. Required: " +:+ requiredLevel
          +:+ ", User: " +:+ dataAccessLevel u)
         "Data access level check".

(** [accessLevels[name] || 0] *)
Definition levelOf (name : string) : Z := default 0%Z (accessLevels !! name).

(** A token minted at [t] milliseconds carries [iat = floor(t / 1000)];
    if [t] is before the password change, so is the token. *)
Lemma minted_before_change_is_stale t changedAt :
  (t < changedAt)%Z -> issuedBefore (t / 1000) changedAt = true.
Proof.
  intros H. unfold issuedBefore. apply Z.ltb_lt.
  pose proof (Z.mul_div_le t 1000 ltac:(lia)). lia.
Qed.

Section Gate.
Variable auditFault : AuditData -> option JsError.
Variable jwt_verify : string -> option string -> Exc TokenPayload.
Variable JWT_SECRET : option string.

Local Abbreviation authenticate :=
  (authenticateToken auditFault jwt_verify JWT_SECRET).

(** How [asyncMiddleware] ends a computation that has already run. *)
Definition settle (req : Request) (r : Exc (Flow * Request) * World)
    : (Flow * Request) * World :=
  match r with
  | (Ok x, w') => (x, w')
  | (Throw e, w') => ((Rejected e, req), w')
  end.

(** Whatever the error, the [catch] block of [authenticateToken] never
    calls [next()], passes the request on unchanged and leaves the
    [users] table alone. *)
Lemma catch_block_rejects now req error w :
  let r := settle req (authenticateTokenCatch auditFault now req error w) in
  fst (fst r) <> Next /\ snd (fst r) = req /\ users (snd r) = users w.
Proof.
  unfold settle, authenticateTokenCatch, bind, Audit_createEntry, ret,
    console_error, emit.
  destruct (String.eqb (errName error) "TokenExpiredError");
    [|destruct (String.eqb (errName error) "JsonWebTokenError")];
    try destruct (auditFault _); cbn; repeat split; discriminate.
Qed.

(** A denial inside the [try] block: the entry is written and the reply
    sent, or the store's error is handled by the [catch] block. *)
Lemma denial_in_try now req entry reply w :
  settle req
    (tryCatch (bind (Audit_createEntry auditFault now entry)
                    (fun _ => ret (reply, req)))
              (authenticateTokenCatch auditFault now req) w)
  = match auditFault entry with
    | None => ((reply, req), appendAudit entry now w)
    | Some e => settle req (authenticateTokenCatch auditFault now req e w)
    end.
Proof.
  unfold tryCatch, bind, Audit_createEntry, ret.
  destruct (auditFault entry); reflexivity.
Qed.

(** C6. A request whose token verifies (is well signed and unexpired)
    but was issued before the actor's most recent password change is
    never let through: the middleware does not call [next()], attaches no
    actor to the request and leaves the [users] table alone; when the
    actor is active and the audit store takes the entry, the reply is the
    401 asking to log in again, after the denial was audited. *)
Theorem stale_credential_rejected :
  forall (now : Z) (req : Request) (w : World) (token : string)
         (d : TokenPayload) (u : User) (changedAt : Z),
    bearerToken req = Some token ->
    jwt_verify token JWT_SECRET = Ok d ->
    find (byId (tp_userId d)) (users w) = Some u ->
    passwordChangedAt u = Some changedAt ->
    (1000 * iat d < changedAt)%Z ->
    let result := authenticate now req w in
    fst (fst result) <> Next /\
    snd (fst result) = req /\
    users (snd result) = users w /\
    (isActive u = true -> auditFault (staleEntry req u) = None ->
     result = ((Responded 401 (errorBody "Access denied"
                  "Password was changed, please login again"), req),
               appendAudit (staleEntry req u) now w)).
Proof.
  intros now req w token d u changedAt Ht Hv Hf Hc Hlt result.
  assert (Hstale : issuedBefore (iat d) changedAt = true)
    by (apply Z.ltb_lt; exact Hlt).
  assert (Hresult : result =
    if negb (isActive u)
    then match auditFault (denial req (Some (tp_userId d)) "API_ACCESS" sev_high
                             "User not found or inactive" "Authentication middleware") with
         | None => ((Responded 401 (errorBody "Access denied"
                       "User account is inactive or not found"), req),
                    appendAudit (denial req (Some (tp_userId d)) "API_ACCESS" sev_high
                             "User not found or inactive" "Authentication middleware") now w)
         | Some e => settle req (authenticateTokenCatch auditFault now req e w)
         end
    else match auditFault (staleEntry req u) with
         | None => ((Responded 401 (errorBody "Access denied"
                       "Password was changed, please login again"), req),
                    appendAudit (staleEntry req u) now w)
         | Some e => settle req (authenticateTokenCatch auditFault now req e w)
         end).
  { subst result. unfold authenticateToken, authenticateTokenBody.
    change (asyncMiddleware ?m req w) with (settle req (m w)).
    unfold authenticateTokenTry. rewrite Ht.
    unfold tryCatch at 1. unfold bind at 1. unfold liftExc. rewrite Hv.
    unfold bind at 1. unfold User_findByPk. fold (byId (tp_userId d)).
    rewrite Hf, Hc, Hstale.
    destruct (negb (isActive u)).
    - apply (denial_in_try now req _ _ w).
    - apply (denial_in_try now req _ _ w). }
  rewrite Hresult. clear Hresult result.
  destruct (isActive u); cbn [negb].
  - destruct (auditFault (staleEntry req u)) as [e|] eqn:Hfault.
    + destruct (catch_block_rejects now req e w) as (H1 & H2 & H3).
      repeat split; try assumption. intros _ Hnone. discriminate.
    + repeat split. discriminate.
  - destruct (auditFault _) as [e|].
    + destruct (catch_block_rejects now req e w) as (H1 & H2 & H3).
      repeat split; try assumption. intros Hact. discriminate.
    + repeat split; try discriminate.
Qed.

(** Conversely, the middleware calls [next()] only for a token that
    verifies, whose actor exists and is active, and that was not issued
    before the actor's last password change; the actor is then attached
    to the request. *)
Lemma next_only_with_fresh_credential now req w :
  fst (fst (authenticate now req w)) = Next ->
  exists token d u,
    bearerToken req = Some token /\
    jwt_verify token JWT_SECRET = Ok d /\
    find (byId (tp_userId d)) (users w) = Some u /\
    isActive u = true /\
    snd (fst (authenticate now req w)) = setUser u req /\
    (forall c, passwordChangedAt u = Some c -> (c <= 1000 * iat d)%Z).
Proof.
  unfold authenticateToken, authenticateTokenBody.
  change (asyncMiddleware ?m req w) with (settle req (m w)).
  unfold authenticateTokenTry.
  assert (Hdenied : forall entry reply,
    fst (fst (settle req
      (tryCatch (bind (Audit_createEntry auditFault now entry)
                      (fun _ => ret (reply, req)))
                (authenticateTokenCatch auditFault now req) w))) = Next ->
    reply = Next).
  { intros entry reply. rewrite denial_in_try.
    destruct (auditFault entry) as [e|]; [|intros H; exact H].
    intros H. destruct (catch_block_rejects now req e w) as (Hn & _).
    contradiction. }
  destruct (bearerToken req) as [token|].
  2:{ intros H. apply Hdenied in H. discriminate. }
  unfold tryCatch at 1. unfold bind at 1. unfold liftExc.
  destruct (jwt_verify token JWT_SECRET) as [d|e] eqn:Hv.
  2:{ intros H. destruct (catch_block_rejects now req e w) as (Hn & _).
      contradiction. }
  unfold bind at 1. unfold User_findByPk. fold (byId (tp_userId d)).
  destruct (find (byId (tp_userId d)) (users w)) as [u|] eqn:Hf.
  2:{ intros H. apply (Hdenied _ _) in H. discriminate. }
  destruct (isActive u) eqn:Ha; cbn [negb].
  2:{ intros H. apply (Hdenied _ _) in H. discriminate. }
  destruct (passwordChangedAt u) as [c|] eqn:Hc.
  - destruct (issuedBefore (iat d) c) eqn:Hs.
    + intros H. apply (Hdenied _ _) in H. discriminate.
    + intros _. exists token, d, u. split; [reflexivity|]. split; [exact Hv|]. split; [exact Hf|].
      split; [exact Ha|].
      split; [unfold tryCatch, bind, User_findByPk; fold (byId (tp_userId d));
              rewrite Hf, Ha, Hc, ?Hs; reflexivity|].
      intros c' Hc'. rewrite Hc in Hc'. injection Hc' as <-.
      unfold issuedBefore in Hs. apply Z.ltb_ge in Hs. exact Hs.
  - intros _. exists token, d, u. split; [reflexivity|]. split; [exact Hv|]. split; [exact Hf|].
      split; [exact Ha|].
      split; [unfold tryCatch, bind, User_findByPk; fold (byId (tp_userId d));
              rewrite Hf, Ha, Hc, ?Hs; reflexivity|].
    intros c' Hc'. rewrite Hc in Hc'. discriminate.
Qed.

(** [fireAndForget] never throws: the write succeeds or surfaces as an
    unhandled rejection. *)
Lemma fireAndForget_eq now d w :
  fireAndForget auditFault now d w =
  match auditFault d with
  | None => (Ok tt, appendAudit d now w)
  | Some e => emit (EvUnhandledRejection e) w
  end.
Proof.
  unfold fireAndForget, tryCatch, Audit_createEntry.
  destruct (auditFault d); reflexivity.
Qed.

(** C8, as the code has it.  For an authenticated actor, each failing
    authorization predicate hands the audit store an [access_denied],
    [failure] entry before the 403 reply is returned: with severity
    medium for a role-membership denial, high for a training-completion
    denial, and medium for a data-access-tier denial. *)
Theorem denials_audited_by_predicate_kind :
  forall (now : Z) (req : Request) (w : World) (u : User),
    user req = Some u ->
    (forall roles,
        existsb (String.eqb (role u)) roles = false ->
        severity (roleEntry roles req u) = Some sev_medium /\
        eventType (roleEntry roles req u) = ev_access_denied /\
        status (roleEntry roles req u) = Some st_failure /\
        fst (requireRole auditFault roles now req w)
        = Ok (Responded 403 (errorBody "Access denied" "Insufficient permissions")) /\
        (auditFault (roleEntry roles req u) = None ->
         snd (requireRole auditFault roles now req w)
         = appendAudit (roleEntry roles req u) now w))
    /\
    (hipaaTrainingCompleted u = false ->
     severity (trainingEntry req u) = Some sev_high /\
     eventType (trainingEntry req u) = ev_access_denied /\
     status (trainingEntry req u) = Some st_failure /\
     (auditFault (trainingEntry req u) = None ->
      requireHIPAATraining auditFault now req w
      = (Ok (Responded 403 (errorBody "Access denied"
               "HIPAA training must be completed before accessing patient data")),
         appendAudit (trainingEntry req u) now w)))
    /\
    (forall requiredLevel,
        (levelOf (dataAccessLevel u) < levelOf requiredLevel)%Z ->
        severity (tierEntry requiredLevel req u) = Some sev_medium /\
        eventType (tierEntry requiredLevel req u) = ev_access_denied /\
        status (tierEntry requiredLevel req u) = Some st_failure /\
        fst (requireDataAccessLevel auditFault requiredLevel now req w)
        = Ok (Responded 403 (errorBody "Access denied"
                "Insufficient data access level")) /\
        (auditFault (tierEntry requiredLevel req u) = None ->
         snd (requireDataAccessLevel auditFault requiredLevel now req w)
         = appendAudit (tierEntry requiredLevel req u) now w)).
Proof.
  intros now req w u Hu. split; [|split].
  - intros roles Hr. repeat split.
    + unfold requireRole. rewrite Hu, Hr. cbn [negb]. unfold bind.
      rewrite fireAndForget_eq. fold (roleEntry roles req u).
      destruct (auditFault (roleEntry roles req u)); reflexivity.
    + intros Hok. unfold requireRole. rewrite Hu, Hr. cbn [negb]. unfold bind.
      rewrite fireAndForget_eq. fold (roleEntry roles req u).
      rewrite Hok. reflexivity.
  - intros Ht. repeat split.
    intros Hok. unfold requireHIPAATraining. rewrite Hu, Ht. cbn [negb].
    unfold bind, Audit_createEntry. fold (trainingEntry req u).
    rewrite Hok. reflexivity.
  - intros requiredLevel Hlt. apply Z.ltb_lt in Hlt. unfold levelOf in Hlt.
    repeat split.
    + unfold requireDataAccessLevel. rewrite Hu. cbv zeta. rewrite Hlt.
      unfold bind. rewrite fireAndForget_eq. fold (tierEntry requiredLevel req u).
      destruct (auditFault (tierEntry requiredLevel req u)); reflexivity.
    + intros Hok. unfold requireDataAccessLevel. rewrite Hu. cbv zeta.
      rewrite Hlt. unfold bind. rewrite fireAndForget_eq.
      fold (tierEntry requiredLevel req u). rewrite Hok. reflexivity.
Qed.

End Gate.

(** C8 as stated fails for the role predicate: a provider asking for an
    admin-only route is answered 403 and the denial is recorded with
    severity medium, not high. *)
Lemma role_denial_recorded_as_medium :
  let r := requireRole Examples.storeUp ["admin"] 1700000000000
             Examples.getPatients Examples.clinic in
  fst r = Ok (Responded 403 (errorBody "Access denied" "Insufficient permissions")) /\
  map (fun row => (action (rowData row), eventType (rowData row),
                   severity (rowData row)))
      (auditLog (snd r))
  = [("ROLE_ACCESS", ev_access_denied, Some sev_medium)].
Proof. vm_compute. split; reflexivity. Qed.

(** An untrained actor asking for patient data. *)
Lemma denials_audited_witness :
  requireHIPAATraining Examples.storeUp 1700000000000 Examples.getPatients
    Examples.clinic
  = (Ok (Responded 403 (errorBody "Access denied"
           "HIPAA training must be completed before accessing patient data")),
     appendAudit (trainingEntry Examples.getPatients Examples.alice)
                 1700000000000 Examples.clinic).
Proof.
  destruct (denials_audited_by_predicate_kind Examples.storeUp 1700000000000
              Examples.getPatients Examples.clinic Examples.alice eq_refl)
    as (_ & Htraining & _).
  destruct (Htraining eq_refl) as (_ & _ & _ & H).
  exact (H eq_refl).
Defined.

(** A token issued at 1700000000 s against a password changed 500 s later. *)
Lemma stale_credential_rejected_witness :
  authenticateToken Examples.storeUp Examples.verifyToken None 1700000900000
    (Examples.getWithToken "token-of-u1") Examples.changedClinic
  = ((Responded 401 (errorBody "Access denied"
        "Password was changed, please login again"),
      Examples.getWithToken "token-of-u1"),
     appendAudit (staleEntry (Examples.getWithToken "token-of-u1")
                    Examples.aliceChanged)
                 1700000900000 Examples.changedClinic).
Proof.
  destruct (stale_credential_rejected Examples.storeUp Examples.verifyToken None
              1700000900000 (Examples.getWithToken "token-of-u1")
              Examples.changedClinic "token-of-u1"
              {| tp_userId := "u1"; tp_email := "alice@clinic.org";
                 tp_role := "provider"; iat := 1700000000 |}
              Examples.aliceChanged 1700000500000%Z
              eq_refl eq_refl eq_refl eq_refl eq_refl)
    as (_ & _ & _ & H).
  exact (H eq_refl eq_refl).
Defined.

(** A token issued after the last password change is let through. *)
Lemma next_only_with_fresh_credential_witness :
  exists token d u,
    bearerToken (Examples.getWithToken "token-of-u1") = Some token /\
    Examples.verifyToken token None = Ok d /\
    find (byId (tp_userId d)) (users Examples.clinic) = Some u /\
    isActive u = true.
Proof.
  destruct (next_only_with_fresh_credential Examples.storeUp
              Examples.verifyToken None 1700000900000
              (Examples.getWithToken "token-of-u1") Examples.clinic eq_refl)
    as (token & d & u & H1 & H2 & H3 & H4 & _).
  exists token, d, u. repeat split; assumption.
Defined.

(** C2 fails in the authentication and training middleware, which await
    [Audit.createEntry] directly.  With the audit store up, a request
    without a token is answered 401; with the store down, the same
    request is answered 500.  With the store up, an untrained actor is
    answered 403; with the store down, the middleware's promise rejects
    and no reply is sent at all. *)
Lemma audit_failure_changes_authentication_reply :
  fst (fst (authenticateToken Examples.storeUp Examples.verifyToken None
              1700000000000 Examples.getAuditNoToken Examples.clinic))
  = Responded 401 (errorBody "Access denied" "Authentication token is required")
  /\
  fst (fst (authenticateToken Examples.storeDown Examples.verifyToken None
              1700000000000 Examples.getAuditNoToken Examples.clinic))
  = Responded 500 (errorBody "Internal server error" "Authentication failed")
  /\
  fst (requireHIPAATraining Examples.storeUp 1700000000000 Examples.getPatients
         Examples.clinic)
  = Ok (Responded 403 (errorBody "Access denied"
          "HIPAA training must be completed before accessing patient data"))
  /\
  fst (requireHIPAATraining Examples.storeDown 1700000000000 Examples.getPatients
         Examples.clinic)
  = Throw (mkError "SequelizeConnectionError" "connection refused" None).
Proof. vm_compute. repeat split; reflexivity. Qed.

End GateFacts.


(* ===================================================================== *)
(** * Properties of the flat-file export                                 *)
(* ===================================================================== *)

Module ExportFacts.
Import CsvFormat.

Lemma append_cons x (a b : string) : String x a +:+ b = String x (a +:+ b).
Proof. reflexivity. Qed.

Lemma append_nil_l (b : string) : "" +:+ b = b.
Proof. reflexivity. Qed.

Lemma append_nil_r (a : string) : a +:+ "" = a.
Proof.
  induction a as [|x a IH]; rewrite ?append_nil_l, ?append_cons; [reflexivity|].
  f_equal. exact IH.
Qed.

Lemma append_assoc (a b c : string) : (a +:+ b) +:+ c = a +:+ (b +:+ c).
Proof.
  induction a as [|x a IH]; rewrite ?append_nil_l, ?append_cons; [reflexivity|].
  f_equal. exact IH.
Qed.

(** Characters of a string, last first. *)
Definition revChars (s : string) : list ascii := rev (list_ascii_of_string s).

Lemma field_of_revChars s : string_of_list_ascii (rev (revChars s)) = s.
Proof.
  unfold revChars. rewrite rev_involutive. apply string_of_list_ascii_of_string.
Qed.

(** One step of the reader, by state. *)
Lemma read_before c rest cur row rows :
  readCsv (String c rest) BeforeField cur row rows
  = if isQuote c then readCsv rest InField [] row rows else None.
Proof. reflexivity. Qed.

Lemma read_in c rest cur row rows :
  readCsv (String c rest) InField cur row rows
  = if isQuote c then readCsv rest AfterQuote cur row rows
    else readCsv rest InField (c :: cur) row rows.
Proof. reflexivity. Qed.

Lemma read_after c rest cur row rows :
  readCsv (String c rest) AfterQuote cur row rows
  = let field := string_of_list_ascii (rev cur) in
    if isQuote c then readCsv rest InField (c :: cur) row rows
    else if Ascii.eqb c "," then readCsv rest BeforeField [] (field :: row) rows
    else if Ascii.eqb c "010" then
      match rest with
      | EmptyString => None
      | _ => readCsv rest BeforeField [] [] (rev (field :: row) :: rows)
      end
    else None.
Proof. reflexivity. Qed.

(** Reading the doubled body of a field collects the field. *)
Lemma read_doubled s : forall tail cur row rows,
  readCsv (doubleQuotes s +:+ tail) InField cur row rows
  = readCsv tail InField (rev (list_ascii_of_string s) ++ cur)%list row rows.
Proof.
  induction s as [|c s IH]; intros tail cur row rows; [reflexivity|].
  cbn [doubleQuotes list_ascii_of_string rev].
  destruct (isQuote c) eqn:Hq.
  - rewrite !append_cons, read_in, Hq, read_after, Hq.
    rewrite IH, <- app_assoc. reflexivity.
  - rewrite !append_cons, read_in, Hq.
    rewrite IH, <- app_assoc. reflexivity.
Qed.

(** Reading one quoted field leaves the reader just after its closing
    quote, holding the field. *)
Lemma read_quoteField s tail row rows :
  readCsv (quoteField s +:+ tail) BeforeField [] row rows
  = readCsv tail AfterQuote (revChars s) row rows.
Proof.
  unfold quoteField, quote. rewrite append_cons, append_nil_l, append_cons.
  rewrite read_before. change (isQuote "034") with true. cbn iota.
  rewrite append_assoc, read_doubled, append_cons, append_nil_l, read_in.
  change (isQuote "034") with true. cbn iota.
  rewrite app_nil_r. reflexivity.
Qed.

Lemma last_cons (fields : list string) : forall g f,
  List.last (g :: fields) f = List.last fields g.
Proof.
  induction fields as [|h t IH]; intros g f; [reflexivity|].
  change (List.last (g :: h :: t) f) with (List.last (h :: t) f).
  rewrite !IH. reflexivity.
Qed.

(** Reading a whole record: the reader stands after the closing quote of
    its last field, with the fields before it collected. *)
Lemma read_record fields : forall f tail row rows,
  readCsv (join "," (map quoteField (f :: fields)) +:+ tail) BeforeField [] row rows
  = readCsv tail AfterQuote (revChars (List.last fields f))
            (rev (removelast (f :: fields)) ++ row)%list rows.
Proof.
  induction fields as [|g fields IH]; intros f tail row rows.
  - cbn [map join List.last removelast rev app]. apply read_quoteField.
  - change (join "," (map quoteField (f :: g :: fields)))
      with (quoteField f +:+ "," +:+ join "," (map quoteField (g :: fields))).
    rewrite !append_assoc, read_quoteField.
    rewrite append_cons, append_nil_l, read_after.
    change (isQuote ",") with false. change (Ascii.eqb "," ",") with true.
    cbv zeta. cbn iota.
    rewrite field_of_revChars, IH, (last_cons fields g f).
    change (removelast (f :: g :: fields)) with (f :: removelast (g :: fields)).
    cbn [rev]. rewrite <- app_assoc. reflexivity.
Qed.

Lemma record_complete (f : string) (fields : list string) :
  rev (List.last fields f :: rev (removelast (f :: fields))) = f :: fields.
Proof.
  cbn [rev]. rewrite rev_involutive, <- (last_cons fields f f).
  symmetry. apply app_removelast_last. discriminate.
Qed.

(** A written record starts with a quote, so a written file with a
    record in it is not empty. *)
Lemma record_starts (f : string) (fields : list string) :
  exists rest, join "," (map quoteField (f :: fields)) = String "034" rest.
Proof.
  destruct fields as [|g fields]; cbn [map join]; unfold quoteField, quote;
    rewrite ?append_cons, ?append_nil_l; eauto.
Qed.

Lemma writeCsv_single row :
  writeCsv [row] = join "," (map quoteField row).
Proof. reflexivity. Qed.

Lemma writeCsv_cons row row2 rows :
  writeCsv (row :: row2 :: rows)
  = join "," (map quoteField row) +:+ newline +:+ writeCsv (row2 :: rows).
Proof. reflexivity. Qed.

Lemma written_starts (f : string) (fields : list string) rows :
  exists rest, writeCsv ((f :: fields) :: rows) = String "034" rest.
Proof.
  destruct (record_starts f fields) as [rest Hrest].
  destruct rows as [|row rows];
    rewrite ?writeCsv_single, ?writeCsv_cons, Hrest, ?append_cons; eauto.
Qed.

(** The reader inverts the writer: reading a written file gives back the
    records, provided no record is empty. *)
Lemma read_written rows : forall done,
  Forall (fun row => row <> []) rows ->
  readCsv (writeCsv rows) BeforeField [] [] done = Some (rev done ++ rows)%list.
Proof.
  induction rows as [|row rows IH]; intros done Hne.
  - cbn. rewrite app_nil_r. reflexivity.
  - inversion Hne as [|? ? Hrow Hrows]; subst.
    destruct row as [|f fields]; [contradiction|].
    destruct rows as [|row2 rows].
    + rewrite writeCsv_single.
      rewrite <- (append_nil_r (join "," (map quoteField (f :: fields)))).
      rewrite read_record. cbn [readCsv].
      rewrite field_of_revChars, app_nil_r, record_complete.
      cbn [rev]. reflexivity.
    + rewrite writeCsv_cons, read_record. unfold newline at 1.
      rewrite append_cons, append_nil_l, read_after.
      change (isQuote "010") with false. change (Ascii.eqb "010" ",") with false.
      change (Ascii.eqb "010" "010") with true. cbv zeta. cbn iota.
      rewrite field_of_revChars, app_nil_r, record_complete.
      specialize (IH ((f :: fields) :: done) Hrows).
      inversion Hrows as [|? ? Hrow2 _]; subst.
      destruct row2 as [|f2 fields2]; [contradiction|].
      destruct (written_starts f2 fields2 rows) as [rest Hrest].
      rewrite Hrest in IH |- *. rewrite IH.
      cbn [rev]. rewrite <- app_assoc. reflexivity.
Qed.

Lemma parse_write_round_trip rows :
  Forall (fun row => row <> []) rows ->
  parseCsv (writeCsv rows) = Some rows.
Proof. intros H. unfold parseCsv. rewrite read_written by exact H. reflexivity. Qed.

(** No quote character occurs in the string. *)
Fixpoint quoteFree (s : string) : bool :=
  match s with
  | EmptyString => true
  | String c rest => negb (isQuote c) && quoteFree rest
  end.

Lemma doubleQuotes_quoteFree s : quoteFree s = true -> doubleQuotes s = s.
Proof.
  induction s as [|c s IH]; [reflexivity|].
  cbn [quoteFree doubleQuotes]. intros H. apply andb_true_iff in H as [Hc Hs].
  apply negb_true_iff in Hc. rewrite Hc, IH by exact Hs. reflexivity.
Qed.

Section CsvExport.
Variable dateToString : Z -> string.


(** The header line is the eleven column titles, quoted, in order. *)
Lemma csvLines_header (auditLogs : list AuditRow) :
  hd "" (csvLines dateToString auditLogs)
  = join "," (map (fun h => quote +:+ h +:+ quote) csvHeaders).
Proof. reflexivity. Qed.

(** Every data row has the same eleven columns. *)
Lemma csvRow_length (log : AuditRow) : length (csvRow log) = length csvHeaders.
Proof. reflexivity. Qed.

(** A cell without a quote character is written the documented way. *)
Lemma csvField_quoteFree (f : Field) :
  quoteFree (fieldText dateToString f) = true ->
  csvField dateToString f = quoteField (fieldText dateToString f).
Proof.
  intros H. unfold csvField, quoteField. rewrite doubleQuotes_quoteFree by exact H.
  reflexivity.
Qed.

Lemma csvLine_quoteFree (row : list Field) :
  Forall (fun cell => quoteFree cell = true) (map (fieldText dateToString) row) ->
  join "," (map (csvField dateToString) row)
  = join "," (map quoteField (map (fieldText dateToString) row)).
Proof.
  intros H. f_equal. rewrite map_map. rewrite List.Forall_map in H.
  induction H as [|f row Hf _ IH]; [reflexivity|].
  cbn [map]. rewrite IH, csvField_quoteFree by exact Hf. reflexivity.
Qed.

(** No record of the export is empty. *)
Lemma csvCells_nonempty (auditLogs : list AuditRow) :
  Forall (fun row => row <> []) (csvCells dateToString auditLogs).
Proof.
  unfold csvCells. cbn [map]. constructor; [discriminate|].
  induction auditLogs as [|log logs IH]; cbn [map]; constructor;
    [discriminate | exact IH].
Qed.

(** On cells without a quote character the export is in the documented
    format, and reading it back gives the cells. *)
Lemma export_round_trip_without_quotes (auditLogs : list AuditRow) :
  Forall (Forall (fun cell => quoteFree cell = true))
         (csvCells dateToString auditLogs) ->
  parseCsv (csvContent dateToString auditLogs)
  = Some (csvCells dateToString auditLogs).
Proof.
  intros Hfree.
  assert (Hsame : csvContent dateToString auditLogs
                  = writeCsv (csvCells dateToString auditLogs)).
  { unfold csvContent, csvLines, writeCsv, csvCells in *. f_equal.
    rewrite map_map. rewrite List.Forall_map in Hfree.
    revert Hfree.
    generalize (map (fun h => FVal (VStr h)) csvHeaders :: map csvRow auditLogs).
    intros table Hfree.
    induction Hfree as [|row rows Hrow _ IH]; [reflexivity|].
    cbn [map]. rewrite IH, csvLine_quoteFree by exact Hrow. reflexivity. }
  rewrite Hsame. apply parse_write_round_trip, csvCells_nonempty.
Qed.

End CsvExport.

(** An export of one entry without quotes reads back. *)
Lemma export_round_trip_witness :
  parseCsv (csvContent Examples.showDate [Examples.plainRow])
  = Some (csvCells Examples.showDate [Examples.plainRow]).
Proof.
  apply (export_round_trip_without_quotes Examples.showDate [Examples.plainRow]).
  vm_compute. repeat constructor.
Defined.

(** C5 fails on the code: the export wraps each cell in quotes and
    writes a quote inside a cell once, not twice.  For a stored entry
    whose error message quotes a table name, the exported cell is not the
    documented quoting of the message and the file cannot be read back;
    for a message containing quote-comma-quote the file reads back as a
    record of twelve cells instead of eleven.  The documented quoting of
    the same cells does read back. *)
Theorem export_does_not_double_quotes :
  csvField Examples.showDate (FVal (VStr Examples.quotedMessage))
    = quote +:+ Examples.quotedMessage +:+ quote /\
  quoteField Examples.quotedMessage
    <> csvField Examples.showDate (FVal (VStr Examples.quotedMessage)) /\
  parseCsv (csvContent Examples.showDate [Examples.rowWithQuote]) = None /\
  (exists cells,
      parseCsv (csvContent Examples.showDate [Examples.rowWithSeparator])
        = Some cells /\
      map (@length string) cells = [11%nat; 12%nat] /\
      cells <> csvCells Examples.showDate [Examples.rowWithSeparator]) /\
  parseCsv (writeCsv (csvCells Examples.showDate [Examples.rowWithQuote]))
    = Some (csvCells Examples.showDate [Examples.rowWithQuote]).
Proof.
  split; [vm_compute; reflexivity|].
  split; [vm_compute; discriminate|].
  split; [vm_compute; reflexivity|].
  split.
  - eexists. split; [vm_compute; reflexivity|].
    split; [vm_compute; reflexivity|].
    vm_compute. discriminate.
  - apply parse_write_round_trip, csvCells_nonempty.
Qed.

End ExportFacts.


(* ===================================================================== *)
(** * Properties of the request body sanitizer                           *)
(* ===================================================================== *)

Module SanitizerFacts.





End SanitizerFacts.


(* ===================================================================== *)
(** * Properties of the resource identifier                              *)
(* ===================================================================== *)

Module ResourceIdFacts.

Import ExportFacts.

(** [n] lower-case hexadecimal digits. *)
Fixpoint hexDigits (n : nat) (s : string) : bool :=
  match n, s with
  | O, EmptyString => true
  | S n', String c rest => isHexLower c && hexDigits n' rest
  | _, _ => false
  end.

(** The shape [8-4-4-4-12] of the identifiers the pattern captures. *)
Definition IsUuid (u : string) : Prop :=
  exists g1 g2 g3 g4 g5,
    u = g1 +:+ "-" +:+ g2 +:+ "-" +:+ g3 +:+ "-" +:+ g4 +:+ "-" +:+ g5 /\
    hexDigits 8 g1 = true /\ hexDigits 4 g2 = true /\ hexDigits 4 g3 = true /\
    hexDigits 4 g4 = true /\ hexDigits 12 g5 = true.

Lemma takeHex_sound n : forall s h rest,
  takeHex n s = Some (h, rest) -> s = h +:+ rest /\ hexDigits n h = true.
Proof.
  induction n as [|n IH]; intros s h rest H.
  - injection H as <- <-. split; reflexivity.
  - cbn [takeHex] in H. destruct s as [|c s]; [discriminate|].
    destruct (isHexLower c) eqn:Hc; [|discriminate].
    destruct (takeHex n s) as [[h' rest']|] eqn:Ht; [|discriminate].
    injection H as <- <-. destruct (IH _ _ _ Ht) as [-> Hh].
    split; [reflexivity|]. cbn [hexDigits]. rewrite Hc, Hh. reflexivity.
Qed.

Lemma takeHex_complete n : forall h rest,
  hexDigits n h = true -> takeHex n (h +:+ rest) = Some (h, rest).
Proof.
  induction n as [|n IH]; intros h rest H.
  - destruct h; [reflexivity | discriminate].
  - destruct h as [|c h]; [discriminate|]. cbn [hexDigits] in H.
    apply andb_true_iff in H as [Hc Hh].
    rewrite append_cons. cbn [takeHex]. rewrite Hc, (IH _ _ Hh). reflexivity.
Qed.

Lemma takeDash_sound s rest : takeDash s = Some rest -> s = "-" +:+ rest.
Proof.
  destruct s as [|c s]; [discriminate|]. cbn [takeDash].
  destruct (Ascii.eqb_spec c "-") as [->|]; [|discriminate].
  intros H. cbn in H. injection H as <-. reflexivity.
Qed.

Lemma hexDigits_length n : forall h, hexDigits n h = true -> String.length h = n.
Proof.
  induction n as [|n IH]; intros [|c h] H; try discriminate; [reflexivity|].
  cbn [hexDigits] in H. apply andb_true_iff in H as [_ H].
  cbn [String.length]. rewrite (IH h H). reflexivity.
Qed.

Lemma length_append (a b : string) :
  String.length (a +:+ b) = (String.length a + String.length b)%nat.
Proof.
  induction a as [|c a IH]; [reflexivity|].
  rewrite append_cons. cbn [String.length]. rewrite IH. reflexivity.
Qed.

Lemma IsUuid_length u : IsUuid u -> String.length u = 36%nat.
Proof.
  intros (g1 & g2 & g3 & g4 & g5 & -> & G1 & G2 & G3 & G4 & G5).
  rewrite !length_append.
  rewrite (hexDigits_length _ _ G1), (hexDigits_length _ _ G2),
    (hexDigits_length _ _ G3), (hexDigits_length _ _ G4),
    (hexDigits_length _ _ G5).
  reflexivity.
Qed.

Local Opaque takeHex takeDash.

Lemma matchUuid_sound s u :
  matchUuid s = Some u -> IsUuid u /\ exists rest, s = u +:+ rest.
Proof.
  unfold matchUuid. intros H.
  destruct (takeHex 8 s) as [[g1 s1]|] eqn:H1; cbn in H; [|discriminate].
  destruct (takeDash s1) as [s1'|] eqn:D1; cbn in H; [|discriminate].
  destruct (takeHex 4 s1') as [[g2 s2]|] eqn:H2; cbn in H; [|discriminate].
  destruct (takeDash s2) as [s2'|] eqn:D2; cbn in H; [|discriminate].
  destruct (takeHex 4 s2') as [[g3 s3]|] eqn:H3; cbn in H; [|discriminate].
  destruct (takeDash s3) as [s3'|] eqn:D3; cbn in H; [|discriminate].
  destruct (takeHex 4 s3') as [[g4 s4]|] eqn:H4; cbn in H; [|discriminate].
  destruct (takeDash s4) as [s4'|] eqn:D4; cbn in H; [|discriminate].
  destruct (takeHex 12 s4') as [[g5 s5]|] eqn:H5; cbn in H; [|discriminate].
  injection H as <-.
  apply takeHex_sound in H1 as [-> G1]. apply takeDash_sound in D1 as ->.
  apply takeHex_sound in H2 as [-> G2]. apply takeDash_sound in D2 as ->.
  apply takeHex_sound in H3 as [-> G3]. apply takeDash_sound in D3 as ->.
  apply takeHex_sound in H4 as [-> G4]. apply takeDash_sound in D4 as ->.
  apply takeHex_sound in H5 as [-> G5].
  split.
  - exists g1, g2, g3, g4, g5. repeat split; assumption.
  - exists s5. rewrite !append_assoc. reflexivity.
Qed.

Lemma matchUuid_complete u rest : IsUuid u -> matchUuid (u +:+ rest) = Some u.
Proof.
  intros (g1 & g2 & g3 & g4 & g5 & -> & G1 & G2 & G3 & G4 & G5).
  assert (Hdash : forall t, takeDash ("-" +:+ t) = Some t).
  { intros t. Local Transparent takeDash. reflexivity. Local Opaque takeDash. }
  unfold matchUuid. rewrite !append_assoc.
  rewrite (takeHex_complete 8 g1) by exact G1. cbn. rewrite Hdash. cbn.
  rewrite (takeHex_complete 4 g2) by exact G2. cbn. rewrite Hdash. cbn.
  rewrite (takeHex_complete 4 g3) by exact G3. cbn. rewrite Hdash. cbn.
  rewrite (takeHex_complete 4 g4) by exact G4. cbn. rewrite Hdash. cbn.
  rewrite (takeHex_complete 12 g5) by exact G5. cbn.
  rewrite ?append_assoc. reflexivity.
Qed.

Local Transparent takeHex takeDash.

(** [a] is a prefix of [a +:+ b], and a prefix splits the string. *)
Lemma prefix_append a b : String.prefix a (a +:+ b) = true.
Proof.
  induction a as [|c a IH]; [destruct b; reflexivity|].
  rewrite append_cons. cbn [String.prefix].
  destruct (ascii_dec c c); [exact IH | contradiction].
Qed.

Lemma prefix_split a : forall s, String.prefix a s = true -> exists b, s = a +:+ b.
Proof.
  induction a as [|c a IH]; intros s H; [exists s; reflexivity|].
  destruct s as [|d s]; [discriminate|]. cbn [String.prefix] in H.
  destruct (ascii_dec c d) as [->|]; [|discriminate].
  destruct (IH s H) as [b ->]. exists b. reflexivity.
Qed.

Lemma includes_here s sub : String.prefix sub s = true -> includes s sub = true.
Proof. intros H. destruct s; cbn [includes]; rewrite H; reflexivity. Qed.

Lemma includes_later c s sub : includes s sub = true -> includes (String c s) sub = true.
Proof. intros H. cbn [includes]. rewrite H. apply orb_true_r. Qed.

(** The resource identifier of a URL, when there is one, is a
    lower-case hexadecimal identifier of the 8-4-4-4-12 shape, 36
    characters long, that stands in the URL right after a slash.  A URL
    that holds such an identifier after a slash always yields one, and a
    URL that starts with one yields that one. *)
Theorem extractResourceId_sound_complete :
  forall (url : string),
    (forall u, extractResourceId url = Some u ->
       IsUuid u /\ String.length u = 36%nat /\ includes url ("/" +:+ u) = true) /\
    (forall u, IsUuid u -> includes url ("/" +:+ u) = true ->
       exists u', extractResourceId url = Some u') /\
    (forall u rest, IsUuid u -> extractResourceId ("/" +:+ u +:+ rest) = Some u).
Proof.
  intros url. split; [|split].
  - induction url as [|c url IH]; intros u H; [discriminate|].
    cbn [extractResourceId] in H.
    assert (Hrec : extractResourceId url = Some u ->
                   IsUuid u /\ String.length u = 36%nat /\
                   includes (String c url) ("/" +:+ u) = true).
    { intros Hu. destruct (IH u Hu) as (H1 & H2 & H3).
      repeat split; try assumption. apply includes_later. exact H3. }
    destruct (Ascii.eqb_spec c "/") as [->|]; [|exact (Hrec H)].
    destruct (matchUuid url) as [u'|] eqn:Hm; [|exact (Hrec H)].
    injection H as ->. destruct (matchUuid_sound _ _ Hm) as [Hu [rest ->]].
    split; [exact Hu|]. split.
    + apply IsUuid_length. exact Hu.
    + apply includes_here. rewrite <- append_cons.
      change (String "/" u) with ("/" +:+ u). apply prefix_append.
  - induction url as [|c url IH]; intros u Hu H.
    + cbn in H. discriminate.
    + cbn [includes] in H. apply orb_true_iff in H as [H|H].
      * apply prefix_split in H as [b Hb].
        rewrite append_cons, append_nil_l in Hb. injection Hb as -> ->.
        cbn [extractResourceId]. change (Ascii.eqb "/" "/") with true. cbn iota.
        rewrite matchUuid_complete by exact Hu. eauto.
      * cbn [extractResourceId]. destruct (IH u Hu H) as [u' Hu'].
        destruct (Ascii.eqb c "/"); [destruct (matchUuid url)|]; eauto.
  - intros u rest Hu. rewrite append_cons, append_nil_l.
    cbn [extractResourceId]. change (Ascii.eqb "/" "/") with true. cbn iota.
    rewrite matchUuid_complete by exact Hu. reflexivity.
Qed.

End ResourceIdFacts.


(* ===================================================================== *)
(** * How the automatic entries are classified                           *)
(* ===================================================================== *)

Module ClassificationFacts.

Section Entries.
Variable JSON_parse : string -> Exc JsVal.

(** The entry [createAuditEntry] builds, with its classification spelled out. *)
Lemma buildAuditData_fields req res duration data :
  exists a,
    buildAuditData JSON_parse req res duration data = Ok a /\
    eventType a = determineEventType (method req) (originalUrl req) /\
    severity a = Some (determineSeverity (method req) (originalUrl req) (statusCode res)) /\
    resourceType a = Some (determineResourceType (originalUrl req)) /\
    phiAccessed a = Some (AuditMiddleware.isPHIAccess (originalUrl req) (method req)) /\
    purpose a = Some (extractPurpose (originalUrl req) (method req)).
Proof.
  destruct (buildAuditData_ok JSON_parse req res duration data)
    as (a & d & Ha & Hd & E & S & O & R & P & F & U & I).
  rewrite classify_eq in Hd. injection Hd as <-.
  exists a. repeat split; assumption.
Qed.

(** The severity of an automatic entry is never [critical].  A 401 or
    403 response is [high] whatever the resource; otherwise the severity
    follows the resource type of the same entry: [high] for patient and
    document, [medium] for user and auth, [low] for system, and for
    report [low] unless the URL mentions [/auth]. *)
Theorem severity_follows_resource_type :
  forall (req : Request) (res : Response) (duration : Z) (data : JsVal),
    exists a,
      buildAuditData JSON_parse req res duration data = Ok a /\
      severity a <> Some sev_critical /\
      (statusCode res = 401 \/ statusCode res = 403 -> severity a = Some sev_high) /\
      (statusCode res <> 401 -> statusCode res <> 403 ->
       severity a =
       match resourceType a with
       | Some rt_patient | Some rt_document => Some sev_high
       | Some rt_user | Some rt_auth => Some sev_medium
       | Some rt_report =>
           if includes (originalUrl req) "/auth" then Some sev_medium
           else Some sev_low
       | _ => Some sev_low
       end).
Proof.
  intros req res duration data.
  destruct (buildAuditData_fields req res duration data)
    as (a & Ha & _ & S & R & _).
  exists a. split; [exact Ha|]. rewrite S, R.
  unfold determineSeverity, determineResourceType.
  destruct (Z.eqb_spec (statusCode res) 401) as [E1|E1];
    destruct (Z.eqb_spec (statusCode res) 403) as [E3|E3]; cbn [orb].
  1-3: (split; [discriminate|]; split; [reflexivity | intros; contradiction]).
  destruct (includes (originalUrl req) "/patients");
    destruct (includes (originalUrl req) "/documents");
    destruct (includes (originalUrl req) "/users");
    destruct (includes (originalUrl req) "/reports");
    destruct (includes (originalUrl req) "/auth"); cbn;
    (split; [discriminate|]; split; [intros [?|?]; contradiction | reflexivity]).
Qed.

(** An automatic entry is flagged as a PHI access exactly when its
    resource type is patient, document or report, or its URL mentions
    [/lab-results], or it is a user resource whose URL mentions
    [/reports]; the row's [isPHIAccess] then agrees with the flag. *)
Theorem phi_flag_and_resource_type :
  forall (req : Request) (res : Response) (duration now : Z) (data : JsVal),
    exists a,
      buildAuditData JSON_parse req res duration data = Ok a /\
      (phiAccessed a = Some true <->
       resourceType a = Some rt_patient \/ resourceType a = Some rt_document \/
       resourceType a = Some rt_report \/
       includes (originalUrl req) "/lab-results" = true \/
       (resourceType a = Some rt_user /\ includes (originalUrl req) "/reports" = true)) /\
      AuditInstance.isPHIAccess (mkAuditRow a now) = default false (phiAccessed a).
Proof.
  intros req res duration now data.
  destruct (buildAuditData_fields req res duration data)
    as (a & Ha & _ & _ & R & P & _).
  exists a. split; [exact Ha|].
  unfold AuditInstance.isPHIAccess. cbn [rowData]. rewrite P, R.
  unfold AuditMiddleware.isPHIAccess, phiEndpoints, determineResourceType.
  cbn [existsb default].
  destruct (includes (originalUrl req) "/patients");
    destruct (includes (originalUrl req) "/documents");
    destruct (includes (originalUrl req) "/users");
    destruct (includes (originalUrl req) "/reports");
    destruct (includes (originalUrl req) "/lab-results");
    destruct (includes (originalUrl req) "/auth"); cbn;
    (split; [split; [intros H; first [discriminate H | auto 10]
                    | intros H; first [reflexivity | exfalso; intuition discriminate]]
            | reflexivity]).
Qed.

(** An automatic entry counts as a security event exactly when its URL
    mentions the login, logout or refresh endpoint.  The classifier never
    produces a failed login, a password change, an access denial, a
    system error, a data import or a file download: those event types
    come from manual entries only. *)
Theorem classified_security_events :
  forall (req : Request) (res : Response) (duration now : Z) (data : JsVal),
    exists a,
      buildAuditData JSON_parse req res duration data = Ok a /\
      (AuditInstance.isSecurityEvent (mkAuditRow a now) = true <->
       includes (originalUrl req) "/auth/login" = true \/
       includes (originalUrl req) "/auth/logout" = true \/
       includes (originalUrl req) "/auth/refresh" = true) /\
      ~ In (eventType a)
           [ev_failed_login; ev_password_change; ev_access_denied;
            ev_system_error; ev_data_import; ev_file_download].
Proof.
  intros req res duration now data.
  destruct (buildAuditData_fields req res duration data)
    as (a & Ha & E & _).
  exists a. split; [exact Ha|].
  unfold AuditInstance.isSecurityEvent. cbn [rowData]. rewrite E.
  unfold determineEventType.
  destruct (includes (originalUrl req) "/auth/login");
    [cbn; split; [split; [auto | reflexivity] | intuition discriminate]|].
  destruct (includes (originalUrl req) "/auth/logout");
    [cbn; split; [split; [auto | reflexivity] | intuition discriminate]|].
  destruct (includes (originalUrl req) "/auth/refresh");
    [cbn; split; [split; [auto | reflexivity] | intuition discriminate]|].
  assert (Hrest : forall e,
    In e [ev_read; ev_create; ev_update; ev_delete; ev_file_upload;
          ev_data_export; ev_report_generation] ->
    (existsb (String.eqb (eventTypeName e)) AuditInstance.securityEvents = true <->
     false = true \/ false = true \/ false = true) /\
    ~ In e [ev_failed_login; ev_password_change; ev_access_denied;
            ev_system_error; ev_data_import; ev_file_download]).
  { intros e He. cbn in He.
    destruct He as [<-|[<-|[<-|[<-|[<-|[<-|[<-|[]]]]]]]]; cbn;
      (split; [split; [intros H; discriminate H | intros H; intuition discriminate]
              | intros H; intuition discriminate]). }
  apply Hrest.
  destruct (String.eqb (method req) "GET");
    destruct (String.eqb (method req) "POST");
    destruct (String.eqb (method req) "PUT");
    destruct (String.eqb (method req) "PATCH");
    destruct (String.eqb (method req) "DELETE");
    destruct (includes (originalUrl req) "/upload");
    destruct (includes (originalUrl req) "/export");
    destruct (includes (originalUrl req) "/report"); cbn; auto 10.
Qed.

End Entries.
End ClassificationFacts.


(* ===================================================================== *)
(** * Properties of the audit queries                                    *)
(* ===================================================================== *)

Module QueryFacts.

Import AuditQueries.

(** Newest first. *)
Definition newerOrEqual (a b : AuditRow) : Prop := (timestamp b <= timestamp a)%Z.

Lemma insertDesc_perm row sorted : Permutation (insertDesc row sorted) (row :: sorted).
Proof.
  induction sorted as [|s rest IH]; [reflexivity|].
  cbn [insertDesc]. destruct (timestamp s <? timestamp row)%Z; [reflexivity|].
  rewrite IH. apply perm_swap.
Qed.

Lemma orderDesc_perm rows : Permutation (orderDesc rows) rows.
Proof.
  induction rows as [|r rows IH]; [reflexivity|].
  cbn [orderDesc fold_right]. fold (orderDesc rows).
  rewrite insertDesc_perm, IH. reflexivity.
Qed.

Lemma insertDesc_sorted row sorted :
  StronglySorted newerOrEqual sorted ->
  StronglySorted newerOrEqual (insertDesc row sorted).
Proof.
  induction 1 as [|s rest Hrest IH Hs]; cbn [insertDesc].
  - constructor; constructor.
  - destruct (Z.ltb_spec (timestamp s) (timestamp row)) as [Hlt|Hge].
    + constructor; [constructor; assumption|].
      constructor; [unfold newerOrEqual; lia|].
      eapply List.Forall_impl; [|exact Hs]. unfold newerOrEqual. intros b Hb. lia.
    + constructor; [exact IH|].
      eapply Permutation_Forall; [symmetry; apply insertDesc_perm|].
      constructor; [exact Hge | exact Hs].
Qed.

Lemma orderDesc_sorted rows : StronglySorted newerOrEqual (orderDesc rows).
Proof.
  induction rows as [|r rows IH]; [constructor|].
  cbn [orderDesc fold_right]. apply insertDesc_sorted. exact IH.
Qed.

Lemma In_orderDesc row rows : In row (orderDesc rows) <-> In row rows.
Proof.
  split; apply Permutation_in; [|symmetry]; apply orderDesc_perm.
Qed.





Lemma In_firstn_in {A} n (l : list A) x : In x (firstn n l) -> In x l.
Proof.
  intros H. rewrite <- (firstn_skipn n l). apply in_or_app. left. exact H.
Qed.

Lemma In_skipn_in {A} n (l : list A) x : In x (skipn n l) -> In x l.
Proof.
  intros H. rewrite <- (firstn_skipn n l). apply in_or_app. right. exact H.
Qed.

Lemma sorted_firstn n (rows : list AuditRow) :
  StronglySorted newerOrEqual rows -> StronglySorted newerOrEqual (firstn n rows).
Proof.
  intros Hs. revert n. induction Hs as [|r rest Hrest IH Hr]; intros [|n];
    cbn [firstn]; try constructor.
  - apply IH.
  - rewrite List.Forall_forall in *. intros x Hx. apply Hr.
    eapply In_firstn_in. exact Hx.
Qed.

Lemma sorted_skipn n (rows : list AuditRow) :
  StronglySorted newerOrEqual rows -> StronglySorted newerOrEqual (skipn n rows).
Proof.
  intros Hs. revert n. induction Hs as [|r rest Hrest IH Hr]; intros [|n];
    cbn [skipn]; try constructor; try assumption. apply IH.
Qed.

(** A sorted list cut in two: the rows kept are at least as new as the
    rows cut off. *)
Lemma sorted_firstn_skipn n (rows : list AuditRow) :
  StronglySorted newerOrEqual rows ->
  forall kept cut, In kept (firstn n rows) -> In cut (skipn n rows) ->
                   (timestamp cut <= timestamp kept)%Z.
Proof.
  intros Hs. revert n. induction Hs as [|r rest Hrest IH Hr]; intros n kept cut Hk Hc.
  - destruct n; contradiction.
  - destruct n as [|n]; [contradiction|]. cbn [firstn skipn] in Hk, Hc.
    destruct Hk as [<-|Hk].
    + rewrite List.Forall_forall in Hr. apply Hr.
      eapply In_skipn_in. exact Hc.
    + exact (IH n kept cut Hk Hc).
Qed.

(** [findByUser] returns at most [limit] rows (100 by default) of the
    given actor, newest first, and what it leaves out is not newer than
    anything it returns. *)
Theorem findByUser_newest :
  forall (uid : option string) (limit : option nat) (table : list AuditRow),
    let found := findByUser uid limit table in
    (length found <= default 100 limit)%nat /\
    StronglySorted newerOrEqual found /\
    (forall row, In row found -> In row table /\ userId (rowData row) = uid) /\
    exists omitted,
      Permutation (found ++ omitted)
                  (List.filter (fun row => bool_decide (userId (rowData row) = uid))
                               table) /\
      (length omitted = count (hasUser uid) table - length found)%nat /\
      (forall kept cut, In kept found -> In cut omitted ->
                        (timestamp cut <= timestamp kept)%Z).
Proof.
  intros uid limit table found. subst found. unfold findByUser, findAll, limitTo.
  rewrite skipn_0.
  set (n := default 100%nat limit).
  set (matching := List.filter (hasUser uid) table).
  split; [apply firstn_le_length|].
  split.
  { apply sorted_firstn, orderDesc_sorted. }
  split.
  { intros row Hrow. apply In_firstn_in in Hrow.
    apply (proj1 (In_orderDesc _ _)) in Hrow.
    apply filter_In in Hrow as [Ht Hu]. split; [exact Ht|].
    unfold hasUser in Hu. apply bool_decide_eq_true in Hu. exact Hu. }
  exists (skipn n (orderDesc matching)). split; [|split].
  - rewrite firstn_skipn. apply orderDesc_perm.
  - unfold count. fold matching. rewrite length_skipn, length_firstn.
    rewrite (Permutation_length (orderDesc_perm matching)). lia.
  - apply sorted_firstn_skipn. apply orderDesc_sorted.
Qed.

End QueryFacts.


(* ===================================================================== *)
(** * Properties of the audit routes                                     *)
(* ===================================================================== *)

Module ListingFacts.

Import ExportFacts.
Import AuditQueries.
Import QueryFacts.
Import AuditListing.







Lemma count_filter (p q : AuditRow -> bool) (table : list AuditRow) :
  count q (List.filter p table) = count (fun row => p row && q row) table.
Proof.
  unfold count. induction table as [|r t IH]; [reflexivity|].
  cbn [List.filter]. destruct (p r); cbn [List.filter andb]; [|exact IH].
  destruct (q r); cbn [length]; rewrite IH; reflexivity.
Qed.






Section Routes.
Variable parseDate : string -> option Z.
Variable dateToString : Z -> string.


End Routes.

Section Statistics.
Variable parseDate : string -> option Z.


End Statistics.

Lemma split_without_separator (seg : string) :
  includes seg "/" = false -> split "/" seg = [seg].
Proof.
  induction seg as [|a seg IH]; [reflexivity|].
  cbn [includes String.prefix]. intros H.
  apply orb_false_iff in H as [Hhere Hrest].
  cbn [split]. destruct (Ascii.eqb_spec a "/") as [->|Hne].
  - destruct (ascii_dec "/" "/"); [|congruence].
    destruct seg; discriminate Hhere.
  - rewrite (IH Hrest). reflexivity.
Qed.

Lemma dispatch_single (seg : string) :
  seg <> "" -> includes seg "/" = false ->
  dispatch ("/" +:+ seg) = Some LogById.
Proof.
  intros Hne Hslash. unfold dispatch, pathSegments.
  change ("/" +:+ seg) with (String "/" seg). cbn [split].
  rewrite Ascii.eqb_refl. rewrite (split_without_separator seg Hslash).
  cbn [String.eqb rev app].
  destruct (String.eqb_spec seg "") as [->|_]; [congruence|].
  unfold routes. cbn [find fst snd segmentsMatch segmentMatches andb fmap option_fmap option_map].
  destruct (String.eqb_spec seg "") as [->|_]; [congruence|]. reflexivity.
Qed.

(** The by-id route is registered before the PHI access and security
    event listings and takes any single segment, so no path reaches the
    two listings: [/phi-access] and [/security-events] are handled as
    lookups by id.  The statistics and export routes, which have two
    segments, are reached. *)
Theorem listing_routes_shadowed :
  (forall path, dispatch path <> Some PhiAccessLogs /\
                dispatch path <> Some SecurityEvents) /\
  dispatch "/phi-access" = Some LogById /\
  dispatch "/security-events" = Some LogById /\
  dispatch "/stats/overview" = Some StatsOverview /\
  dispatch "/export/csv" = Some ExportCsv /\
  (forall seg, seg <> "" -> includes seg "/" = false ->
               dispatch ("/" +:+ seg) = Some LogById).
Proof.
  split; [|split; [|split; [|split; [|split]]]]; try reflexivity.
  - intros path. unfold dispatch. destruct (pathSegments path) as [segs|];
      [|split; discriminate].
    assert (Hlit : forall name, segmentsMatch [Lit name] segs = true ->
                                segmentsMatch [Param "id"] segs = true).
    { intros name H. destruct segs as [|seg [|]];
        cbn [segmentsMatch segmentMatches] in *; rewrite ?andb_false_r in H;
        try discriminate H.
      destruct (negb (String.eqb seg "")); [reflexivity | discriminate H]. }
    unfold routes. cbn [find fst snd].
    pose proof (Hlit "phi-access") as Hphi.
    pose proof (Hlit "security-events") as Hsec.
    destruct (segmentsMatch [] segs); [split; discriminate|].
    destruct (segmentsMatch [Param "id"] segs); [split; discriminate|].
    destruct (segmentsMatch [Lit "phi-access"] segs);
      [discriminate (Hphi eq_refl)|].
    destruct (segmentsMatch [Lit "security-events"] segs);
      [discriminate (Hsec eq_refl)|].
    destruct (segmentsMatch [Lit "stats"; Lit "overview"] segs); [split; discriminate|].
    destruct (segmentsMatch [Lit "user"; Param "userId"; Lit "activity"] segs);
      [split; discriminate|].
    destruct (segmentsMatch [Lit "export"; Lit "csv"] segs); split; discriminate.
  - intros seg Hne Hslash. apply dispatch_single; assumption.
Qed.




End ListingFacts.


(* ===================================================================== *)
(** * Properties of the session and account routes                       *)
(* ===================================================================== *)

Module AccountFacts.

Import AccountRoutes LockoutFacts GateFacts.

(** [findByPk] after a [save()] that keeps the primary key. *)
Lemma find_byId_saveRow pk u u' us :
  find (byId pk) us = Some u -> id u' = pk ->
  find (byId pk) (saveRow u' us) = Some u'.
Proof.
  intros Hfind <-.
  induction us as [|r rest IH]; [discriminate|].
  cbn [saveRow map find] in *. unfold byId in *.
  destruct (String.eqb (id r) (id u')) eqn:Hr.
  - rewrite String.eqb_refl. reflexivity.
  - rewrite Hr. apply IH. exact Hfind.
Qed.

Section Account.
Variable auditFault : AuditData -> option JsError.
Variable bcrypt_compare : string -> string -> bool.
Variable bcrypt_hash : string -> string.
Variable jwt_sign : TokenPayload -> option string -> string -> string.
Variable jwt_verify : string -> option string -> Exc TokenPayload.
Variable JWT_SECRET : option string.
Variable JWT_REFRESH_SECRET : option string.
Variable JWT_EXPIRES_IN : option string.
Variable validateLogin : Request -> list string.

Local Abbreviation authenticate :=
  (authenticateToken auditFault jwt_verify JWT_SECRET).

(** The [catch] block of [authenticateToken] reads nothing of the world. *)
Lemma catch_block_reads_nothing now req error w1 w2 :
  fst (settle req (authenticateTokenCatch auditFault now req error w1))
  = fst (settle req (authenticateTokenCatch auditFault now req error w2)).
Proof.
  unfold settle, authenticateTokenCatch, bind, Audit_createEntry, ret,
    console_error, emit.
  destruct (String.eqb (errName error) "TokenExpiredError");
    [|destruct (String.eqb (errName error) "JsonWebTokenError")];
    try destruct (auditFault _); reflexivity.
Qed.

(** What [authenticateToken] answers depends on the [users] table only,
    not on what the audit log or the trace hold. *)
Lemma authenticate_reads_users now req w1 w2 :
  users w1 = users w2 ->
  fst (authenticate now req w1) = fst (authenticate now req w2).
Proof.
  intros Hu. unfold authenticateToken, authenticateTokenBody, asyncMiddleware,
    authenticateTokenTry, tryCatch, bind, liftExc, User_findByPk.
  assert (Hcatch : forall e,
    fst (let (y, w') := authenticateTokenCatch auditFault now req e w1 in
         match y with
         | Ok r => (r, w')
         | Throw e0 => (Rejected e0, req, w')
         end)
    = fst (let (y, w') := authenticateTokenCatch auditFault now req e w2 in
           match y with
           | Ok r => (r, w')
           | Throw e0 => (Rejected e0, req, w')
           end)).
  { intros e. apply (catch_block_reads_nothing now req e w1 w2). }
  unfold Audit_createEntry, ret.
  destruct (bearerToken req) as [token|].
  - destruct (jwt_verify token JWT_SECRET) as [d|e]; [|apply Hcatch].
    rewrite Hu.
    destruct (find _ (users w2)) as [u|].
    + destruct (negb (isActive u)).
      * destruct (auditFault _); [apply Hcatch | reflexivity].
      * destruct (match passwordChangedAt u with
                  | Some changedAt => issuedBefore (iat d) changedAt
                  | None => false
                  end); [|reflexivity].
        destruct (auditFault _); [apply Hcatch | reflexivity].
    + destruct (auditFault _); [apply Hcatch | reflexivity].
  - destruct (auditFault _); [apply Hcatch | reflexivity].
Qed.

(** A request that carries a verifying, fresh token of an active actor
    is let through with the actor attached. *)
Lemma authenticate_fresh now req w token d u :
  bearerToken req = Some token ->
  jwt_verify token JWT_SECRET = Ok d ->
  find (byId (tp_userId d)) (users w) = Some u ->
  isActive u = true ->
  (forall c, passwordChangedAt u = Some c -> (c <= 1000 * iat d)%Z) ->
  authenticate now req w = ((Next, setUser u req), w).
Proof.
  intros Ht Hv Hf Ha Hc.
  unfold authenticateToken, authenticateTokenBody, asyncMiddleware,
    authenticateTokenTry, tryCatch, bind, liftExc, User_findByPk.
  rewrite Ht, Hv. fold (byId (tp_userId d)). rewrite Hf, Ha. cbn [negb].
  destruct (passwordChangedAt u) as [c|]; [|reflexivity].
  unfold issuedBefore. destruct (Z.ltb_spec (1000 * iat d) c) as [Hlt|_];
    [|reflexivity].
  specialize (Hc c eq_refl). lia.
Qed.

(** A verifying token issued before the password change is refused. *)
Lemma authenticate_stale now req w token d u c :
  bearerToken req = Some token ->
  jwt_verify token JWT_SECRET = Ok d ->
  find (byId (tp_userId d)) (users w) = Some u ->
  passwordChangedAt u = Some c ->
  (1000 * iat d < c)%Z ->
  fst (fst (authenticate now req w)) <> Next.
Proof.
  intros Ht Hv Hf Hc Hlt.
  assert (Hstale : issuedBefore (iat d) c = true) by (apply Z.ltb_lt; exact Hlt).
  unfold authenticateToken, authenticateTokenBody, asyncMiddleware,
    authenticateTokenTry, tryCatch, bind, liftExc, User_findByPk.
  rewrite Ht, Hv. fold (byId (tp_userId d)). rewrite Hf, Hc, Hstale.
  unfold Audit_createEntry, ret.
  destruct (negb (isActive u)); destruct (auditFault _) as [e|];
    first [ exact (proj1 (catch_block_rejects auditFault now req e w))
          | cbn; discriminate ].
Qed.

(** Logging out answers 200 whatever the request and the audit store do,
    leaves the [users] table alone and revokes nothing: every later
    request is authenticated exactly as it would have been without the
    logout, the one presenting the token that was just logged out
    included. *)
Theorem logout_revokes_nothing :
  forall (now : Z) (req : Request) (w : World),
    let out := logout auditFault now req w in
    fst out = Responded 200 (VObj (<["message" := VStr "Logout successful"]> ∅)) /\
    users (snd out) = users w /\
    (length (auditLog (snd out)) <= length (auditLog w) + 1)%nat /\
    forall (now' : Z) (req' : Request),
      fst (authenticate now' req' (snd out)) = fst (authenticate now' req' w).
Proof.
  intros now req w out.
  assert (Hout : out = (Responded 200
                          (VObj (<["message" := VStr "Logout successful"]> ∅)), w)
              \/ exists d, out = (Responded 200
                          (VObj (<["message" := VStr "Logout successful"]> ∅)),
                                  afterAudit auditFault d now w)).
  { subst out. unfold logout, asyncHandler, logoutBody.
    destruct (present (secondWord req)); [|left; reflexivity].
    destruct (user req) as [u|]; [|left; reflexivity].
    right. eexists. unfold bind at 1. rewrite audit_eq. reflexivity. }
  destruct Hout as [->|[d ->]]; cbn [fst snd].
  - repeat split; lia.
  - split; [reflexivity|]. split; [apply afterAudit_users|].
    split.
    + unfold afterAudit. destruct (auditFault d); cbn [appendAudit logError auditLog];
        rewrite ?length_app; cbn [length]; lia.
    + intros now' req'. apply authenticate_reads_users, afterAudit_users.
Qed.

(** A token refresh never touches the world: it writes no audit entry
    and changes no row, whatever its outcome.  It answers 200 only for a
    refresh token that verifies under the refresh secret and names an
    active actor; every failure after the body was read is passed on as
    one of two 401 errors. *)
Theorem refresh_leaves_no_trace :
  forall (now : Z) (req : Request) (w : World),
    let out := refresh jwt_sign jwt_verify JWT_SECRET JWT_REFRESH_SECRET
                       JWT_EXPIRES_IN now req w in
    snd out = w /\
    match fst out with
    | Responded code payload =>
        code = 200 /\
        exists s d u,
          getProp (body req) "refreshToken" = Ok (VStr s) /\
          jwt_verify s JWT_REFRESH_SECRET = Ok d /\
          find (byId (tp_userId d)) (users w) = Some u /\
          isActive u = true /\
          getProp payload "token" =
            Ok (VStr (jwt_sign {| tp_userId := id u; tp_email := email u;
                                  tp_role := role u; iat := now / 1000 |}
                               JWT_SECRET (default "8h" (orStr JWT_EXPIRES_IN None))))
    | NextError e =>
        e = AuthenticationError "Refresh token is required" \/
        e = AuthenticationError "Invalid refresh token" \/
        getProp (body req) "refreshToken" = Throw e
    | Next | Rejected _ => False
    end.
Proof.
  intros now req w out. subst out.
  unfold refresh, asyncHandler, refreshBody, bind, liftExc.
  destruct (getProp (body req) "refreshToken") as [refreshToken|e] eqn:Hbody;
    [|cbn; auto].
  destruct (truthy refreshToken) eqn:Htruthy; cbn [negb]; [|cbn; auto].
  unfold tryCatch, throw, User_findByPk.
  destruct (verifyRefresh jwt_verify JWT_REFRESH_SECRET refreshToken) as [d|e] eqn:Hv;
    [|cbn; auto].
  fold (byId (tp_userId d)).
  destruct (find (byId (tp_userId d)) (users w)) as [u|] eqn:Hf; [|cbn; auto].
  destruct (isActive u) eqn:Ha; cbn [negb]; [|cbn; auto].
  cbn [ret fst snd]. split; [reflexivity|]. split; [reflexivity|].
  destruct refreshToken as [| | | | |s|]; try discriminate Hv.
  exists s, d, u. repeat split; try assumption.
Qed.

(** Refresh tokens outlive a password change: a refresh token of an
    active actor, whatever its own issue time, is exchanged for an access
    token stamped with the current second, and that access token passes
    [authenticateToken] as soon as the password change is a clock second
    old. *)
Theorem refresh_outlives_password_change :
  forall (now now' : Z) (req req' : Request) (w : World) (s : string)
         (d : TokenPayload) (u : User),
    getProp (body req) "refreshToken" = Ok (VStr s) ->
    s <> "" ->
    jwt_verify s JWT_REFRESH_SECRET = Ok d ->
    find (byId (tp_userId d)) (users w) = Some u ->
    isActive u = true ->
    (forall c, passwordChangedAt u = Some c -> (c <= 1000 * (now / 1000))%Z) ->
    let payload := {| tp_userId := id u; tp_email := email u;
                      tp_role := role u; iat := now / 1000 |} in
    let token := jwt_sign payload JWT_SECRET
                          (default "8h" (orStr JWT_EXPIRES_IN None)) in
    jwt_verify token JWT_SECRET = Ok payload ->
    bearerToken req' = Some token ->
    refresh jwt_sign jwt_verify JWT_SECRET JWT_REFRESH_SECRET JWT_EXPIRES_IN
            now req w
    = (Responded 200
         (VObj (<["message" := VStr "Token refreshed successfully"]>
               (<["token" := VStr token]> ∅))), w) /\
    authenticate now' req' w = ((Next, setUser u req'), w).
Proof.
  intros now now' req req' w s d u Hbody Hs Hv Hf Ha Hc payload token Hround Hbearer.
  split.
  - unfold refresh, asyncHandler, refreshBody, bind, liftExc. rewrite Hbody.
    cbn [truthy]. destruct (String.eqb_spec s "") as [->|_]; [congruence|].
    cbn [negb]. unfold tryCatch, User_findByPk. cbn [verifyRefresh].
    rewrite Hv. fold (byId (tp_userId d)). rewrite Hf, Ha. reflexivity.
  - assert (Hid : id u = tp_userId d).
    { apply find_some in Hf as [_ Hid]. apply String.eqb_eq. exact Hid. }
    apply (authenticate_fresh now' req' w token payload u Hbearer Hround).
    + cbn [tp_userId payload]. rewrite Hid. exact Hf.
    + exact Ha.
    + exact Hc.
Qed.

(** Completing the training is a self-declaration that takes effect at
    once: for an actor attached to the request as its row is stored, the
    handler stores the flag and the date on that row,
    touching neither the password nor its change date, and answers 200
    whether or not the audit store takes the entry; from then on
    [requireHIPAATraining] lets the actor through without writing
    anything. *)
Theorem completed_training_opens_gate :
  forall (now : Z) (req : Request) (w : World) (u : User),
    user req = Some u ->
    find (byId (id u)) (users w) = Some u ->
    let out := completeHipaaTraining auditFault bcrypt_hash now req w in
    let u' := set_hipaaTraining now u in
    (exists payload, fst out = Responded 200 payload) /\
    find (byId (id u)) (users (snd out)) = Some u' /\
    password u' = password u /\
    passwordChangedAt u' = passwordChangedAt u /\
    forall (now' : Z) (req' : Request) (w' : World),
      user req' = Some u' ->
      requireHIPAATraining auditFault now' req' w' = (Ok Next, w').
Proof.
  intros now req w u Hu Hrow out u'. subst out.
  unfold completeHipaaTraining, asyncHandler, completeHipaaTrainingBody.
  rewrite Hu. unfold bind at 1. unfold User_save, beforeUpdate.
  unfold bind. rewrite createManualAuditEntry_eq.
  fold u'. cbn [fst snd ret].
  split; [|split; [|split; [|split]]].
  - destruct (auditFault _); eexists; reflexivity.
  - destruct (auditFault _) eqn:Hfault; cbn [fst snd].
    + cbn [logError setUsers users]. apply (find_byId_saveRow (id u) u u' (users w) Hrow).
      reflexivity.
    + cbn [appendAudit setUsers users].
      apply (find_byId_saveRow (id u) u u' (users w) Hrow). reflexivity.
  - reflexivity.
  - reflexivity.
  - intros now' req' w' Hu'. unfold requireHIPAATraining. rewrite Hu'. reflexivity.
Qed.

(** The world a successful login leaves, with the reply spelled out. *)
Lemma login_reply now req w e p u :
  validateLogin req = [] ->
  getProp (body req) "email" = Ok (VStr e) ->
  getProp (body req) "password" = Ok (VStr p) ->
  find (byEmail e) (users w) = Some u ->
  lockedAt now u = false ->
  bcrypt_compare p (password u) = true ->
  isActive u = true ->
  login auditFault bcrypt_compare bcrypt_hash jwt_sign JWT_SECRET JWT_EXPIRES_IN
        validateLogin now req w
  = (Responded 200
       (VObj (<["message" := VStr "Login successful"]>
             (<["token" := VStr (jwt_sign
                   {| tp_userId := id u; tp_email := email u;
                      tp_role := role u; iat := now / 1000 |}
                   JWT_SECRET (default "8h" (orStr JWT_EXPIRES_IN None)))]>
             (<["user" := toJSON (afterSuccess now u)]>
             (<["requiresHIPAATraining" :=
                  VBool (negb (hipaaTrainingCompleted u))]> ∅))))),
     afterAudit auditFault (loginEntry req u) now
       (setUsers (saveRow (afterSuccess now u) (users w))
                 (notePasswordCheck u w))).
Proof.
  intros Hv He Hp Hf Hl Hc Ha.
  unfold login, asyncHandler, loginBody. rewrite Hv. cbn [length Nat.eqb negb].
  unfold bind, liftExc. rewrite He, Hp. cbn [asEmail].
  unfold User_findByEmail. fold (byEmail e). rewrite Hf.
  unfold lockedAt in Hl. rewrite Hl.
  unfold User_validatePassword. rewrite Hc, Ha. cbn [negb].
  unfold User_save, beforeUpdate. rewrite audit_eq. unfold ret.
  reflexivity.
Qed.

(** The token a successful login hands out passes [authenticateToken] on
    later requests, with the freshly saved row attached, provided the
    actor's last password change is not later than the start of the
    clock second of the login.  A password change later than that, even
    one that happened before the login within the same second, makes the
    token unusable from the start: the token's issue time is rounded
    down to the second, the change date is not. *)
Theorem login_token_authenticates :
  forall (now now' : Z) (req req' : Request) (w : World) (e p : string)
         (u : User),
    validateLogin req = [] ->
    getProp (body req) "email" = Ok (VStr e) ->
    getProp (body req) "password" = Ok (VStr p) ->
    find (byEmail e) (users w) = Some u ->
    find (byId (id u)) (users w) = Some u ->
    lockedAt now u = false ->
    bcrypt_compare p (password u) = true ->
    isActive u = true ->
    let payload := {| tp_userId := id u; tp_email := email u;
                      tp_role := role u; iat := now / 1000 |} in
    let token := jwt_sign payload JWT_SECRET
                          (default "8h" (orStr JWT_EXPIRES_IN None)) in
    jwt_verify token JWT_SECRET = Ok payload ->
    bearerToken req' = Some token ->
    let out := login auditFault bcrypt_compare bcrypt_hash jwt_sign JWT_SECRET
                     JWT_EXPIRES_IN validateLogin now req w in
    (exists payload_, fst out = Responded 200 payload_ /\
                      getProp payload_ "token" = Ok (VStr token)) /\
    ((forall c, passwordChangedAt u = Some c -> (c <= 1000 * (now / 1000))%Z) ->
     authenticate now' req' (snd out)
     = ((Next, setUser (afterSuccess now u) req'), snd out)) /\
    (forall c, passwordChangedAt u = Some c -> (1000 * (now / 1000) < c)%Z ->
     fst (fst (authenticate now' req' (snd out))) <> Next).
Proof.
  intros now now' req req' w e p u Hv He Hp Hfe Hfi Hl Hc Ha payload token
         Hround Hbearer out.
  subst out. rewrite (login_reply now req w e p u Hv He Hp Hfe Hl Hc Ha).
  cbn [fst snd].
  assert (Hrow : find (byId (tp_userId payload))
                      (users (afterAudit auditFault (loginEntry req u) now
                                (setUsers (saveRow (afterSuccess now u) (users w))
                                          (notePasswordCheck u w))))
                 = Some (afterSuccess now u)).
  { rewrite afterAudit_users. cbn [setUsers users payload tp_userId].
    apply (find_byId_saveRow (id u) u (afterSuccess now u) (users w) Hfi).
    reflexivity. }
  split; [|split].
  - eexists. split; [reflexivity|]. reflexivity.
  - intros Hfresh.
    apply (authenticate_fresh now' req' _ token payload (afterSuccess now u)
             Hbearer Hround Hrow).
    + exact Ha.
    + exact Hfresh.
  - intros c Hchanged Hlt.
    apply (authenticate_stale now' req' _ token payload (afterSuccess now u) c
             Hbearer Hround Hrow).
    + exact Hchanged.
    + exact Hlt.
Qed.

End Account.

(** What the loop over the allowed fields leaves in [updates]. *)
Lemma collectUpdates_lookup fields props updates :
  exists result,
    collectUpdates fields (VObj props) updates = Ok result /\
    forall key,
      result !! key =
      if existsb (String.eqb key) fields
      then match props !! key with
           | Some v => if isDefined v then Some v else updates !! key
           | None => updates !! key
           end
      else updates !! key.
Proof.
  revert updates. induction fields as [|field rest IH]; intros updates.
  - exists updates. split; reflexivity.
  - cbn [collectUpdates getProp].
    destruct (IH (if isDefined (default VUndefined (props !! field))
                  then <[field := default VUndefined (props !! field)]> updates
                  else updates)) as (result & Hres & Hlook).
    exists result. split; [exact Hres|].
    intros key. rewrite Hlook. cbn [existsb].
    destruct (String.eqb_spec key field) as [->|Hne]; cbn [orb].
    + destruct (props !! field) as [v|] eqn:Hv; cbv [default from_option Datatypes.id].
      * destruct (isDefined v) eqn:Hd; rewrite ?Hd;
          destruct (existsb _ rest); rewrite ?lookup_insert_eq; reflexivity.
      * cbn [isDefined]. destruct (existsb _ rest); reflexivity.
    + destruct (isDefined (default VUndefined (props !! field)));
        [rewrite lookup_insert_ne by congruence|]; reflexivity.
Qed.

(** The profile update copies from the request body the allowed fields
    that are present, and nothing else: whatever the body holds, the
    update never carries a role, an access level, a training flag, a
    password or any other key outside the list.  A request without a body
    makes it throw. *)
Theorem profile_update_takes_allowed_fields_only :
  (forall (props : gmap string JsVal),
     exists updates,
       profileUpdates (VObj props) = Ok updates /\
       forall key,
         updates !! key =
         if existsb (String.eqb key) allowedFields
         then match props !! key with
              | Some v => if isDefined v then Some v else None
              | None => None
              end
         else None) /\
  (exists e, profileUpdates VUndefined = Throw e /\ errName e = "TypeError").
Proof.
  split.
  - intros props. unfold profileUpdates.
    destruct (collectUpdates_lookup allowedFields props ∅) as (result & Hres & Hlook).
    exists result. split; [exact Hres|].
    intros key. rewrite Hlook, lookup_empty.
    destruct (existsb _ allowedFields); [|reflexivity].
    destruct (props !! key) as [v|]; [|reflexivity].
    destruct (isDefined v); reflexivity.
  - eexists. split; reflexivity.
Qed.

(** Alice logs in a minute after ten past; her token opens the next
    request. *)
Lemma login_token_authenticates_witness :
  fst (fst (authenticateToken Examples.storeUp AccountExamples.verifyAt (Some "access")
              1700000700000 (Examples.getWithToken "token-of-u1-at-1700000600")
              (snd (login Examples.storeUp Examples.compareHash Examples.hashOf
                          AccountExamples.signAt (Some "access") None
                          Examples.noErrors 1700000600000
                          (Examples.postLogin "correct horse") Examples.clinic))))
  = Next.
Proof.
  destruct (login_token_authenticates Examples.storeUp Examples.compareHash
              Examples.hashOf AccountExamples.signAt AccountExamples.verifyAt
              (Some "access") None Examples.noErrors
              1700000600000 1700000700000 (Examples.postLogin "correct horse")
              (Examples.getWithToken "token-of-u1-at-1700000600")
              Examples.clinic "alice@clinic.org" "correct horse" Examples.alice
              eq_refl eq_refl eq_refl eq_refl eq_refl eq_refl eq_refl eq_refl
              eq_refl eq_refl)
    as (_ & Hfresh & _).
  rewrite Hfresh; [reflexivity|].
  intros c Hc. injection Hc as <-. apply Z.leb_le. reflexivity.
Defined.

(** Alice's refresh token of 2023 still buys an access token after her
    password change. *)
Lemma refresh_outlives_password_change_witness :
  fst (fst (authenticateToken Examples.storeUp AccountExamples.verifyAt (Some "access")
              1700000700000 (Examples.getWithToken "token-of-u1-at-1700000600")
              Examples.changedClinic))
  = Next.
Proof.
  destruct (refresh_outlives_password_change Examples.storeUp
              AccountExamples.signAt AccountExamples.verifyAt
              (Some "access") (Some "refresh") None
              1700000600000 1700000700000 AccountExamples.postRefresh
              (Examples.getWithToken "token-of-u1-at-1700000600")
              Examples.changedClinic "refresh-of-u1"
              {| tp_userId := "u1"; tp_email := "alice@clinic.org";
                 tp_role := "provider"; iat := 1690000000 |}
              Examples.aliceChanged
              eq_refl ltac:(discriminate) eq_refl eq_refl eq_refl
              ltac:(intros c Hc; injection Hc as <-; apply Z.leb_le; reflexivity)
              eq_refl eq_refl)
    as (_ & Hnext).
  rewrite Hnext. reflexivity.
Defined.

(** Alice declares her training done and is let through. *)
Lemma completed_training_opens_gate_witness :
  requireHIPAATraining Examples.storeUp 1700000700000
    (setUser (set_hipaaTraining 1700000600000 Examples.alice) Examples.getPatients)
    Examples.clinic
  = (Ok Next, Examples.clinic).
Proof.
  destruct (completed_training_opens_gate Examples.storeUp Examples.hashOf
              1700000600000 AccountExamples.postTraining Examples.clinic
              Examples.alice eq_refl eq_refl)
    as (_ & _ & _ & _ & Hgate).
  apply Hgate. reflexivity.
Defined.

End AccountFacts.


(* ===================================================================== *)
(** * Properties of the error handler                                    *)
(* ===================================================================== *)

Module ErrorFacts.

Import ErrorHandling LockoutFacts.

Lemma not_in_eqb (name : string) (names : list string) :
  ~ In name names -> forallb (fun n => negb (String.eqb name n)) names = true.
Proof.
  intros H. apply forallb_forall. intros n Hn.
  destruct (String.eqb_spec name n) as [->|_]; [contradiction | reflexivity].
Qed.

(** The reply is computed from the error and the environment alone. *)
Lemma errorHandler_reply fault env now err req w :
  fst (errorHandler fault env now err req w) =
  match replyFor env err with
  | Ok reply => Replied reply
  | Throw e => Unanswered e
  end.
Proof.
  unfold errorHandler, errorHandlerBody, bind, console_error, emit, liftExc.
  rewrite createManualAuditEntry_eq.
  destruct (fault _); destruct (replyFor env err); reflexivity.
Qed.

Section Handler.
Variable auditFault : AuditData -> option JsError.
Variable NODE_ENV : option string.

(** The world after the handler's report and audit entry. *)
Definition afterReport (now : Z) (err : ErrorObject) (req : Request) (w : World)
    : World :=
  afterAudit auditFault (errorEntry NODE_ENV err req) now
             (logError "Error occurred:" (base err) w).

Lemma errorHandler_eq now err req w :
  errorHandler auditFault NODE_ENV now err req w =
  (match replyFor NODE_ENV err with
   | Ok reply => Replied reply
   | Throw e => Unanswered e
   end, afterReport now err req w).
Proof.
  unfold errorHandler, errorHandlerBody, bind, console_error, emit, liftExc.
  rewrite createManualAuditEntry_eq. unfold afterReport, afterAudit, logError.
  destruct (auditFault _); destruct (replyFor NODE_ENV err); reflexivity.
Qed.

(** The default reply. *)
Definition serverError (err : ErrorObject) : ErrorReply :=
  mkErrorReply (statusOf (base err)) "Server Error"
    (if envIs NODE_ENV "production" then "An unexpected error occurred"
     else messageOf (base err))
    None
    (if envIs NODE_ENV "development" then Some (errStack err) else None).

Lemma replyFor_default err :
  ~ In (errName (base err)) namedBranches ->
  (forall c, errCode err = Some c -> ~ In c codedBranches) ->
  replyFor NODE_ENV err = Ok (serverError err).
Proof.
  intros Hname Hcode. apply not_in_eqb in Hname.
  cbn [namedBranches forallb] in Hname.
  repeat (apply andb_true_iff in Hname as [?H Hname]).
  repeat match goal with
         | H : negb _ = true |- _ => apply negb_true_iff in H
         end.
  unfold replyFor. cbv zeta.
  repeat match goal with
         | H : String.eqb _ _ = false |- _ => rewrite H; clear H
         end.
  assert (Hc : forall c, In c codedBranches -> hasCode err c = false).
  { intros c Hc. unfold hasCode. destruct (errCode err) as [c'|] eqn:He; [|reflexivity].
    destruct (String.eqb_spec c' c) as [->|_]; [|reflexivity].
    exfalso. apply (Hcode c eq_refl). exact Hc. }
  rewrite !Hc by (cbn; tauto). reflexivity.
Qed.

(** Whatever the error and whatever the audit store does, the handler
    reports the error, leaves the [users] table alone and adds at most
    the one [system_error] entry of severity [high]; its reply does not
    depend on the audit store.  Its promise rejects, so that no reply is
    sent at all, exactly for the two database errors whose [errors]
    cannot be mapped. *)
Theorem error_handler_reply_ignores_audit_store :
  forall (now : Z) (err : ErrorObject) (req : Request) (w : World),
    let out := errorHandler auditFault NODE_ENV now err req w in
    fst out = fst (errorHandler (fun _ => None) NODE_ENV now err req w) /\
    users (snd out) = users w /\
    auditLog (snd out)
    = (auditLog w ++
       match auditFault (errorEntry NODE_ENV err req) with
       | None => [mkAuditRow (errorEntry NODE_ENV err req) now]
       | Some _ => []
       end)%list /\
    eventType (errorEntry NODE_ENV err req) = ev_system_error /\
    severity (errorEntry NODE_ENV err req) = Some sev_high /\
    status (errorEntry NODE_ENV err req) = Some st_failure /\
    errorMessage (errorEntry NODE_ENV err req) = Some (VStr (errMessage (base err))) /\
    ((exists e, fst out = Unanswered e) <->
     (errName (base err) = "SequelizeValidationError" \/
      errName (base err) = "SequelizeUniqueConstraintError") /\
     exists e, fieldMessages (errErrors err) = Throw e).
Proof.
  intros now err req w out. subst out. rewrite !errorHandler_reply.
  rewrite errorHandler_eq. cbn [fst snd].
  split; [reflexivity|].
  split; [unfold afterReport; rewrite afterAudit_users; reflexivity|].
  split.
  { unfold afterReport, afterAudit.
    destruct (auditFault _); cbn [logError appendAudit auditLog];
      [rewrite app_nil_r|]; reflexivity. }
  do 4 (split; [reflexivity|]).
  unfold replyFor. cbv zeta.
  destruct (String.eqb_spec (errName (base err)) "ValidationError") as [Hn|_].
  { rewrite Hn. split; [intros [e He]; discriminate He|].
    intros [[H|H] _]; discriminate H. }
  destruct (String.eqb_spec (errName (base err)) "SequelizeValidationError") as [Hn|Hv].
  { destruct (fieldMessages (errErrors err)) as [fields|e].
    - split; [intros [e He]; discriminate He|]. intros [_ [e He]]. discriminate He.
    - split; [|intros _; exists e; reflexivity].
      intros _. split; [left; exact Hn | exists e; reflexivity]. }
  destruct (String.eqb_spec (errName (base err)) "SequelizeUniqueConstraintError")
    as [Hn|Hu].
  { destruct (fieldMessages (errErrors err)) as [fields|e].
    - split; [intros [e He]; discriminate He|]. intros [_ [e He]]. discriminate He.
    - split; [|intros _; exists e; reflexivity].
      intros _. split; [right; exact Hn | exists e; reflexivity]. }
  split.
  - intros [e He].
    repeat match type of He with
           | context [if ?c then _ else _] => destruct c
           end; discriminate He.
  - intros [[H|H] _]; contradiction.
Qed.

(** An error whose name and code have no branch of their own is answered
    by the default branch.  The application's own error classes never
    set a name, so each of them ends there: the reply carries the status
    code of the class under the label [Server Error], the validation
    details are dropped, and in production the message is replaced. *)
Theorem application_errors_answered_as_server_error :
  forall (now : Z) (err : ErrorObject) (req : Request) (w : World),
    ~ In (errName (base err)) namedBranches ->
    (forall c, errCode err = Some c -> ~ In c codedBranches) ->
    fst (errorHandler auditFault NODE_ENV now err req w)
    = Replied (serverError err) /\
    replyError (serverError err) = "Server Error" /\
    replyDetails (serverError err) = None /\
    (NODE_ENV = Some "production" ->
     replyMessage (serverError err) = "An unexpected error occurred") /\
    (forall msg errors stack,
       err = thrown (ValidationError msg) errors stack ->
       replyStatus (serverError err) = 400) /\
    (forall msg errors stack,
       err = thrown (AuthenticationError msg) errors stack ->
       replyStatus (serverError err) = 401).
Proof.
  intros now err req w Hname Hcode. rewrite errorHandler_eq. cbn [fst].
  rewrite (replyFor_default err Hname Hcode).
  split; [reflexivity|]. split; [reflexivity|]. split; [reflexivity|].
  split; [|split].
  - intros Henv. unfold serverError. rewrite Henv. reflexivity.
  - intros msg errors stack ->. reflexivity.
  - intros msg errors stack ->. reflexivity.
Qed.

End Handler.

Section LoginFailures.
Variable auditFault : AuditData -> option JsError.
Variable NODE_ENV : option string.
Variable bcrypt_compare : string -> string -> bool.
Variable bcrypt_hash : string -> string.
Variable jwt_sign : TokenPayload -> option string -> string -> string.
Variable JWT_SECRET : option string.
Variable JWT_EXPIRES_IN : option string.
Variable validateLogin : Request -> list string.

(** What the login handler can pass to [next(err)]: one of the
    application's errors, or a runtime error without a status code. *)
Lemma login_errors now req w e w1 :
  login auditFault bcrypt_compare bcrypt_hash jwt_sign JWT_SECRET JWT_EXPIRES_IN
        validateLogin now req w = (NextError e, w1) ->
  (errName e = "Error" \/ errName e = "TypeError") /\
  In (statusOf e) [400; 401; 500].
Proof.
  unfold login, asyncHandler, loginBody, bind, liftExc, throw, ret,
    User_findByEmail, User_validatePassword, User_save.
  destruct (negb _).
  { intros H. injection H as <- _. cbn. auto. }
  destruct (getProp (body req) "email") as [email_|e1] eqn:He.
  2:{ intros H. injection H as <- _.
      destruct (body req); cbn in He; try discriminate He;
        injection He as <-; cbn; auto. }
  destruct (getProp (body req) "password") as [password_|e2] eqn:Hp.
  2:{ intros H. injection H as <- _.
      destruct (body req); cbn in Hp; try discriminate Hp;
        injection Hp as <-; cbn; auto. }
  destruct (asEmail email_) as [address|e3] eqn:Ha.
  2:{ intros H. injection H as <- _.
      destruct email_; cbn in Ha; try discriminate Ha; injection Ha as <-; cbn; auto. }
  destruct (find _ (users w)) as [u|].
  2:{ rewrite audit_eq. intros H. injection H as <- _. cbn. auto. }
  destruct (match lockedUntil u with Some _ => _ | None => _ end).
  { rewrite audit_eq. intros H. injection H as <- _. cbn. auto. }
  destruct password_; try (intros H; injection H as <- _; cbn; auto).
  destruct (negb (bcrypt_compare s (password u))).
  { rewrite audit_eq. intros H. injection H as <- _. cbn. auto. }
  destruct (negb (isActive u)).
  { rewrite audit_eq. intros H. injection H as <- _. cbn. auto. }
  rewrite audit_eq. intros H. discriminate H.
Qed.

(** No rejected login is answered with the validation or authentication
    reply: whatever the login handler passes on is answered by the
    default branch, under the label [Server Error], with status 400, 401
    or 500 and, in production, without its message; and it is recorded
    once more, as a [system_error] of severity [high]. *)
Theorem rejected_login_answered_as_server_error :
  forall (now now' : Z) (req : Request) (w w1 : World) (e : JsError)
         (errors : option (list JsVal)) (stack : JsVal),
    login auditFault bcrypt_compare bcrypt_hash jwt_sign JWT_SECRET JWT_EXPIRES_IN
          validateLogin now req w = (NextError e, w1) ->
    let err := thrown e errors stack in
    let out := errorHandler auditFault NODE_ENV now' err req w1 in
    fst out = Replied (serverError NODE_ENV err) /\
    In (replyStatus (serverError NODE_ENV err)) [400; 401; 500] /\
    (NODE_ENV = Some "production" ->
     replyMessage (serverError NODE_ENV err) = "An unexpected error occurred") /\
    (auditFault (errorEntry NODE_ENV err req) = None ->
     auditLog (snd out)
     = (auditLog w1 ++ [mkAuditRow (errorEntry NODE_ENV err req) now'])%list).
Proof.
  intros now now' req w w1 e errors stack Hlogin err out.
  destruct (login_errors now req w e w1 Hlogin) as (Hname & Hstatus).
  assert (Hbranch : ~ In (errName (base err)) namedBranches).
  { subst err. cbn [thrown base namedBranches In].
    destruct Hname as [-> | ->]; intuition discriminate. }
  assert (Hcode : forall c, errCode err = Some c -> ~ In c codedBranches)
    by (intros c Hc; discriminate Hc).
  subst out. rewrite errorHandler_eq. rewrite (replyFor_default NODE_ENV err Hbranch Hcode).
  cbn [fst snd]. split; [reflexivity|]. split; [exact Hstatus|]. split.
  - intros Henv. unfold serverError. rewrite Henv. reflexivity.
  - intros Hstore. unfold afterReport, afterAudit. rewrite Hstore. reflexivity.
Qed.

End LoginFailures.

(** A validation failure thrown by a route is answered 400 under the
    label of the default branch. *)
Lemma application_errors_witness :
  fst (errorHandler Examples.storeUp (Some "production") 1700000000000
         (thrown (ValidationError "Validation failed") (Some []) (VStr "at login"))
         (Examples.postLogin "x") Examples.clinic)
  = Replied (mkErrorReply 400 "Server Error" "An unexpected error occurred" None None).
Proof.
  destruct (application_errors_answered_as_server_error Examples.storeUp
              (Some "production") 1700000000000
              (thrown (ValidationError "Validation failed") (Some []) (VStr "at login"))
              (Examples.postLogin "x") Examples.clinic
              ltac:(cbn; intuition discriminate)
              ltac:(intros c Hc; discriminate Hc))
    as (Hreply & _).
  rewrite Hreply. reflexivity.
Defined.

(** A login on Alice's locked account leaves two entries: the denial
    and the error handler's. *)
Lemma rejected_login_witness :
  map (fun row => eventType (rowData row))
      (auditLog (snd (errorHandler Examples.storeUp (Some "production") 1700000300001
         (thrown (AuthenticationError
            "Account is temporarily locked due to multiple failed login attempts")
            None VUndefined)
         (Examples.postLogin "correct horse")
         (snd (login Examples.storeUp Examples.compareHash Examples.hashOf
                     Examples.signToken None None Examples.noErrors 1700000300000
                     (Examples.postLogin "correct horse") Examples.lockedClinic)))))
  = [ev_access_denied; ev_system_error].
Proof.
  destruct (rejected_login_answered_as_server_error Examples.storeUp
              (Some "production") Examples.compareHash Examples.hashOf
              Examples.signToken None None Examples.noErrors
              1700000300000 1700000300001 (Examples.postLogin "correct horse")
              Examples.lockedClinic
              (snd (login Examples.storeUp Examples.compareHash Examples.hashOf
                     Examples.signToken None None Examples.noErrors 1700000300000
                     (Examples.postLogin "correct horse") Examples.lockedClinic))
              (AuthenticationError
                 "Account is temporarily locked due to multiple failed login attempts")
              None VUndefined eq_refl)
    as (_ & _ & _ & Hlog).
  cbv zeta in Hlog. rewrite Hlog by reflexivity. reflexivity.
Defined.

End ErrorFacts.


(* ===================================================================== *)
(** * Properties of the session timeout                                  *)
(* ===================================================================== *)

Module SessionFacts.

Import SessionTimeout.

Lemma last_of_nonempty {A} (x : A) (l : list A) (d d' : A) :
  List.last (x :: l) d = List.last (x :: l) d'.
Proof.
  revert x. induction l as [|y l IH]; intros x; [reflexivity|].
  change (List.last (y :: l) d = List.last (y :: l) d'). apply IH.
Qed.

(** The gaps between consecutive requests, the first one counted from
    [start]. *)
Fixpoint gapsWithin (limit : Z) (start : Z) (times : list Z) : Prop :=
  match times with
  | [] => True
  | t :: later => (t - start <= limit)%Z /\ gapsWithin limit t later
  end.

Section Middleware.
Variable auditFault : AuditData -> option JsError.

(** The timeout slides: as long as each request follows the previous
    one within the limit, every request of the run is let through,
    however long the run lasts, the world is left as it was, and the
    session ends up stamped with the time of the last request. *)
Theorem session_stays_alive_while_active :
  forall (minutes : Z) (req : Request) (u : User) (start : Z) (times : list Z)
         (w : World),
    user req = Some u ->
    gapsWithin (minutes * 60 * 1000) start times ->
    requests auditFault (Some minutes) req times {| lastActivity := Some start |} w
    = (length times, Kept {| lastActivity := Some (List.last times start) |}, w).
Proof.
  intros minutes req u start times w Hu. revert start.
  induction times as [|t later IH]; intros start Hgaps; [reflexivity|].
  destruct Hgaps as [Hgap Hlater].
  cbn [requests]. unfold checkSessionTimeout. rewrite Hu.
  cbn [fmap option_fmap option_map lastActivity exceeds].
  destruct (Z.ltb_spec (minutes * 60 * 1000) (t - start)) as [Hlt|_]; [lia|].
  unfold ret. rewrite (IH t Hlater). cbn [length].
  destruct later as [|t' later]; [reflexivity|].
  rewrite (last_of_nonempty t' later t start). reflexivity.
Qed.

(** The edges of the timeout.  Without a signed-in actor the middleware
    passes the request on and touches nothing.  When the limit is not
    configured (it parses to [NaN]) no session ever expires.  With a
    configured limit, a session is refused exactly when more than the
    limit has passed since its last activity, counted from the epoch for
    a session that has none yet: such a session is refused at any time
    later than the limit.  A refusal destroys the session and answers 401
    whatever the audit store does. *)
Theorem session_timeout_edges :
  forall (limit : option Z) (now : Z) (req : Request) (s : Session) (w : World),
    let out := checkSessionTimeout auditFault limit now req (Some s) w in
    (user req = None -> out = (Ok (Next, Some (Kept s)), w)) /\
    (forall u, user req = Some u ->
       (limit = None ->
        out = (Ok (Next, Some (Kept {| lastActivity := Some now |})), w)) /\
       (forall minutes, limit = Some minutes ->
          let last := default 0 (lastActivity s) in
          (now - last <= minutes * 60 * 1000 ->
           out = (Ok (Next, Some (Kept {| lastActivity := Some now |})), w)) /\
          (minutes * 60 * 1000 < now - last ->
           fst out = Ok (Responded 401
                           (errorBody "Session expired"
                              "Your session has expired. Please login again."),
                         Some Destroyed) /\
           users (snd out) = users w /\
           (auditFault (timeoutEntry req u) = None ->
            auditLog (snd out)
            = (auditLog w ++ [mkAuditRow (timeoutEntry req u) now])%list)))).
Proof.
  intros limit now req s w out. subst out. unfold checkSessionTimeout.
  split.
  - intros ->. reflexivity.
  - intros u ->. split.
    + intros ->. reflexivity.
    + intros minutes ->. cbv zeta.
      cbn [fmap option_fmap option_map exceeds].
      assert (Hlast : match lastActivity s with
                      | Some t => t
                      | None => 0
                      end = default 0 (lastActivity s))
        by (destruct (lastActivity s); reflexivity).
      rewrite Hlast. split.
      * intros Hle.
        destruct (Z.ltb_spec (minutes * 60 * 1000) (now - default 0 (lastActivity s)));
          [lia | reflexivity].
      * intros Hlt.
        destruct (Z.ltb_spec (minutes * 60 * 1000) (now - default 0 (lastActivity s)));
          [|lia].
        unfold bind. rewrite GateFacts.fireAndForget_eq.
        destruct (auditFault (timeoutEntry req u)) eqn:Hfault; cbn.
        -- repeat split. intros Hnone. discriminate Hnone.
        -- repeat split.
Qed.

End Middleware.

(** With a limit of fifteen minutes, three requests ten minutes apart
    all pass, half an hour after the session was last seen. *)
Lemma session_stays_alive_witness :
  requests Examples.storeUp (Some 15) Examples.getPatients
           [1700000600000; 1700001200000; 1700001800000]
           SessionExamples.activeSession Examples.clinic
  = (3%nat, Kept {| lastActivity := Some 1700001800000 |}, Examples.clinic).
Proof.
  apply (session_stays_alive_while_active Examples.storeUp 15 Examples.getPatients
           Examples.alice 1700000000000
           [1700000600000; 1700001200000; 1700001800000] Examples.clinic eq_refl).
  cbn [gapsWithin]. lia.
Defined.

End SessionFacts.


(* ===================================================================== *)
(** * Properties of the lab summary                                      *)
(* ===================================================================== *)

Module LabSummaryFacts.

Import LabSummary.

(** The results of one patient, in the order of the input. *)
Definition resultsOf (pid : string) (rs : list LabResult) : list LabResult :=
  List.filter (fun r => String.eqb (patientId r) pid) rs.

(** A group after the items of further results were added. *)
Definition extend (g : PatientGroup) (rs : list LabResult) : PatientGroup :=
  {| patient := patient g;
     results := results g ++ map itemOf rs;
     summary := {| totalResults := totalResults (summary g) + Z.of_nat (length rs);
                   abnormalResults := abnormalResults (summary g);
                   normalResults := normalResults (summary g) |} |}.

Definition newGroup (r : LabResult) : PatientGroup :=
  {| patient := Patient r; results := []; summary := mkCounts 0 0 0 |}.

Lemma extend_nil g : extend g [] = g.
Proof.
  destruct g as [p rs [t a n]]. unfold extend. cbn.
  rewrite app_nil_r, Z.add_0_r. reflexivity.
Qed.

Lemma extend_cons g r rs :
  extend {| patient := patient g; results := results g ++ [itemOf r];
            summary := increment (summary g) |} rs
  = extend g (r :: rs).
Proof.
  unfold extend, increment. cbn [patient results summary totalResults
    abnormalResults normalResults map length].
  rewrite <- app_assoc. cbn [app]. f_equal. f_equal. lia.
Qed.

Lemma addResult_lookup acc r pid :
  patients (addResult acc r) !! pid =
  if String.eqb (patientId r) pid
  then Some (extend (default (newGroup r) (patients acc !! pid)) [r])
  else patients acc !! pid.
Proof.
  unfold addResult. cbv zeta. cbn [patients].
  destruct (String.eqb_spec (patientId r) pid) as [->|Hne].
  - destruct (patients acc !! pid) as [g|] eqn:Hg.
    + rewrite Hg. rewrite lookup_insert_eq. cbn [default].
      unfold extend, increment. cbn. reflexivity.
    + rewrite lookup_insert_eq. rewrite lookup_insert_eq. reflexivity.
  - destruct (patients acc !! patientId r) as [g|] eqn:Hg.
    + rewrite Hg. rewrite lookup_insert_ne by exact Hne. reflexivity.
    + rewrite lookup_insert_eq.
      rewrite !lookup_insert_ne by exact Hne. reflexivity.
Qed.

Lemma fold_lookup rs acc pid :
  patients (fold_left addResult rs acc) !! pid =
  match patients acc !! pid with
  | Some g => Some (extend g (resultsOf pid rs))
  | None =>
      match resultsOf pid rs with
      | [] => None
      | r :: rest => Some (extend (newGroup r) (r :: rest))
      end
  end.
Proof.
  revert acc. induction rs as [|r rs IH]; intros acc.
  - cbn. destruct (patients acc !! pid) as [g|]; [rewrite extend_nil|]; reflexivity.
  - cbn [fold_left]. rewrite IH, addResult_lookup. unfold resultsOf.
    cbn [List.filter].
    destruct (String.eqb (patientId r) pid).
    + destruct (patients acc !! pid) as [g|]; cbn [default].
      * f_equal. apply (extend_cons g r).
      * f_equal. apply (extend_cons (newGroup r) r).
    + reflexivity.
Qed.

Lemma fold_summary rs acc :
  reportSummary (fold_left addResult rs acc)
  = {| totalResults := totalResults (reportSummary acc) + Z.of_nat (length rs);
       abnormalResults := abnormalResults (reportSummary acc);
       normalResults := normalResults (reportSummary acc) |}.
Proof.
  revert acc. induction rs as [|r rs IH]; intros acc.
  - cbn. rewrite Z.add_0_r. destruct (reportSummary acc). reflexivity.
  - cbn [fold_left]. rewrite IH. cbn [addResult reportSummary increment
      totalResults abnormalResults normalResults length]. f_equal. lia.
Qed.

(** The lab summary counts every result twice in its overall total,
    which starts at the number of results and is incremented once more
    per result, while each patient's own total is the number of that
    patient's results.  A patient appears exactly when it has a result;
    its entry carries the patient of its first result and one item per
    result, in the order of the input.  Nothing is ever counted as normal
    or abnormal. *)
Theorem lab_summary_counts_results_twice :
  forall (rs : list LabResult),
    let report := processLabSummaryData rs in
    totalResults (reportSummary report) = 2 * Z.of_nat (length rs) /\
    abnormalResults (reportSummary report) = 0 /\
    normalResults (reportSummary report) = 0 /\
    forall pid,
      patients report !! pid =
      match resultsOf pid rs with
      | [] => None
      | first :: rest =>
          Some {| patient := Patient first;
                  results := map itemOf (first :: rest);
                  summary := mkCounts (Z.of_nat (length (first :: rest))) 0 0 |}
      end.
Proof.
  intros rs report. subst report. unfold processLabSummaryData.
  rewrite fold_summary. cbn [reportSummary totalResults abnormalResults normalResults].
  split; [lia|]. split; [reflexivity|]. split; [reflexivity|].
  intros pid. rewrite fold_lookup. cbn [patients]. rewrite lookup_empty.
  destruct (resultsOf pid rs) as [|first rest]; reflexivity.
Qed.

End LabSummaryFacts.
